(** * Open in Terminal: launch-command synthesis and settings normalisation

    A shallow embedding of the plugin's launcher (launcher.ts), settings
    model (settings.ts), logger (logger.ts) and the command-building path of
    main.ts, together with the properties the specification states about
    them.

    Conventions of the embedding.
    - A JavaScript string is a Rocq [string]; every [ascii] is one code unit
      in the range U+0000..U+00FF.  On that range [String.prototype.trim]
      strips exactly the code units 9-13, 32 and 160, and
      [String.prototype.toLowerCase] is the per-code-unit map [lowerUnit].
    - An optional parameter ([toolCommand?: string]) is an [option string];
      JavaScript truthiness of it is [present].
    - Code that touches the file system, the console or the logger runs in
      the monad [Eff]: a function from a [World] to a [Completion], which is
      either a normal return or a thrown error, each with the world after. *)

From Stdlib Require Import String Ascii Bool List Arith ZArith Lia.
From stdpp Require Import base option gmap strings.

Local Open Scope string_scope.

(** ** JavaScript string primitives used by the sources *)

Module JsString.

Definition DQUOTE : ascii := "034"%char.
Definition SQUOTE : ascii := "039"%char.
Definition BACKSLASH : ascii := "092"%char.
Definition LF : ascii := "010"%char.

(** One-character strings for the characters that template literals of the
    sources contain and that are awkward inside a Rocq string literal. *)
Definition dq : string := String DQUOTE EmptyString.
Definition sq : string := String SQUOTE EmptyString.
Definition nl : string := String LF EmptyString.

(** WhiteSpace and LineTerminator code units below 256:
    TAB, LF, VT, FF, CR, SP and NBSP. *)
Definition isWhiteSpace (c : ascii) : bool :=
  let n := nat_of_ascii c in
  (((9 <=? n) && (n <=? 13)) || (n =? 32) || (n =? 160))%nat.

Fixpoint trimStart (s : string) : string :=
  match s with
  | EmptyString => EmptyString
  | String c r => if isWhiteSpace c then trimStart r else s
  end.

Fixpoint trimEnd (s : string) : string :=
  match s with
  | EmptyString => EmptyString
  | String c r =>
      match trimEnd r with
      | EmptyString => if isWhiteSpace c then EmptyString else String c EmptyString
      | r' => String c r'
      end
  end.

(** [s.trim()] *)
Definition trim (s : string) : string := trimEnd (trimStart s).

(** A string made of white space only (the empty string included). *)
Fixpoint isBlank (s : string) : bool :=
  match s with
  | EmptyString => true
  | String c r => isWhiteSpace c && isBlank r
  end.

(** Lower-case mapping of one code unit below 256: A-Z and the Latin-1
    capitals U+00C0..U+00DE (the multiplication sign U+00D7 excepted) move
    up by 32, every other code unit is kept. *)
Definition lowerUnit (c : ascii) : ascii :=
  let n := nat_of_ascii c in
  if (((65 <=? n) && (n <=? 90))
      || ((192 <=? n) && (n <=? 222) && negb (n =? 215)))%nat
  then ascii_of_nat (n + 32)
  else c.

(** [s.toLowerCase()] *)
Fixpoint toLowerCase (s : string) : string :=
  match s with
  | EmptyString => EmptyString
  | String c r => String (lowerUnit c) (toLowerCase r)
  end.

(** [s.replace(/c/g, by)] for a one-character pattern [c] and a
    replacement text [by] that holds no [$] pattern. *)
Fixpoint replaceAll (c : ascii) (by_ : string) (s : string) : string :=
  match s with
  | EmptyString => EmptyString
  | String x r =>
      if Ascii.eqb x c then by_ +:+ replaceAll c by_ r
      else String x (replaceAll c by_ r)
  end.

(** [s.includes(needle)] *)
Fixpoint includes (needle s : string) : bool :=
  String.prefix needle s ||
  match s with
  | EmptyString => false
  | String _ r => includes needle r
  end.

(** [s.startsWith(p)] and [s.endsWith(p)], used to state properties. *)
Definition startsWith (p s : string) : bool := String.prefix p s.

Fixpoint endsWith (p s : string) : bool :=
  String.eqb p s ||
  match s with
  | EmptyString => false
  | String _ r => endsWith p r
  end.

(** Truthiness of a string value: every string but the empty one. *)
Definition truthy (s : string) : bool :=
  match s with
  | EmptyString => false
  | String _ _ => true
  end.

(** Truthiness of an optional string parameter: [undefined] and the empty
    string are falsy. *)
Definition present (o : option string) : bool :=
  match o with
  | Some s => truthy s
  | None => false
  end.

(** [lines.join(sep)] *)
Fixpoint join (sep : string) (lines : list string) : string :=
  match lines with
  | [] => EmptyString
  | [l] => l
  | l :: rest => l +:+ sep +:+ join sep rest
  end.

End JsString.

Import JsString.

(** ** The host: platform facts, file system, console *)

(** The fields of Obsidian's [Platform] object that the sources read. *)
Record PlatformFacts := {
  isDesktopApp : bool;
  isMacOS : bool;
  isWin : bool;
  isLinux : bool;
  isMobileApp : bool;
  isIosApp : bool;
  isAndroidApp : bool
}.

(** The platform categories of the synthesiser, in the order in which
    [buildLaunchCommand] tests the platform facts. *)
Inductive PlatformCategory := MacOS | Windows | LinuxBsdDesktop | NonDesktop.

Definition platformCategory (P : PlatformFacts) : PlatformCategory :=
  if negb (isDesktopApp P) then NonDesktop
  else if isMacOS P then MacOS
  else if isWin P then Windows
  else LinuxBsdDesktop.

Module Host.

(** An entry of the file system: a directory, or a regular file with its
    content and permission bits. *)
Inductive Node :=
| Directory
| File (content : string) (mode : N).

(** A thrown value: a system error with its code and the path involved. *)
Record JsError := SystemError { code : string; errPath : string }.

Inductive ConsoleLevel := Debug | Warn.

(** The state the sources act upon.
    - [files]: the file system, absolute path to node;
    - [osTmpdir]: what [os.tmpdir()] returns;
    - [suffixes]: the random suffixes [mkdtemp] will draw, in order;
    - [faults]: for every coming file-system call, in order, whether the
      operating system fails it and with which error (an exhausted
      schedule means no further failure);
    - [console]: the lines written to the console so far, oldest first
      (the level and the message text; further arguments are not kept);
    - [loggerEnabled]: the [enabled] field of the [logger] object;
    - [umask]: the file mode creation mask of the process;
    - [tornWrites]: for every coming write that the host fails, in order,
      how far it got: [None] when the file was not even opened, [Some n]
      when it was opened and the first [n] code units were written (an
      exhausted schedule means the file was not opened). *)
Record World := {
  files : gmap string Node;
  osTmpdir : string;
  suffixes : list string;
  faults : list (option JsError);
  console : list (ConsoleLevel * string);
  loggerEnabled : bool;
  umask : N;
  tornWrites : list (option nat)
}.

Definition withFiles (f : gmap string Node) (w : World) : World :=
  {| files := f; osTmpdir := osTmpdir w; suffixes := suffixes w;
     faults := faults w; console := console w;
     loggerEnabled := loggerEnabled w; umask := umask w;
     tornWrites := tornWrites w |}.

Definition withSuffixes (l : list string) (w : World) : World :=
  {| files := files w; osTmpdir := osTmpdir w; suffixes := l;
     faults := faults w; console := console w;
     loggerEnabled := loggerEnabled w; umask := umask w;
     tornWrites := tornWrites w |}.

Definition withFaults (l : list (option JsError)) (w : World) : World :=
  {| files := files w; osTmpdir := osTmpdir w; suffixes := suffixes w;
     faults := l; console := console w;
     loggerEnabled := loggerEnabled w; umask := umask w;
     tornWrites := tornWrites w |}.

Definition withConsole (l : list (ConsoleLevel * string)) (w : World) : World :=
  {| files := files w; osTmpdir := osTmpdir w; suffixes := suffixes w;
     faults := faults w; console := l;
     loggerEnabled := loggerEnabled w; umask := umask w;
     tornWrites := tornWrites w |}.

Definition withTornWrites (l : list (option nat)) (w : World) : World :=
  {| files := files w; osTmpdir := osTmpdir w; suffixes := suffixes w;
     faults := faults w; console := console w;
     loggerEnabled := loggerEnabled w; umask := umask w;
     tornWrites := l |}.

(** How a call completes: normally with a value, or abruptly with a
    thrown error; in both cases in a new world. *)
Inductive Completion (A : Type) :=
| Normal (a : A) (w : World)
| Thrown (e : JsError) (w : World).
Arguments Normal {A} a w.
Arguments Thrown {A} e w.

Definition Eff (A : Type) : Type := World -> Completion A.

Definition ret {A} (a : A) : Eff A := fun w => Normal a w.

Definition bind {A B} (c : Eff A) (k : A -> Eff B) : Eff B :=
  fun w =>
    match c w with
    | Normal a w' => k a w'
    | Thrown e w' => Thrown e w'
    end.

(** [try { body } catch (error) { handler }] *)
Definition tryCatch {A} (body : Eff A) (handler : JsError -> Eff A) : Eff A :=
  fun w =>
    match body w with
    | Normal a w' => Normal a w'
    | Thrown e w' => handler e w'
    end.

Definition returned {A} (c : Completion A) : option A :=
  match c with
  | Normal a _ => Some a
  | Thrown _ _ => None
  end.

(** The entry of the fault schedule that decides the next file-system call,
    and the world once that entry is consumed. *)
Definition nextFault (w : World) : option JsError := hd None (faults w).

Definition consumeFault (w : World) : World := withFaults (tl (faults w)) w.

(** [os.tmpdir()] *)
Definition tmpdir : Eff string := fun w => Normal (osTmpdir w) w.

(** [path.join(a, b)] on a POSIX host, for a normalised directory [a]
    without trailing separator and a plain name [b]. *)
Definition pathJoin (a b : string) : string := a +:+ "/" +:+ b.

(** The first suffix of the supply that makes an unused path. *)
Fixpoint firstFresh (fs : gmap string Node) (pre : string) (supply : list string)
  : option (string * list string) :=
  match supply with
  | [] => None
  | s :: rest =>
      match fs !! (pre +:+ s) with
      | None => Some (s, rest)
      | Some _ => firstFresh fs pre rest
      end
  end.

(** [fs.mkdtempSync(prefix)]: creates a directory named by the prefix and
    a random suffix that is not in use, and returns its path; fails with
    EEXIST when no unused name is found. *)
Definition mkdtempSync (pre : string) : Eff string :=
  fun w =>
    let w1 := consumeFault w in
    match nextFault w with
    | Some e => Thrown e w1
    | None =>
        match firstFresh (files w1) pre (suffixes w1) with
        | None => Thrown (SystemError "EEXIST" pre) (withSuffixes [] w1)
        | Some (s, rest) =>
            let dir := pre +:+ s in
            Normal dir
              (withFiles (<[dir := Directory]> (files w1)) (withSuffixes rest w1))
        end
    end.

(** The file system once [path] has been opened for writing (created when
    missing, with the permission bits [mode] less the bits of the mask;
    emptied when it is a file, whose bits stay) and [text] written to it.
    A directory at [path] cannot be opened for writing. *)
Definition storeFile (path text : string) (mode mask : N) (fs : gmap string Node)
  : option (gmap string Node) :=
  match fs !! path with
  | None => Some (<[path := File text (N.ldiff mode mask)]> fs)
  | Some (File _ bits) => Some (<[path := File text bits]> fs)
  | Some Directory => None
  end.

(** What a write that the host fails leaves behind: nothing new when the
    file was not opened, and the file with the first [n] code units of the
    content when the failure came after that. *)
Definition tornWrite (path content : string) (mode : N) (w : World) : World :=
  let w1 := withTornWrites (tl (tornWrites w)) w in
  match hd None (tornWrites w) with
  | None => w1
  | Some n =>
      match storeFile path (String.substring 0 n content) mode (umask w) (files w) with
      | Some fs => withFiles fs w1
      | None => w1
      end
  end.

(** [fs.writeFileSync(path, content, { mode })], for a [path] whose
    directory exists (the one call of the sources writes into the directory
    that [mkdtempSync] has just made): the file is opened for writing,
    which creates it with [mode & ~umask] or empties it, and the content is
    written.  A failure of the host may come before or after the file is
    opened. *)
Definition writeFileSync (path content : string) (mode : N) : Eff unit :=
  fun w =>
    let w1 := consumeFault w in
    match nextFault w with
    | Some e => Thrown e (tornWrite path content mode w1)
    | None =>
        match storeFile path content mode (umask w1) (files w1) with
        | Some fs => Normal tt (withFiles fs w1)
        | None => Thrown (SystemError "EISDIR" path) w1
        end
    end.

(** [p] is [dir] itself or lies beneath it. *)
Definition within (dir p : string) : bool :=
  String.eqb p dir || String.prefix (dir +:+ "/") p.

(** [fs.rmSync(path, { recursive: true, force: true })]: removes the entry
    and everything beneath it; a missing entry is not an error. *)
Definition rmSync (path : string) : Eff unit :=
  fun w =>
    let w1 := consumeFault w in
    match nextFault w with
    | Some e => Thrown e w1
    | None =>
        Normal tt (withFiles (filter (fun kv => within path kv.1 = false) (files w1)) w1)
    end.

(** [console.warn(text, ...)] *)
Definition console_warn (text : string) : Eff unit :=
  fun w => Normal tt (withConsole (console w ++ [(Warn, text)]) w).

(** [console.debug(text, ...)] *)
Definition console_debug (text : string) : Eff unit :=
  fun w => Normal tt (withConsole (console w ++ [(Debug, text)]) w).

(** [logger.log(text, ...)] of logger.ts: writes to the console only when
    the logger is enabled. *)
Definition logger_log (text : string) : Eff unit :=
  fun w =>
    if loggerEnabled w then console_debug ("[open-in-terminal] " +:+ text) w
    else Normal tt w.

(** The world after [logger.log(text, ...)]. *)
Definition logged (text : string) (w : World) : World :=
  if loggerEnabled w
  then withConsole (console w ++ [(Debug, "[open-in-terminal] " +:+ text)]) w
  else w.

End Host.

Import Host.

Notation "x <- c ;; k" := (bind c (fun x => k))
  (at level 100, c at next level, right associativity).
Notation "c ;;; k" := (bind c (fun _ => k))
  (at level 100, right associativity).

(** ** launcher.ts *)

Module Launcher.

(** [type LaunchCommand = { command: string; cleanup?: () => void }] *)
Record LaunchCommand := {
  command : string;
  cleanup : option (Eff unit)
}.

(** The text [s] between two double-quote characters, as the template
    literals of the source write it. *)
Definition inQuotes (s : string) : string := dq +:+ s +:+ dq.

(** The text a template literal shows for an optional string. *)
Definition interpolate (o : option string) : string :=
  match o with
  | Some s => s
  | None => "undefined"
  end.

Definition sanitizeTerminalApp (value : string) : string := trim value.

(** [value.replace(/"/g, '\\"')] *)
Definition escapeDoubleQuotes (value : string) : string :=
  replaceAll DQUOTE (String BACKSLASH dq) value.

(** The closure [cleanup] that [ensureTempScript] returns, with the
    directory it captures as its parameter. *)
Definition tempScriptCleanup (dir : string) : Eff unit :=
  tryCatch
    (rmSync dir ;;;
     logger_log "Cleaned temp script")
    (fun error => console_warn "[open-in-terminal] Failed to remove temp script").

Definition ensureTempScript (content : string) : Eff (string * Eff unit) :=
  base <- tmpdir ;;
  dir <- mkdtempSync (pathJoin base "open-in-terminal-") ;;
  let filePath := pathJoin dir "launch.command" in
  logger_log "Creating temp script" ;;;
  writeFileSync filePath content 493 (* 0o755 *) ;;;
  ret (filePath, tempScriptCleanup dir).

Definition buildMacLaunch (terminalApp vaultPath : string) (toolCommand : option string)
  : Eff (option LaunchCommand) :=
  let app := sanitizeTerminalApp terminalApp in
  if negb (truthy app) then ret None
  else if negb (present toolCommand) then
    let escapedApp := escapeDoubleQuotes app in
    let escapedPath := escapeDoubleQuotes vaultPath in
    let command := "open -na " +:+ inQuotes escapedApp +:+ " " +:+ inQuotes escapedPath in
    logger_log "macOS simple launch" ;;;
    ret (Some {| command := command; cleanup := None |})
  else
    let escapedVaultPath := escapeDoubleQuotes vaultPath in
    let scriptLines := ["#!/bin/bash"; "cd " +:+ inQuotes escapedVaultPath] in
    let scriptLines :=
      if present toolCommand then (scriptLines ++ [interpolate toolCommand])%list
      else scriptLines in
    let scriptLines := (scriptLines ++ ["exec " +:+ inQuotes "$SHELL"])%list in
    script <- ensureTempScript (join nl scriptLines) ;;
    let command :=
      "open -na " +:+ inQuotes (escapeDoubleQuotes app) +:+ " " +:+ inQuotes script.1 in
    logger_log "macOS script launch" ;;;
    ret (Some {| command := command; cleanup := Some script.2 |}).

Definition buildWindowsLaunch (terminalApp vaultPath : string) (toolCommand : option string)
  : Eff (option LaunchCommand) :=
  let app := sanitizeTerminalApp terminalApp in
  if negb (truthy app) then ret None
  else
    let escapedVault := replaceAll DQUOTE dq vaultPath in
    let cdCommand := "cd /d " +:+ inQuotes escapedVault in
    let tool :=
      if present toolCommand then " && " +:+ interpolate toolCommand
      else EmptyString in
    let lowerApp := toLowerCase app in
    if String.eqb lowerApp "cmd.exe" || String.eqb lowerApp "cmd" then
      let command :=
        if present toolCommand
        then "start " +:+ inQuotes EmptyString +:+ " cmd.exe /K " +:+ inQuotes (cdCommand +:+ tool)
        else "start " +:+ inQuotes EmptyString +:+ " cmd.exe /K " +:+ inQuotes cdCommand in
      logger_log "Windows launch (cmd.exe)" ;;;
      ret (Some {| command := command; cleanup := None |})
    else if String.eqb lowerApp "powershell" || String.eqb lowerApp "powershell.exe" then
      if negb (present toolCommand) then
        let command :=
          "start " +:+ inQuotes EmptyString +:+ " powershell -NoExit -Command "
          +:+ inQuotes ("Set-Location " +:+ sq +:+ replaceAll SQUOTE (sq +:+ sq) vaultPath
                        +:+ sq +:+ ";") in
        logger_log "Windows launch (powershell)" ;;;
        ret (Some {| command := command; cleanup := None |})
      else
        let command :=
          "start " +:+ inQuotes EmptyString +:+ " powershell -NoExit -Command "
          +:+ inQuotes ("Set-Location " +:+ sq +:+ replaceAll SQUOTE (sq +:+ sq) vaultPath
                        +:+ sq +:+ "; " +:+ interpolate toolCommand) in
        logger_log "Windows launch (powershell tool)" ;;;
        ret (Some {| command := command; cleanup := None |})
    else if String.eqb lowerApp "wt.exe" || String.eqb lowerApp "wt" then
      let command :=
        if present toolCommand
        then "start " +:+ inQuotes EmptyString +:+ " wt.exe new-tab cmd /K "
             +:+ inQuotes (cdCommand +:+ tool)
        else "start " +:+ inQuotes EmptyString +:+ " wt.exe new-tab cmd /K "
             +:+ inQuotes cdCommand in
      logger_log "Windows launch (wt)" ;;;
      ret (Some {| command := command; cleanup := None |})
    else if negb (present toolCommand) then
      let command := "start " +:+ inQuotes EmptyString +:+ " " +:+ inQuotes app in
      logger_log "Windows launch (generic simple)" ;;;
      ret (Some {| command := command; cleanup := None |})
    else
      let command :=
        "start " +:+ inQuotes EmptyString +:+ " cmd.exe /K " +:+ inQuotes (cdCommand +:+ tool) in
      logger_log "Windows launch (generic tool fallback)" ;;;
      ret (Some {| command := command; cleanup := None |}).

Definition buildUnixLaunch (terminalApp : string) (toolCommand : option string)
  : Eff (option LaunchCommand) :=
  let app := sanitizeTerminalApp terminalApp in
  if negb (truthy app) then ret None
  else if negb (present toolCommand) then
    let command := app in
    logger_log "Unix launch (simple)" ;;;
    ret (Some {| command := command; cleanup := None |})
  else
    let shellCommand :=
      "cd " +:+ inQuotes "$PWD" +:+ "; " +:+ interpolate toolCommand
      +:+ "; exec " +:+ inQuotes "$SHELL" in
    if includes "gnome-terminal" app then
      let command := app +:+ " -- bash -lc " +:+ inQuotes shellCommand in
      logger_log "Unix launch (gnome-terminal)" ;;;
      ret (Some {| command := command; cleanup := None |})
    else if includes "konsole" app then
      let command := app +:+ " -e bash -lc " +:+ inQuotes shellCommand in
      logger_log "Unix launch (konsole)" ;;;
      ret (Some {| command := command; cleanup := None |})
    else
      let command := app +:+ " -e bash -lc " +:+ inQuotes shellCommand in
      logger_log "Unix launch (generic tool)" ;;;
      ret (Some {| command := command; cleanup := None |}).

Section WithPlatform.

Variable Platform : PlatformFacts.

Definition getPlatformSummary : string :=
  if isDesktopApp Platform then
    if isMacOS Platform then "desktop-macos"
    else if isWin Platform then "desktop-windows"
    else if isLinux Platform then "desktop-linux"
    else "desktop-unknown"
  else if isMobileApp Platform then
    if isIosApp Platform then "mobile-ios"
    else if isAndroidApp Platform then "mobile-android"
    else "mobile-unknown"
  else "unknown".

(** The source declares three parameters; see [Main.composeLaunchCommand]
    for the call that passes a fourth argument. *)
Definition buildLaunchCommand (terminalApp vaultPath : string) (toolCommand : option string)
  : Eff (option LaunchCommand) :=
  if negb (isDesktopApp Platform) then ret None
  else if isMacOS Platform then buildMacLaunch terminalApp vaultPath toolCommand
  else if isWin Platform then buildWindowsLaunch terminalApp vaultPath toolCommand
  else buildUnixLaunch terminalApp toolCommand.

End WithPlatform.

End Launcher.

Import Launcher.

(** ** settings.ts *)

Module Settings.

(** A value of type [unknown], as the persistence store can hand it over:
    the JSON values and [undefined].  The payload of a number is never
    inspected by the settings code. *)
#[local] Set Warnings "-register-all".
Inductive JsValue :=
| JUndefined
| JNull
| JBool (b : bool)
| JNumber (n : Z)
| JString (s : string)
| JArray (items : list JsValue)
| JObject (fields : gmap string JsValue).
#[local] Set Warnings "register-all".

(** [value.key] on a value that passed [isRecord]: an own property of an
    object, [undefined] otherwise (an array has none of the names the
    settings code reads). *)
Definition getProp (value : JsValue) (key : string) : JsValue :=
  match value with
  | JObject fields => default JUndefined (fields !! key)
  | _ => JUndefined
  end.

(** [type DesktopPlatform = 'win' | 'macos' | 'linux'] *)
Inductive DesktopPlatform := Win | Macos | Linux.

(** [type TerminalAppByPlatform = { win?: string; macos?: string; linux?: string }] *)
Record TerminalAppByPlatform := {
  win : option string;
  macos : option string;
  linux : option string
}.

Record OpenInTerminalSettings := {
  terminalApp : TerminalAppByPlatform;
  enableClaude : bool;
  enableCodex : bool;
  enableCursor : bool;
  enableGemini : bool;
  enableOpencode : bool;
  enableWslOnWindows : bool
}.

(** The object literal [{}]. *)
Definition emptySlots : TerminalAppByPlatform :=
  {| win := None; macos := None; linux := None |}.

(** [terminalApp[platform]] *)
Definition getSlot (t : TerminalAppByPlatform) (p : DesktopPlatform) : option string :=
  match p with
  | Win => win t
  | Macos => macos t
  | Linux => linux t
  end.

(** [{ ...t, [platform]: value }] *)
Definition setSlot (t : TerminalAppByPlatform) (p : DesktopPlatform) (value : string)
  : TerminalAppByPlatform :=
  match p with
  | Win => {| win := Some value; macos := macos t; linux := linux t |}
  | Macos => {| win := win t; macos := Some value; linux := linux t |}
  | Linux => {| win := win t; macos := macos t; linux := Some value |}
  end.

(** [typeof value === 'object' && value !== null] *)
Definition isRecord (value : JsValue) : bool :=
  match value with
  | JObject _ | JArray _ => true
  | _ => false
  end.

Definition readBoolean (value : JsValue) (fallback : bool) : bool :=
  match value with
  | JBool b => b
  | _ => fallback
  end.

(** [typeof v === 'string' ? v.trim() : absent], the step that fills one
    slot of [next] in [normalizeTerminalAppSetting]. *)
Definition readSlot (v : JsValue) : option string :=
  match v with
  | JString s => Some (trim s)
  | _ => None
  end.

Section WithPlatform.

Variable Platform : PlatformFacts.

Definition defaultTerminalApp : string :=
  if negb (isDesktopApp Platform) then EmptyString
  else if isMacOS Platform then "Terminal"
  else if isWin Platform then "cmd.exe"
  else if isLinux Platform then "x-terminal-emulator"
  else EmptyString.

Definition getCurrentDesktopPlatform : option DesktopPlatform :=
  if negb (isDesktopApp Platform) then None
  else if isMacOS Platform then Some Macos
  else if isWin Platform then Some Win
  else if isLinux Platform then Some Linux
  else None.

Definition buildDefaultTerminalAppSetting : TerminalAppByPlatform :=
  let platform := getCurrentDesktopPlatform in
  let app := defaultTerminalApp in
  match platform with
  | None => emptySlots
  | Some p => setSlot emptySlots p app
  end.

Definition DEFAULT_SETTINGS : OpenInTerminalSettings :=
  {| terminalApp := buildDefaultTerminalAppSetting;
     enableClaude := false;
     enableCodex := false;
     enableCursor := false;
     enableGemini := false;
     enableOpencode := false;
     enableWslOnWindows := false |}.

Definition normalizeTerminalAppSetting (value : JsValue) (fallback : TerminalAppByPlatform)
  : TerminalAppByPlatform :=
  let platform := getCurrentDesktopPlatform in
  match value with
  | JString s =>
      match platform with
      | None => fallback
      | Some p => setSlot emptySlots p (trim s)
      end
  | _ =>
      if isRecord value then
        {| win := readSlot (getProp value "win");
           macos := readSlot (getProp value "macos");
           linux := readSlot (getProp value "linux") |}
      else fallback
  end.

Definition normalizeSettings (stored : JsValue) : OpenInTerminalSettings :=
  let source := if isRecord stored then stored else JObject ∅ in
  {| terminalApp :=
       normalizeTerminalAppSetting (getProp source "terminalApp")
         (terminalApp DEFAULT_SETTINGS);
     enableClaude :=
       readBoolean (getProp source "enableClaude") (enableClaude DEFAULT_SETTINGS);
     enableCodex :=
       readBoolean (getProp source "enableCodex") (enableCodex DEFAULT_SETTINGS);
     enableCursor :=
       readBoolean (getProp source "enableCursor") (enableCursor DEFAULT_SETTINGS);
     enableGemini :=
       readBoolean (getProp source "enableGemini") (enableGemini DEFAULT_SETTINGS);
     enableOpencode :=
       readBoolean (getProp source "enableOpencode") (enableOpencode DEFAULT_SETTINGS);
     enableWslOnWindows :=
       readBoolean (getProp source "enableWslOnWindows")
         (enableWslOnWindows DEFAULT_SETTINGS) |}.

Definition getCurrentTerminalApp (t : TerminalAppByPlatform) : string :=
  match getCurrentDesktopPlatform with
  | None => EmptyString
  | Some p => default EmptyString (getSlot t p)
  end.

Definition setCurrentTerminalApp (t : TerminalAppByPlatform) (value : string)
  : TerminalAppByPlatform :=
  match getCurrentDesktopPlatform with
  | None => t
  | Some p => setSlot t p (trim value)
  end.

End WithPlatform.

(** A settings object seen again as a value of type [unknown]: the object
    with the properties that are set. *)
Definition withSlot (key : string) (o : option string) (fields : gmap string JsValue)
  : gmap string JsValue :=
  match o with
  | Some s => <[key := JString s]> fields
  | None => fields
  end.

Definition terminalAppValue (t : TerminalAppByPlatform) : JsValue :=
  JObject (withSlot "win" (win t) (withSlot "macos" (macos t) (withSlot "linux" (linux t) ∅))).

Definition settingsValue (s : OpenInTerminalSettings) : JsValue :=
  JObject
    (<["terminalApp" := terminalAppValue (terminalApp s)]>
     (<["enableClaude" := JBool (enableClaude s)]>
      (<["enableCodex" := JBool (enableCodex s)]>
       (<["enableCursor" := JBool (enableCursor s)]>
        (<["enableGemini" := JBool (enableGemini s)]>
         (<["enableOpencode" := JBool (enableOpencode s)]>
          (<["enableWslOnWindows" := JBool (enableWslOnWindows s)]> ∅))))))).

End Settings.

Import Settings.

(** ** main.ts: the command-building path *)

Module Main.

(** The object literal passed as fourth argument of [buildLaunchCommand]. *)
Record LaunchOptions := { useWslOnWindows : bool }.

(** A call that passes one argument more than the callee declares: the
    surplus argument is evaluated and dropped. *)
Definition callWithSurplus {A B : Type} (callee : A) (surplus : B) : A := callee.

Section WithPlatform.

Variable Platform : PlatformFacts.

(** [adapter] is [Some basePath] when the vault adapter is a
    [FileSystemAdapter], and [None] otherwise. *)
Definition composeLaunchCommand (settings : OpenInTerminalSettings)
  (adapter : option string) (toolCommand : option string)
  : Eff (option LaunchCommand) :=
  match adapter with
  | None => ret None
  | Some vaultPath =>
      let terminalApp := getCurrentTerminalApp Platform (terminalApp settings) in
      launchCommand <-
        callWithSurplus
          (buildLaunchCommand Platform terminalApp vaultPath toolCommand)
          {| useWslOnWindows := enableWslOnWindows settings |} ;;
      logger_log "Compose launch command" ;;;
      ret launchCommand
  end.

End WithPlatform.

End Main.

Import Main.

(** ** Sample hosts *)

Definition macPlatform : PlatformFacts :=
  {| isDesktopApp := true; isMacOS := true; isWin := false; isLinux := false;
     isMobileApp := false; isIosApp := false; isAndroidApp := false |}.

Definition winPlatform : PlatformFacts :=
  {| isDesktopApp := true; isMacOS := false; isWin := true; isLinux := false;
     isMobileApp := false; isIosApp := false; isAndroidApp := false |}.

Definition linuxPlatform : PlatformFacts :=
  {| isDesktopApp := true; isMacOS := false; isWin := false; isLinux := true;
     isMobileApp := false; isIosApp := false; isAndroidApp := false |}.

Definition androidPlatform : PlatformFacts :=
  {| isDesktopApp := false; isMacOS := false; isWin := false; isLinux := false;
     isMobileApp := true; isIosApp := false; isAndroidApp := true |}.

(** A quiet host: a temporary directory, one suffix for [mkdtemp], no
    scheduled failure, logging off, the usual mask. *)
Definition quietWorld : World :=
  {| files := {[ "/tmp" := Directory ]};
     osTmpdir := "/tmp";
     suffixes := ["Ab3xZ9"];
     faults := [];
     console := [];
     loggerEnabled := false;
     umask := 18 (* 0o022 *);
     tornWrites := [] |}.

(** The same host run by a user who keeps new files private. *)
Definition privateWorld : World :=
  {| files := files quietWorld;
     osTmpdir := osTmpdir quietWorld;
     suffixes := suffixes quietWorld;
     faults := faults quietWorld;
     console := console quietWorld;
     loggerEnabled := loggerEnabled quietWorld;
     umask := 63 (* 0o077 *);
     tornWrites := tornWrites quietWorld |}.

(** ** Vocabulary of the properties *)

(** A string is in head-normal form when it does not start with white
    space. *)
Definition headClean (s : string) : Prop :=
  match s with
  | EmptyString => True
  | String c _ => isWhiteSpace c = false
  end.

(** A run that only logs: it returns normally and leaves the file system,
    the suffix supply and the fault schedule as they were. *)
Definition quietRun {A} (c : Eff A) (w : World) : Prop :=
  exists a w', c w = Normal a w' /\ files w' = files w
               /\ suffixes w' = suffixes w /\ faults w' = faults w.

(** The shell fragment that [buildUnixLaunch] wraps around a tool command. *)
Definition unixFragment (t : string) : string :=
  "cd " +:+ inQuotes "$PWD" +:+ "; " +:+ t +:+ "; exec " +:+ inQuotes "$SHELL".

(** The templates of the Windows branch, as documented: [start] with an
    empty window title, then the shell and its payload in double quotes. *)
Definition winStart : string := "start " +:+ inQuotes EmptyString.

(** [start "" cmd.exe /K "<payload>"] *)
Definition winCmdK (payload : string) : string :=
  winStart +:+ " cmd.exe /K " +:+ inQuotes payload.

(** [start "" powershell -NoExit -Command "<payload>"] *)
Definition winPowershell (payload : string) : string :=
  winStart +:+ " powershell -NoExit -Command " +:+ inQuotes payload.

(** [start "" wt.exe new-tab cmd /K "<payload>"] *)
Definition winTerminal (payload : string) : string :=
  winStart +:+ " wt.exe new-tab cmd /K " +:+ inQuotes payload.

(** The directory change: the working directory, as it is, in double
    quotes. *)
Definition winCd (dir : string) : string := "cd /d " +:+ inQuotes dir.

(** [Set-Location] to the working directory in single quotes, every single
    quote of it doubled. *)
Definition winSetLocation (dir : string) : string :=
  "Set-Location " +:+ sq +:+ replaceAll SQUOTE (sq +:+ sq) dir +:+ sq.

(** The three families of shell names, tested on the lower-cased name. *)
Definition isCmdName (l : string) : Prop := l = "cmd.exe" \/ l = "cmd".

Definition isPowershellName (l : string) : Prop := l = "powershell" \/ l = "powershell.exe".

Definition isWtName (l : string) : Prop := l = "wt.exe" \/ l = "wt".

(** A text made fit for a double-quoted shell word the way the
    specification says: a backslash goes before every double quote, and
    nothing else changes. *)
Fixpoint backslashQuoted (s : string) : string :=
  match s with
  | EmptyString => EmptyString
  | String c r =>
      if ascii_dec c DQUOTE
      then String BACKSLASH (String DQUOTE (backslashQuoted r))
      else String c (backslashQuoted r)
  end.

(** Whether the owner of a file with these permission bits may execute
    it. *)
Definition ownerMayExecute (bits : N) : bool := N.testbit bits 6.

(** The text of the temporary script: the shebang line, the change into the
    escaped working directory, the tool command line and the hand-over to
    the login shell, joined by line feeds. *)
Definition macScript (dir t : string) : string :=
  "#!/bin/bash" +:+ nl
  +:+ "cd " +:+ inQuotes (backslashQuoted dir) +:+ nl
  +:+ t +:+ nl
  +:+ "exec " +:+ inQuotes "$SHELL".

(** An own property of a stored object: [Some v] when the key is present. *)
Definition storedField (stored : JsValue) (key : string) : option JsValue :=
  match stored with
  | JObject fields => fields !! key
  | _ => None
  end.

(** The stored value of a field when it is present and of boolean type. *)
Definition storedBoolean (stored : JsValue) (key : string) : option bool :=
  match storedField stored key with
  | Some (JBool b) => Some b
  | _ => None
  end.

(** The stored value of a field when it is present and a string. *)
Definition storedString (stored : JsValue) (key : string) : option string :=
  match storedField stored key with
  | Some (JString s) => Some s
  | _ => None
  end.

(** Every slot that is set holds a trimmed text. *)
Definition trimmedSlots (t : TerminalAppByPlatform) : Prop :=
  forall p s, getSlot t p = Some s -> trim s = s.

(** The settings after the toggle of the settings tab stores [value] in
    [enableWslOnWindows]. *)
Definition setEnableWslOnWindows (value : bool) (s : OpenInTerminalSettings)
  : OpenInTerminalSettings :=
  {| terminalApp := terminalApp s;
     enableClaude := enableClaude s;
     enableCodex := enableCodex s;
     enableCursor := enableCursor s;
     enableGemini := enableGemini s;
     enableOpencode := enableOpencode s;
     enableWslOnWindows := value |}.

(** Settings of a Windows user: cmd.exe as terminal, the Claude target on. *)
Definition cmdSettings : OpenInTerminalSettings :=
  {| terminalApp := {| win := Some "cmd.exe"; macos := None; linux := None |};
     enableClaude := true;
     enableCodex := false;
     enableCursor := false;
     enableGemini := false;
     enableOpencode := false;
     enableWslOnWindows := false |}.

(** ** logger.ts, targets.ts, command-manager.ts and the rest of main.ts *)

Module Logger.

(** [logger.setEnabled(value)] *)
Definition setEnabled (value : bool) : Eff unit :=
  fun w =>
    Normal tt
      {| files := files w; osTmpdir := osTmpdir w; suffixes := suffixes w;
         faults := faults w; console := console w; loggerEnabled := value;
         umask := umask w; tornWrites := tornWrites w |}.

End Logger.

Module Targets.

(** [type OptionalTargetSettingKey] *)
Inductive OptionalTargetSettingKey :=
| EnableClaude
| EnableCodex
| EnableCursor
| EnableGemini
| EnableOpencode.

(** [type LaunchTarget] *)
Record LaunchTarget := {
  id : string;
  commandName : string;
  toolCommand : option string;
  settingKey : option OptionalTargetSettingKey;
  settingLabel : option string
}.

Definition optionalLaunchTargets : list LaunchTarget :=
  [ {| id := "open-claude"; commandName := "Open in Claude Code";
       toolCommand := Some "claude"; settingKey := Some EnableClaude;
       settingLabel := Some "Claude Code" |};
    {| id := "open-codex"; commandName := "Open in Codex cli";
       toolCommand := Some "codex"; settingKey := Some EnableCodex;
       settingLabel := Some "Codex cli" |};
    {| id := "open-cursor"; commandName := "Open in Cursor cli";
       toolCommand := Some "agent"; settingKey := Some EnableCursor;
       settingLabel := Some "Cursor cli" |};
    {| id := "open-gemini"; commandName := "Open in Gemini cli";
       toolCommand := Some "gemini"; settingKey := Some EnableGemini;
       settingLabel := Some "Gemini cli" |};
    {| id := "open-opencode"; commandName := "Open in OpenCode";
       toolCommand := Some "opencode"; settingKey := Some EnableOpencode;
       settingLabel := Some "OpenCode" |} ].

Definition launchTargets : list LaunchTarget :=
  {| id := "open-terminal"; commandName := "Open in terminal";
     toolCommand := None; settingKey := None; settingLabel := None |}
  :: optionalLaunchTargets.

(** [settings[key]] *)
Definition readFlag (settings : OpenInTerminalSettings) (key : OptionalTargetSettingKey)
  : bool :=
  match key with
  | EnableClaude => enableClaude settings
  | EnableCodex => enableCodex settings
  | EnableCursor => enableCursor settings
  | EnableGemini => enableGemini settings
  | EnableOpencode => enableOpencode settings
  end.

(** [settings[key] = value], the assignment made by a toggle of the
    settings tab. *)
Definition writeFlag (settings : OpenInTerminalSettings) (key : OptionalTargetSettingKey)
  (value : bool) : OpenInTerminalSettings :=
  {| terminalApp := terminalApp settings;
     enableClaude := match key with EnableClaude => value | _ => enableClaude settings end;
     enableCodex := match key with EnableCodex => value | _ => enableCodex settings end;
     enableCursor := match key with EnableCursor => value | _ => enableCursor settings end;
     enableGemini := match key with EnableGemini => value | _ => enableGemini settings end;
     enableOpencode :=
       match key with EnableOpencode => value | _ => enableOpencode settings end;
     enableWslOnWindows := enableWslOnWindows settings |}.

Definition isTargetEnabled (settings : OpenInTerminalSettings) (target : LaunchTarget)
  : bool :=
  match settingKey target with
  | None => true
  | Some key => readFlag settings key
  end.

End Targets.

Module CommandManager.

(** What [resolveCommandManager] inspects of [app.commands]: whether its
    [findCommand] and [removeCommand] properties are functions. *)
Record CommandsObject := {
  findCommandIsFunction : bool;
  removeCommandIsFunction : bool
}.

(** [maybeCommands] is [None] when [app.commands] is missing. *)
Definition resolveCommandManager (maybeCommands : option CommandsObject)
  : option CommandsObject :=
  match maybeCommands with
  | Some c =>
      if findCommandIsFunction c && removeCommandIsFunction c then Some c else None
  | None => None
  end.

End CommandManager.

Module Plugin.

Import Targets CommandManager.

(** A command of the palette as [addCommand] received it: its name, and
    the target that its callback captures. *)
Record PaletteCommand := {
  paletteName : string;
  paletteTarget : LaunchTarget
}.

(** The plugin and the part of the application it registers commands with.
    - [settings]: [this.settings];
    - [registeredCommandIds]: the [Set] of that name, in insertion order;
    - [palette]: the commands of the application, by full identifier;
    - [appCommands]: [app.commands] as [resolveCommandManager] sees it;
    - [manifestId]: [this.manifest.id]. *)
Record PluginState := {
  settings : OpenInTerminalSettings;
  registeredCommandIds : list string;
  palette : gmap string PaletteCommand;
  appCommands : option CommandsObject;
  manifestId : string
}.

(** [set.add(x)] on a [Set] kept in insertion order. *)
Definition setAdd (x : string) (set : list string) : list string :=
  if existsb (String.eqb x) set then set else (set ++ [x])%list.

(** The identifier a command gets in the palette:
    [`${this.manifest.id}:${target.id}`]. *)
Definition fullId (manifest : string) (target : LaunchTarget) : string :=
  manifest +:+ ":" +:+ Targets.id target.

(** [this.addCommand({ id, name, callback })]: the application files the
    command under its full identifier, replacing a command of that
    identifier. *)
Definition addCommand (manifest : string) (target : LaunchTarget)
  (pal : gmap string PaletteCommand) : gmap string PaletteCommand :=
  <[fullId manifest target :=
      {| paletteName := commandName target; paletteTarget := target |}]> pal.

(** The first loop of [refreshCommands]: every registered identifier that
    [findCommand] finds is removed. *)
Definition removeRegistered (ids : list string) (pal : gmap string PaletteCommand)
  : gmap string PaletteCommand :=
  fold_left
    (fun acc fullId =>
       match acc !! fullId with
       | Some _ => delete fullId acc
       | None => acc
       end)
    ids pal.

(** The second loop of [refreshCommands], over the targets. *)
Definition registerTargets (settings : OpenInTerminalSettings) (manifest : string)
  (targets : list LaunchTarget) (start : gmap string PaletteCommand * list string)
  : gmap string PaletteCommand * list string :=
  fold_left
    (fun acc target =>
       if negb (isTargetEnabled settings target) then acc
       else (addCommand manifest target acc.1, setAdd (fullId manifest target) acc.2))
    targets start.

Definition refreshCommands (st : PluginState) : PluginState :=
  let commandManager := resolveCommandManager (appCommands st) in
  let pal :=
    match commandManager with
    | Some _ => removeRegistered (registeredCommandIds st) (palette st)
    | None => palette st
    end in
  let registered := registerTargets (settings st) (manifestId st) launchTargets (pal, []) in
  {| settings := settings st;
     registeredCommandIds := registered.2;
     palette := registered.1;
     appCommands := appCommands st;
     manifestId := manifestId st |}.

(** [loadSettings] for the value [stored] that [loadData] resolves to. *)
Definition loadSettings (P : PlatformFacts) (stored : JsValue) (st : PluginState)
  : PluginState :=
  {| settings := normalizeSettings P stored;
     registeredCommandIds := registeredCommandIds st;
     palette := palette st;
     appCommands := appCommands st;
     manifestId := manifestId st |}.

(** [saveSettings]: the value handed to [saveData], and the plugin after
    [refreshCommands]. *)
Definition saveSettings (st : PluginState) : JsValue * PluginState :=
  (settingsValue (settings st), refreshCommands st).

End Plugin.

Module Shell.

Import Targets.

(** [TEMP_SCRIPT_CLEANUP_DELAY_MS] *)
Definition TEMP_SCRIPT_CLEANUP_DELAY_MS : N := 30000.

(** The state that running a command acts upon, around the host [World].
    - [notices]: the texts of the [Notice]s shown, oldest first;
    - [consoleErrors]: the texts written with [console.error];
    - [spawned]: the processes started, each with its command line and its
      working directory;
    - [timers]: the callbacks handed to [setTimeout], each with its delay;
    - [spawnFaults]: for every coming call of [spawn], in order, whether it
      throws and with which error (an exhausted schedule means no further
      failure). *)
Record Desk := {
  world : World;
  notices : list string;
  consoleErrors : list string;
  spawned : list (string * string);
  timers : list (N * Eff unit);
  spawnFaults : list (option JsError)
}.

Definition withWorld (w : World) (d : Desk) : Desk :=
  {| world := w; notices := notices d; consoleErrors := consoleErrors d;
     spawned := spawned d; timers := timers d; spawnFaults := spawnFaults d |}.

Inductive Outcome (A : Type) :=
| Done (a : A) (d : Desk)
| Raised (e : JsError) (d : Desk).
Arguments Done {A} a d.
Arguments Raised {A} e d.

Definition App (A : Type) : Type := Desk -> Outcome A.

Definition pure {A} (a : A) : App A := fun d => Done a d.

Definition andThen {A B} (c : App A) (k : A -> App B) : App B :=
  fun d =>
    match c d with
    | Done a d' => k a d'
    | Raised e d' => Raised e d'
    end.

(** A computation on the host, run inside the desk. *)
Definition onHost {A} (c : Eff A) : App A :=
  fun d =>
    match c (world d) with
    | Normal a w => Done a (withWorld w d)
    | Thrown e w => Raised e (withWorld w d)
    end.

(** [try { body } catch (error) { handler } finally { last }] *)
Definition tryCatchFinally (body : App unit) (handler : JsError -> App unit)
  (last : App unit) : App unit :=
  fun d =>
    match body d with
    | Done _ d1 => last d1
    | Raised e d1 =>
        match handler e d1 with
        | Done _ d2 => last d2
        | Raised e' d2 =>
            match last d2 with
            | Done _ d3 => Raised e' d3
            | Raised e'' d3 => Raised e'' d3
            end
        end
    end.

(** [new Notice(text)] *)
Definition newNotice (text : string) : App unit :=
  fun d =>
    Done tt {| world := world d; notices := notices d ++ [text];
               consoleErrors := consoleErrors d; spawned := spawned d;
               timers := timers d; spawnFaults := spawnFaults d |}.

(** [console.error(text, error)] *)
Definition console_error (text : string) : App unit :=
  fun d =>
    Done tt {| world := world d; notices := notices d;
               consoleErrors := consoleErrors d ++ [text]; spawned := spawned d;
               timers := timers d; spawnFaults := spawnFaults d |}.

(** [spawn(command, { cwd, shell: true, detached: true, stdio: 'ignore' })]
    followed by the registration of the error listener and [child.unref()]:
    the call throws when the schedule says so, and starts the process
    otherwise. *)
Definition spawn (commandLine cwd : string) : App unit :=
  fun d =>
    let rest := tl (spawnFaults d) in
    match hd None (spawnFaults d) with
    | Some e =>
        Raised e {| world := world d; notices := notices d;
                    consoleErrors := consoleErrors d; spawned := spawned d;
                    timers := timers d; spawnFaults := rest |}
    | None =>
        Done tt {| world := world d; notices := notices d;
                   consoleErrors := consoleErrors d;
                   spawned := spawned d ++ [(commandLine, cwd)];
                   timers := timers d; spawnFaults := rest |}
    end.

(** [setTimeout(callback, delay)] *)
Definition setTimeout (callback : Eff unit) (delay : N) : App unit :=
  fun d =>
    Done tt {| world := world d; notices := notices d;
               consoleErrors := consoleErrors d; spawned := spawned d;
               timers := timers d ++ [(delay, callback)];
               spawnFaults := spawnFaults d |}.

(** The callback that [executeShellCommand] hands to [setTimeout]. *)
Definition delayedCleanup (cleanup : Eff unit) : Eff unit :=
  tryCatch cleanup
    (fun error => console_warn "[open-in-terminal] Cleanup after command failed").

(** The listener that [executeShellCommand] registers for the [error] event
    of the child process. *)
Definition childErrorListener (launchCommand : LaunchCommand) (label : string) : App unit :=
  andThen
    (console_error ("[open-in-terminal] Failed to run '" +:+ command launchCommand +:+ "':"))
    (fun _ =>
       newNotice ("Failed to run " +:+ label
                  +:+ ". Check the developer console for details.")).

(** [adapter] is [Some basePath] when the vault adapter is a
    [FileSystemAdapter], and [None] otherwise. *)
Definition executeShellCommand (adapter : option string)
  (launchCommand : LaunchCommand) (label : string) : App unit :=
  match adapter with
  | None =>
      newNotice "File system adapter not available. This plugin works only on desktop."
  | Some vaultPath =>
      tryCatchFinally
        (andThen (onHost (logger_log "Spawning command")) (fun _ =>
         andThen (spawn (command launchCommand) vaultPath) (fun _ =>
         onHost (logger_log "Spawned command successfully"))))
        (fun error =>
           andThen
             (console_error ("[open-in-terminal] Unexpected error for '"
                             +:+ command launchCommand +:+ "':"))
             (fun _ =>
                newNotice ("Failed to run " +:+ label
                           +:+ ". Check the developer console for details.")))
        (match cleanup launchCommand with
         | Some cleanup => setTimeout (delayedCleanup cleanup) TEMP_SCRIPT_CLEANUP_DELAY_MS
         | None => pure tt
         end)
  end.

Definition runLaunchCommand (adapter : option string)
  (buildCommand : App (option LaunchCommand)) (label : string) : App unit :=
  andThen buildCommand (fun launchCommand =>
    match launchCommand with
    | None =>
        newNotice ("Unable to run " +:+ label
                   +:+ ". Check the open in terminal settings for the terminal application name.")
    | Some launchCommand => executeShellCommand adapter launchCommand label
    end).

(** The callback that [refreshCommands] registers for a target. *)
Definition commandCallback (P : PlatformFacts) (settings : OpenInTerminalSettings)
  (adapter : option string) (target : LaunchTarget) : App unit :=
  runLaunchCommand adapter
    (onHost (composeLaunchCommand P settings adapter (Targets.toolCommand target)))
    (commandName target).

End Shell.

(** A desk around a host, with nothing shown, started or scheduled yet. *)
Definition freshDesk (w : World) : Shell.Desk :=
  {| Shell.world := w; Shell.notices := []; Shell.consoleErrors := [];
     Shell.spawned := []; Shell.timers := []; Shell.spawnFaults := [] |}.

(** ** Vocabulary of the further properties *)

(** [settings.terminalApp = value], the assignment made by the text field of
    the settings tab. *)
Definition withTerminalApp (value : TerminalAppByPlatform) (s : OpenInTerminalSettings)
  : OpenInTerminalSettings :=
  {| terminalApp := value;
     enableClaude := enableClaude s;
     enableCodex := enableCodex s;
     enableCursor := enableCursor s;
     enableGemini := enableGemini s;
     enableOpencode := enableOpencode s;
     enableWslOnWindows := enableWslOnWindows s |}.

(** The settings objects the plugin can hold: what [loadSettings] produces,
    and what the three kinds of edit of the settings tab make of it. *)
Inductive Reachable (P : PlatformFacts) : OpenInTerminalSettings -> Prop :=
| reach_load (stored : JsValue) : Reachable P (normalizeSettings P stored)
| reach_terminalApp (s : OpenInTerminalSettings) (value : string) :
    Reachable P s ->
    Reachable P (withTerminalApp (setCurrentTerminalApp P (terminalApp s) value) s)
| reach_wsl (s : OpenInTerminalSettings) (value : bool) :
    Reachable P s -> Reachable P (setEnableWslOnWindows value s)
| reach_flag (s : OpenInTerminalSettings) (key : Targets.OptionalTargetSettingKey)
    (value : bool) :
    Reachable P s -> Reachable P (Targets.writeFlag s key value).

(** The names of the properties that [normalizeSettings] reads. *)
Definition settingsKeys : list string :=
  ["terminalApp"; "enableClaude"; "enableCodex"; "enableCursor"; "enableGemini";
   "enableOpencode"; "enableWslOnWindows"].

(** The names of the slots that [normalizeTerminalAppSetting] reads. *)
Definition slotKeys : list string := ["win"; "macos"; "linux"].

(** The command of a terminal-only launch with the default application of
    each desktop platform. *)
Definition defaultCommand (p : DesktopPlatform) (vaultPath : string) : string :=
  match p with
  | Macos => "open -na " +:+ inQuotes "Terminal" +:+ " "
             +:+ inQuotes (escapeDoubleQuotes vaultPath)
  | Win => winCmdK (winCd vaultPath)
  | Linux => "x-terminal-emulator"
  end.

(** The world in which a call ends, however it ends. *)
Definition finalWorld {A} (c : Completion A) : World :=
  match c with
  | Normal _ w => w
  | Thrown _ w => w
  end.

(** The desk in which a call ends, however it ends. *)
Definition finalDesk {A} (o : Shell.Outcome A) : Shell.Desk :=
  match o with
  | Shell.Done _ d => d
  | Shell.Raised _ d => d
  end.

(** A desktop that is neither macOS, Windows nor Linux. *)
Definition bsdPlatform : PlatformFacts :=
  {| isDesktopApp := true; isMacOS := false; isWin := false; isLinux := false;
     isMobileApp := false; isIosApp := false; isAndroidApp := false |}.

(** The full identifiers of the targets that the settings enable, in the
    order of the registry. *)
Definition enabledIds (s : OpenInTerminalSettings) (manifest : string) : list string :=
  map (Plugin.fullId manifest) (List.filter (Targets.isTargetEnabled s) Targets.launchTargets).

(** The palette command that [refreshCommands] files for a target. *)
Definition paletteCommandOf (t : Targets.LaunchTarget) : Plugin.PaletteCommand :=
  {| Plugin.paletteName := Targets.commandName t; Plugin.paletteTarget := t |}.

(** The notices of [main.ts], by the label of the command. *)
Definition unableNotice (label : string) : string :=
  "Unable to run " +:+ label
  +:+ ". Check the open in terminal settings for the terminal application name.".

Definition failedNotice (label : string) : string :=
  "Failed to run " +:+ label +:+ ". Check the developer console for details.".

(** What [executeShellCommand] adds to the timers for a launch command. *)
Definition scheduledFor (lc : LaunchCommand) : list (N * Eff unit) :=
  match cleanup lc with
  | Some c => [(Shell.TEMP_SCRIPT_CLEANUP_DELAY_MS, Shell.delayedCleanup c)]
  | None => []
  end.

(** A plugin whose palette holds two commands of its own, registered
    earlier, and one of another plugin. *)
Definition samplePlugin : Plugin.PluginState :=
  {| Plugin.settings := cmdSettings;
     Plugin.registeredCommandIds := ["oit:open-terminal"; "oit:open-codex"];
     Plugin.palette :=
       {[ "oit:open-terminal" :=
            {| Plugin.paletteName := "Open in terminal";
               Plugin.paletteTarget :=
                 {| Targets.id := "open-terminal"; Targets.commandName := "Open in terminal";
                    Targets.toolCommand := None; Targets.settingKey := None;
                    Targets.settingLabel := None |} |};
          "oit:open-codex" :=
            {| Plugin.paletteName := "Open in Codex cli";
               Plugin.paletteTarget :=
                 {| Targets.id := "open-codex"; Targets.commandName := "Open in Codex cli";
                    Targets.toolCommand := Some "codex";
                    Targets.settingKey := Some Targets.EnableCodex;
                    Targets.settingLabel := Some "Codex cli" |} |};
          "other:sync" :=
            {| Plugin.paletteName := "Sync";
               Plugin.paletteTarget :=
                 {| Targets.id := "sync"; Targets.commandName := "Sync";
                    Targets.toolCommand := None; Targets.settingKey := None;
                    Targets.settingLabel := None |} |} ]};
     Plugin.appCommands :=
       Some {| CommandManager.findCommandIsFunction := true;
               CommandManager.removeCommandIsFunction := true |};
     Plugin.manifestId := "oit" |}.

(** The terminal-only target and the Claude target of the registry. *)
Definition terminalTarget : Targets.LaunchTarget :=
  {| Targets.id := "open-terminal"; Targets.commandName := "Open in terminal";
     Targets.toolCommand := None; Targets.settingKey := None;
     Targets.settingLabel := None |}.

Definition claudeTarget : Targets.LaunchTarget :=
  {| Targets.id := "open-claude"; Targets.commandName := "Open in Claude Code";
     Targets.toolCommand := Some "claude"; Targets.settingKey := Some Targets.EnableClaude;
     Targets.settingLabel := Some "Claude Code" |}.


(** ** Properties *)

(** *** Facts about the string primitives *)

Lemma truthy_false (s : string) : truthy s = false <-> s = EmptyString.
Proof. destruct s; simpl; split; congruence. Qed.

Lemma truthy_true (s : string) : truthy s = true <-> s <> EmptyString.
Proof. destruct s; simpl; split; congruence. Qed.

Lemma trimStart_headClean (s : string) : headClean (trimStart s).
Proof.
  induction s as [|c r IH]; simpl; [exact I|].
  destruct (isWhiteSpace c) eqn:E; [exact IH | exact E].
Qed.

Lemma trimStart_fixed (s : string) : headClean s -> trimStart s = s.
Proof. destruct s as [|c r]; simpl; [reflexivity|]. intros ->. reflexivity. Qed.

Lemma trimEnd_headClean (s : string) : headClean s -> headClean (trimEnd s).
Proof.
  destruct s as [|c r]; simpl; [exact (fun H => H)|].
  intros Hc. destruct (trimEnd r); [rewrite Hc|]; exact Hc.
Qed.

Lemma trimEnd_idempotent (s : string) : trimEnd (trimEnd s) = trimEnd s.
Proof.
  induction s as [|c r IH]; simpl; [reflexivity|].
  destruct (trimEnd r) as [|c' r'] eqn:E.
  - destruct (isWhiteSpace c) eqn:W; simpl; [reflexivity|].
    rewrite W. reflexivity.
  - simpl in IH |- *. destruct (trimEnd r') as [|c'' r''] eqn:E'.
    + destruct (isWhiteSpace c'); [discriminate IH|]. rewrite IH. reflexivity.
    + rewrite IH. reflexivity.
Qed.

Lemma trim_idempotent (s : string) : trim (trim s) = trim s.
Proof.
  unfold trim.
  rewrite (trimStart_fixed (trimEnd (trimStart s))).
  - apply trimEnd_idempotent.
  - apply trimEnd_headClean, trimStart_headClean.
Qed.

Lemma isBlank_trimStart (s : string) : isBlank (trimStart s) = isBlank s.
Proof.
  induction s as [|c r IH]; simpl; [reflexivity|].
  destruct (isWhiteSpace c) eqn:W; simpl; [exact IH|].
  rewrite W. reflexivity.
Qed.

Lemma trimEnd_empty_iff (s : string) :
  trimEnd s = EmptyString <-> isBlank s = true.
Proof.
  induction s as [|c r IH]; simpl; [tauto|].
  destruct (trimEnd r) as [|c' r'].
  - destruct (isWhiteSpace c); simpl.
    + tauto.
    + split; discriminate.
  - split; [discriminate|].
    intros H. apply andb_true_iff in H as [_ H].
    apply IH in H. discriminate H.
Qed.

(** The trimmed string is empty exactly for white-space-only strings. *)
Lemma trim_empty_iff (s : string) :
  trim s = EmptyString <-> isBlank s = true.
Proof.
  unfold trim. rewrite trimEnd_empty_iff, isBlank_trimStart. tauto.
Qed.

(** Replacing a character by itself changes nothing. *)
Lemma replaceAll_same (c : ascii) (s : string) :
  replaceAll c (String c EmptyString) s = s.
Proof.
  induction s as [|x r IH]; simpl; [reflexivity|].
  rewrite IH. destruct (Ascii.eqb x c) eqn:E; [|reflexivity].
  apply Ascii.eqb_eq in E. subst x. reflexivity.
Qed.

Example trim_sample :
  trim (String "009" "  iTerm " +:+ nl) = "iTerm"
  /\ trim "  " = EmptyString
  /\ trim "Windows Terminal" = "Windows Terminal".
Proof. repeat split; reflexivity. Qed.

Example toLowerCase_sample :
  toLowerCase "CMD.EXE" = "cmd.exe" /\ toLowerCase "PowerShell" = "powershell".
Proof. split; reflexivity. Qed.

Example escapeDoubleQuotes_sample :
  escapeDoubleQuotes ("/a/" +:+ dq +:+ "b" +:+ dq)
  = "/a/" +:+ String BACKSLASH dq +:+ "b" +:+ String BACKSLASH dq.
Proof. reflexivity. Qed.

(** *** Reasoning about runs *)

(** Case analysis on every test of a builder, outermost first. *)
Ltac split_branches :=
  repeat match goal with
         | |- context [if ?b then _ else _] => destruct b
         end.

Create HintDb runs.

Lemma logger_log_run (text : string) (w : World) :
  logger_log text w = Normal tt (logged text w).
Proof. unfold logger_log, logged, console_debug. destruct (loggerEnabled w); reflexivity. Qed.

Lemma logged_files text w : files (logged text w) = files w.
Proof. unfold logged. destruct (loggerEnabled w); reflexivity. Qed.

Lemma logged_faults text w : faults (logged text w) = faults w.
Proof. unfold logged. destruct (loggerEnabled w); reflexivity. Qed.

Lemma logged_suffixes text w : suffixes (logged text w) = suffixes w.
Proof. unfold logged. destruct (loggerEnabled w); reflexivity. Qed.

Lemma logged_osTmpdir text w : osTmpdir (logged text w) = osTmpdir w.
Proof. unfold logged. destruct (loggerEnabled w); reflexivity. Qed.

Lemma logged_loggerEnabled text w : loggerEnabled (logged text w) = loggerEnabled w.
Proof. unfold logged. destruct (loggerEnabled w) eqn:E; simpl; auto. Qed.

Lemma bind_logger {A} (text : string) (k : Eff A) (w : World) :
  (logger_log text ;;; k) w = k (logged text w).
Proof. unfold bind. rewrite logger_log_run. reflexivity. Qed.

Lemma quietRun_ret {A} (a : A) w : quietRun (ret a) w.
Proof. exists a, w. repeat split. Qed.

Lemma quietRun_log {A} text (a : A) w : quietRun (logger_log text ;;; ret a) w.
Proof.
  exists a, (logged text w). rewrite bind_logger.
  rewrite logged_files, logged_suffixes, logged_faults. repeat split.
Qed.

#[local] Hint Resolve quietRun_ret quietRun_log : runs.

Lemma buildWindowsLaunch_quiet app dir tool w :
  quietRun (buildWindowsLaunch app dir tool) w.
Proof.
  unfold buildWindowsLaunch.
  split_branches; auto with runs.
Qed.

Lemma buildUnixLaunch_quiet app tool w :
  quietRun (buildUnixLaunch app tool) w.
Proof.
  unfold buildUnixLaunch.
  split_branches; auto with runs.
Qed.

(** The three builders return [null] exactly for an empty sanitised name. *)
Lemma buildWindowsLaunch_null app dir tool w :
  returned (buildWindowsLaunch app dir tool w) = Some None <-> trim app = EmptyString.
Proof.
  unfold buildWindowsLaunch, sanitizeTerminalApp.
  destruct (trim app) as [|c r] eqn:E; simpl; [tauto|].
  split; [|discriminate].
  split_branches; rewrite bind_logger; simpl; discriminate.
Qed.

Lemma buildUnixLaunch_null app tool w :
  returned (buildUnixLaunch app tool w) = Some None <-> trim app = EmptyString.
Proof.
  unfold buildUnixLaunch, sanitizeTerminalApp.
  destruct (trim app) as [|c r] eqn:E; simpl; [tauto|].
  split; [|discriminate].
  split_branches; rewrite bind_logger; simpl; discriminate.
Qed.

Lemma buildMacLaunch_null app dir tool w :
  returned (buildMacLaunch app dir tool w) = Some None <-> trim app = EmptyString.
Proof.
  unfold buildMacLaunch, sanitizeTerminalApp.
  destruct (trim app) as [|c r] eqn:E; simpl; [tauto|].
  split; [|discriminate].
  destruct (present tool); simpl.
  - unfold bind at 1. destruct (ensureTempScript _ w) as [s w'|e w']; simpl.
    + rewrite bind_logger. simpl. discriminate.
    + discriminate.
  - rewrite bind_logger. simpl. discriminate.
Qed.

Lemma builders_null_unchanged app dir tool w :
  trim app = EmptyString ->
  buildMacLaunch app dir tool w = Normal None w
  /\ buildWindowsLaunch app dir tool w = Normal None w
  /\ buildUnixLaunch app tool w = Normal None w.
Proof.
  intros E.
  unfold buildMacLaunch, buildWindowsLaunch, buildUnixLaunch, sanitizeTerminalApp.
  rewrite E. simpl. repeat split.
Qed.

(** C2. [buildLaunchCommand] returns [null] if and only if the platform is
    not a desktop or the application name is empty once trimmed; whenever
    one of the two holds (in particular for a white-space-only name, on any
    platform, with any tool command and working directory) the call returns
    [null] normally, throws nothing and changes nothing. *)
Theorem buildLaunchCommand_null_iff
  (P : PlatformFacts) (app dir : string) (tool : option string) (w : World) :
  (returned (buildLaunchCommand P app dir tool w) = Some None
   <-> platformCategory P = NonDesktop \/ trim app = EmptyString)
  /\ (platformCategory P = NonDesktop \/ trim app = EmptyString
      -> buildLaunchCommand P app dir tool w = Normal None w)
  /\ (isBlank app = true -> buildLaunchCommand P app dir tool w = Normal None w).
Proof.
  assert (Hnull : platformCategory P = NonDesktop \/ trim app = EmptyString
                  -> buildLaunchCommand P app dir tool w = Normal None w).
  { unfold buildLaunchCommand, platformCategory.
    destruct (isDesktopApp P); simpl; [|reflexivity].
    intros [H|H].
    - destruct (isMacOS P); [discriminate|]. destruct (isWin P); discriminate.
    - destruct (builders_null_unchanged app dir tool w H) as (Hm & Hw & Hu).
      destruct (isMacOS P); [exact Hm|]. destruct (isWin P); assumption. }
  split; [|split].
  - split.
    + unfold buildLaunchCommand, platformCategory.
      destruct (isDesktopApp P); simpl; [|auto].
      destruct (isMacOS P).
      * intros H. right. eapply buildMacLaunch_null, H.
      * destruct (isWin P); intros H; right.
        -- eapply buildWindowsLaunch_null, H.
        -- eapply buildUnixLaunch_null, H.
    + intros H. rewrite (Hnull H). reflexivity.
  - exact Hnull.
  - intros B. apply Hnull. right. apply trim_empty_iff, B.
Qed.

(** The no-tool path of each builder. *)
Lemma no_tool_paths (app dir : string) (tool : option string) (w : World) :
  trim app <> EmptyString -> present tool = false ->
  buildMacLaunch app dir tool w
  = Normal (Some {| command := "open -na " +:+ inQuotes (escapeDoubleQuotes (trim app))
                               +:+ " " +:+ inQuotes (escapeDoubleQuotes dir);
                    cleanup := None |})
      (logged "macOS simple launch" w)
  /\ quietRun (buildWindowsLaunch app dir tool) w
  /\ (exists cmd w', buildWindowsLaunch app dir tool w
                     = Normal (Some {| command := cmd; cleanup := None |}) w')
  /\ buildUnixLaunch app tool w
     = Normal (Some {| command := trim app; cleanup := None |})
         (logged "Unix launch (simple)" w).
Proof.
  intros Happ Htool. apply truthy_true in Happ.
  unfold buildMacLaunch, buildUnixLaunch, sanitizeTerminalApp.
  rewrite Happ, Htool. simpl. rewrite !bind_logger.
  split; [reflexivity|]. split; [apply buildWindowsLaunch_quiet|].
  split; [|reflexivity].
  unfold buildWindowsLaunch, sanitizeTerminalApp. rewrite Happ, Htool. simpl.
  split_branches; rewrite bind_logger; eauto.
Qed.

(** C3 (as amended). On every desktop platform category and for every
    application name that is not empty once trimmed, [buildLaunchCommand]
    without a tool command returns a launch command that carries no cleanup
    action, and building it makes no file-system call (no temporary script);
    on macOS with the application Terminal and the working directory
    /Users/a/vault the command is: open -na "Terminal" "/Users/a/vault". *)
Theorem buildLaunchCommand_no_tool :
  (forall (P : PlatformFacts) (app dir : string) (w : World),
      platformCategory P <> NonDesktop ->
      trim app <> EmptyString ->
      exists cmd w',
        buildLaunchCommand P app dir None w
        = Normal (Some {| command := cmd; cleanup := None |}) w'
        /\ files w' = files w /\ suffixes w' = suffixes w /\ faults w' = faults w)
  /\ (forall w : World,
         buildLaunchCommand macPlatform "Terminal" "/Users/a/vault" None w
         = Normal (Some {| command := "open -na " +:+ inQuotes "Terminal"
                                      +:+ " " +:+ inQuotes "/Users/a/vault";
                           cleanup := None |})
             (logged "macOS simple launch" w)).
Proof.
  split.
  - intros P app dir w HP Happ.
    destruct (no_tool_paths app dir None w Happ eq_refl) as (Hm & Hq & Hw & Hu).
    unfold buildLaunchCommand. unfold platformCategory in HP.
    destruct (isDesktopApp P); simpl in *; [|congruence].
    destruct (isMacOS P); [|destruct (isWin P)].
    + rewrite Hm. do 2 eexists. split; [reflexivity|].
      rewrite logged_files, logged_suffixes, logged_faults. auto.
    + destruct Hw as (cmd & w' & Hw). destruct Hq as (a & w'' & Hq & Hf).
      rewrite Hw in Hq |- *. injection Hq as _ <-. eauto.
    + rewrite Hu. do 2 eexists. split; [reflexivity|].
      rewrite logged_files, logged_suffixes, logged_faults. auto.
  - intros w.
    destruct (no_tool_paths "Terminal" "/Users/a/vault" None w) as (Hm & _);
      [vm_compute; discriminate | reflexivity |].
    unfold buildLaunchCommand, macPlatform; cbn [isDesktopApp isMacOS negb].
    rewrite Hm. reflexivity.
Qed.

Lemma buildLaunchCommand_no_tool_witness :
  exists cmd w',
    buildLaunchCommand linuxPlatform "alacritty" "/home/a/vault" None quietWorld
    = Normal (Some {| command := cmd; cleanup := None |}) w'
    /\ files w' = files quietWorld /\ suffixes w' = suffixes quietWorld
    /\ faults w' = faults quietWorld.
Proof.
  apply (proj1 buildLaunchCommand_no_tool linuxPlatform "alacritty" "/home/a/vault" quietWorld).
  - simpl. discriminate.
  - vm_compute. discriminate.
Defined.

(** C3 as stated fails on the non-desktop category: the name Terminal is not
    empty, yet the call returns [null]. *)
Lemma buildLaunchCommand_no_tool_non_desktop :
  platformCategory androidPlatform = NonDesktop
  /\ trim "Terminal" <> EmptyString
  /\ buildLaunchCommand androidPlatform "Terminal" "/Users/a/vault" None quietWorld
     = Normal None quietWorld.
Proof. split; [reflexivity|]. split; [vm_compute; discriminate | reflexivity]. Qed.

(** *** Linux/BSD desktop *)

Lemma buildLaunchCommand_on_linux P app dir tool :
  platformCategory P = LinuxBsdDesktop ->
  buildLaunchCommand P app dir tool = buildUnixLaunch app tool.
Proof.
  unfold platformCategory, buildLaunchCommand.
  destruct (isDesktopApp P); simpl; [|discriminate].
  destruct (isMacOS P); [discriminate|]. destruct (isWin P); [discriminate|reflexivity].
Qed.

Lemma buildLaunchCommand_on_windows P app dir tool :
  platformCategory P = Windows ->
  buildLaunchCommand P app dir tool = buildWindowsLaunch app dir tool.
Proof.
  unfold platformCategory, buildLaunchCommand.
  destruct (isDesktopApp P); simpl; [|discriminate].
  destruct (isMacOS P); [discriminate|]. destruct (isWin P); [reflexivity|discriminate].
Qed.

Lemma buildLaunchCommand_on_macos P app dir tool :
  platformCategory P = MacOS ->
  buildLaunchCommand P app dir tool = buildMacLaunch app dir tool.
Proof.
  unfold platformCategory, buildLaunchCommand.
  destruct (isDesktopApp P); simpl; [|discriminate].
  destruct (isMacOS P); [reflexivity|]. destruct (isWin P); discriminate.
Qed.

(** C6. On a Linux/BSD desktop, for an application name that is not empty
    once trimmed: without a tool command the command is the bare (trimmed)
    application name, and the working directory plays no part in the
    result; with a tool command the fragment
    cd "$PWD"; <tool>; exec "$SHELL" is wrapped, in this order of cases, as
    <app> -- bash -lc "<fragment>" for a name containing gnome-terminal, as
    <app> -e bash -lc "<fragment>" for a name containing konsole, and in the
    same -e form for every other name.  No case carries a cleanup. *)
Theorem buildLaunchCommand_linux
  (P : PlatformFacts) (app dir : string) (tool : option string) (w : World) :
  platformCategory P = LinuxBsdDesktop ->
  trim app <> EmptyString ->
  (present tool = false ->
   buildLaunchCommand P app dir tool w
   = Normal (Some {| command := trim app; cleanup := None |})
       (logged "Unix launch (simple)" w))
  /\ (forall dir' : string,
         buildLaunchCommand P app dir' tool w = buildLaunchCommand P app dir tool w)
  /\ (forall t : string,
         tool = Some t -> t <> EmptyString ->
         (includes "gnome-terminal" (trim app) = true ->
          buildLaunchCommand P app dir tool w
          = Normal (Some {| command := trim app +:+ " -- bash -lc "
                                       +:+ inQuotes (unixFragment t);
                            cleanup := None |})
              (logged "Unix launch (gnome-terminal)" w))
         /\ (includes "gnome-terminal" (trim app) = false ->
             includes "konsole" (trim app) = true ->
             buildLaunchCommand P app dir tool w
             = Normal (Some {| command := trim app +:+ " -e bash -lc "
                                          +:+ inQuotes (unixFragment t);
                               cleanup := None |})
                 (logged "Unix launch (konsole)" w))
         /\ (includes "gnome-terminal" (trim app) = false ->
             includes "konsole" (trim app) = false ->
             buildLaunchCommand P app dir tool w
             = Normal (Some {| command := trim app +:+ " -e bash -lc "
                                          +:+ inQuotes (unixFragment t);
                               cleanup := None |})
                 (logged "Unix launch (generic tool)" w))).
Proof.
  intros HP Happ. apply truthy_true in Happ.
  split; [|split].
  - intros Htool. rewrite (buildLaunchCommand_on_linux _ _ _ _ HP).
    unfold buildUnixLaunch, sanitizeTerminalApp. rewrite Happ, Htool. simpl.
    apply bind_logger.
  - intros dir'. rewrite !(buildLaunchCommand_on_linux _ _ _ _ HP). reflexivity.
  - intros t -> Ht. apply truthy_true in Ht.
    rewrite (buildLaunchCommand_on_linux _ _ _ _ HP).
    unfold buildUnixLaunch, sanitizeTerminalApp, unixFragment. rewrite Happ.
    simpl. rewrite Ht. simpl.
    split; [|split].
    + intros ->. apply bind_logger.
    + intros -> ->. apply bind_logger.
    + intros -> ->. apply bind_logger.
Qed.

Lemma buildLaunchCommand_linux_witness :
  buildLaunchCommand linuxPlatform "gnome-terminal" "/home/a/vault" (Some "claude") quietWorld
  = Normal (Some {| command := "gnome-terminal -- bash -lc "
                               +:+ inQuotes ("cd " +:+ inQuotes "$PWD" +:+ "; claude; exec "
                                             +:+ inQuotes "$SHELL");
                    cleanup := None |})
      quietWorld.
Proof.
  refine (proj1 (proj2 (proj2
            (buildLaunchCommand_linux linuxPlatform "gnome-terminal" "/home/a/vault"
               (Some "claude") quietWorld _ _)) "claude" _ _) _).
  - reflexivity.
  - vm_compute. discriminate.
  - reflexivity.
  - discriminate.
  - reflexivity.
Defined.

(** *** Cleanup obligations *)

Lemma buildWindowsLaunch_no_cleanup app dir tool w lc w' :
  buildWindowsLaunch app dir tool w = Normal (Some lc) w' -> cleanup lc = None.
Proof.
  unfold buildWindowsLaunch.
  split_branches; try rewrite bind_logger; unfold ret; intros H;
    inversion H; subst; reflexivity.
Qed.

Lemma buildUnixLaunch_no_cleanup app tool w lc w' :
  buildUnixLaunch app tool w = Normal (Some lc) w' -> cleanup lc = None.
Proof.
  unfold buildUnixLaunch.
  split_branches; try rewrite bind_logger; unfold ret; intros H;
    inversion H; subst; reflexivity.
Qed.

Lemma buildMacLaunch_cleanup_needs_tool app dir tool w lc w' :
  buildMacLaunch app dir tool w = Normal (Some lc) w' ->
  cleanup lc <> None -> present tool = true.
Proof.
  unfold buildMacLaunch.
  destruct (truthy (sanitizeTerminalApp app)); simpl; [|discriminate].
  destruct (present tool); simpl; [reflexivity|].
  rewrite bind_logger. unfold ret. intros H. inversion H; subst. simpl. congruence.
Qed.

(** C10. The Windows and Linux/BSD paths always return normally, make no
    file-system call (no temporary script: the files, the suffix supply and
    the fault schedule are untouched) and every launch command they return,
    with or without a tool command, carries no cleanup; a launch command
    with a cleanup can only come from the macOS path with a tool command. *)
Theorem cleanup_only_from_macos_tool_path
  (P : PlatformFacts) (app dir : string) (tool : option string) (w : World) :
  (platformCategory P = Windows \/ platformCategory P = LinuxBsdDesktop ->
   exists r w',
     buildLaunchCommand P app dir tool w = Normal r w'
     /\ files w' = files w /\ suffixes w' = suffixes w /\ faults w' = faults w
     /\ forall lc, r = Some lc -> cleanup lc = None)
  /\ (forall lc w',
         buildLaunchCommand P app dir tool w = Normal (Some lc) w' ->
         cleanup lc <> None ->
         platformCategory P = MacOS /\ present tool = true).
Proof.
  split.
  - intros [HP|HP].
    + rewrite (buildLaunchCommand_on_windows _ _ _ _ HP).
      destruct (buildWindowsLaunch_quiet app dir tool w) as (r & w' & Hr & Hf & Hs & Hq).
      exists r, w'. repeat split; auto.
      intros lc ->. eapply buildWindowsLaunch_no_cleanup, Hr.
    + rewrite (buildLaunchCommand_on_linux _ _ _ _ HP).
      destruct (buildUnixLaunch_quiet app tool w) as (r & w' & Hr & Hf & Hs & Hq).
      exists r, w'. repeat split; auto.
      intros lc ->. eapply buildUnixLaunch_no_cleanup, Hr.
  - intros lc w' Hrun Hc.
    destruct (platformCategory P) eqn:HP.
    + split; [reflexivity|].
      rewrite (buildLaunchCommand_on_macos _ _ _ _ HP) in Hrun.
      eapply buildMacLaunch_cleanup_needs_tool; eauto.
    + rewrite (buildLaunchCommand_on_windows _ _ _ _ HP) in Hrun.
      apply buildWindowsLaunch_no_cleanup in Hrun. contradiction.
    + rewrite (buildLaunchCommand_on_linux _ _ _ _ HP) in Hrun.
      apply buildUnixLaunch_no_cleanup in Hrun. contradiction.
    + unfold platformCategory, buildLaunchCommand in *.
      destruct (isDesktopApp P); simpl in *; [|discriminate Hrun].
      destruct (isMacOS P); [discriminate|]. destruct (isWin P); discriminate.
Qed.

Lemma cleanup_only_from_macos_tool_path_witness :
  exists r w',
    buildLaunchCommand winPlatform "cmd.exe" "C:\vault" (Some "claude") quietWorld
    = Normal r w'
    /\ files w' = files quietWorld /\ suffixes w' = suffixes quietWorld
    /\ faults w' = faults quietWorld
    /\ forall lc, r = Some lc -> cleanup lc = None.
Proof.
  apply (proj1 (cleanup_only_from_macos_tool_path winPlatform "cmd.exe" "C:\vault"
                  (Some "claude") quietWorld)).
  left. reflexivity.
Defined.

(** *** Windows *)

Lemma append_cons (c : ascii) (s t : string) : String c s +:+ t = String c (s +:+ t).
Proof. reflexivity. Qed.

Lemma append_empty_l (t : string) : EmptyString +:+ t = t.
Proof. reflexivity. Qed.

Lemma append_empty_r (s : string) : s +:+ EmptyString = s.
Proof.
  induction s as [|c s IH]; [reflexivity|].
  rewrite append_cons, IH. reflexivity.
Qed.

Lemma append_assoc (a b c : string) : (a +:+ b) +:+ c = a +:+ (b +:+ c).
Proof.
  induction a as [|x a IH]; [reflexivity|].
  rewrite !append_cons, IH. reflexivity.
Qed.

Lemma prefix_append (p s : string) : String.prefix p (p +:+ s) = true.
Proof.
  induction p as [|c p IH]; [destruct s; reflexivity|].
  rewrite append_cons. simpl.
  destruct (ascii_dec c c) as [_|N]; [exact IH | congruence].
Qed.

Lemma includes_prefix (p s : string) : String.prefix p s = true -> includes p s = true.
Proof. intros H. destruct s; simpl in *; rewrite H; reflexivity. Qed.

Lemma includes_append (n a s : string) :
  includes n s = true -> includes n (a +:+ s) = true.
Proof.
  intros H. induction a as [|c a IH]; [exact H|].
  rewrite append_cons. simpl. rewrite IH. apply orb_true_r.
Qed.

Lemma includes_middle (n a b : string) : includes n (a +:+ n +:+ b) = true.
Proof. apply includes_append, includes_prefix, prefix_append. Qed.

Lemma eqb_or_false (l a b : string) :
  ~ (l = a \/ l = b) -> String.eqb l a || String.eqb l b = false.
Proof.
  intros H. apply orb_false_iff. split; apply String.eqb_neq; tauto.
Qed.

Lemma eqb_or_true (l a b : string) :
  l = a \/ l = b -> String.eqb l a || String.eqb l b = true.
Proof.
  intros H. apply orb_true_iff. destruct H as [H|H]; [left|right]; apply String.eqb_eq, H.
Qed.

(** The working directory reaches the command through a replacement of
    every double quote by a double quote, which changes nothing. *)
Lemma windows_quote_pass_is_identity (dir : string) : replaceAll DQUOTE dq dir = dir.
Proof. apply replaceAll_same. Qed.

(** The five branches of [buildWindowsLaunch], by the lower-cased sanitised
    name; [t] is the tool text chained after the directory change. *)
Lemma buildWindowsLaunch_branches (app dir : string) (tool : option string) (w : World) :
  trim app <> EmptyString ->
  let l := toLowerCase (trim app) in
  let chained := if present tool then " && " +:+ interpolate tool else EmptyString in
  (isCmdName l ->
   buildWindowsLaunch app dir tool w
   = Normal (Some {| command := winCmdK (winCd dir +:+ chained); cleanup := None |})
       (logged "Windows launch (cmd.exe)" w))
  /\ (isPowershellName l ->
      buildWindowsLaunch app dir tool w
      = if present tool
        then Normal (Some {| command := winPowershell (winSetLocation dir +:+ "; "
                                                       +:+ interpolate tool);
                             cleanup := None |})
               (logged "Windows launch (powershell tool)" w)
        else Normal (Some {| command := winPowershell (winSetLocation dir +:+ ";");
                             cleanup := None |})
               (logged "Windows launch (powershell)" w))
  /\ (isWtName l ->
      buildWindowsLaunch app dir tool w
      = Normal (Some {| command := winTerminal (winCd dir +:+ chained); cleanup := None |})
          (logged "Windows launch (wt)" w))
  /\ (~ isCmdName l -> ~ isPowershellName l -> ~ isWtName l ->
      buildWindowsLaunch app dir tool w
      = if present tool
        then Normal (Some {| command := winCmdK (winCd dir +:+ chained); cleanup := None |})
               (logged "Windows launch (generic tool fallback)" w)
        else Normal (Some {| command := winStart +:+ " " +:+ inQuotes (trim app);
                             cleanup := None |})
               (logged "Windows launch (generic simple)" w)).
Proof.
  intros Happ l chained. apply truthy_true in Happ.
  unfold buildWindowsLaunch, sanitizeTerminalApp. rewrite Happ.
  change (negb true) with false. cbv iota zeta.
  rewrite windows_quote_pass_is_identity. fold l. fold chained.
  repeat split.
  - intros H. rewrite (eqb_or_true _ _ _ H).
    subst chained. destruct (present tool); cbv zeta; rewrite bind_logger; unfold winCd;
      rewrite ?append_empty_r; reflexivity.
  - intros H.
    assert (N : ~ isCmdName l) by (unfold isCmdName; destruct H as [-> | ->]; intros [?|?]; discriminate).
    rewrite (eqb_or_false _ _ _ N), (eqb_or_true _ _ _ H).
    destruct (present tool); simpl; rewrite bind_logger;
      unfold winPowershell, winSetLocation, inQuotes, ret;
      rewrite !append_assoc; reflexivity.
  - intros H.
    assert (N1 : ~ isCmdName l) by (unfold isCmdName; destruct H as [-> | ->]; intros [?|?]; discriminate).
    assert (N2 : ~ isPowershellName l) by (unfold isPowershellName; destruct H as [-> | ->]; intros [?|?]; discriminate).
    rewrite (eqb_or_false _ _ _ N1), (eqb_or_false _ _ _ N2), (eqb_or_true _ _ _ H).
    subst chained. destruct (present tool); cbv zeta; rewrite bind_logger; unfold winCd;
      rewrite ?append_empty_r; reflexivity.
  - intros N1 N2 N3.
    rewrite (eqb_or_false _ _ _ N1), (eqb_or_false _ _ _ N2), (eqb_or_false _ _ _ N3).
    subst chained. destruct (present tool); simpl; rewrite bind_logger; reflexivity.
Qed.

Lemma winCmdK_embeds (dir rest : string) :
  includes (inQuotes dir) (winCmdK (winCd dir +:+ rest)) = true.
Proof.
  replace (winCmdK (winCd dir +:+ rest))
    with ((winStart +:+ " cmd.exe /K " +:+ dq +:+ "cd /d ")
          +:+ inQuotes dir +:+ (rest +:+ dq)).
  - apply includes_middle.
  - unfold winCmdK, winCd. set (q := inQuotes dir). unfold inQuotes.
    rewrite !append_assoc. reflexivity.
Qed.

Lemma winTerminal_embeds (dir rest : string) :
  includes (inQuotes dir) (winTerminal (winCd dir +:+ rest)) = true.
Proof.
  replace (winTerminal (winCd dir +:+ rest))
    with ((winStart +:+ " wt.exe new-tab cmd /K " +:+ dq +:+ "cd /d ")
          +:+ inQuotes dir +:+ (rest +:+ dq)).
  - apply includes_middle.
  - unfold winTerminal, winCd. set (q := inQuotes dir). unfold inQuotes.
    rewrite !append_assoc. reflexivity.
Qed.

(** C5 (as amended). On Windows, for a name that is not empty once trimmed,
    the lower-cased name selects the template:
    cmd / cmd.exe give start "" cmd.exe /K "cd /d "<dir>"" with && <tool>
    chained when a tool is present; powershell / powershell.exe give
    start "" powershell -NoExit -Command "Set-Location '<dir>';" with the
    single quotes of <dir> doubled and the tool after the semicolon;
    wt / wt.exe give start "" wt.exe new-tab cmd /K with the cmd payload; any
    other name gives the cmd.exe /K template with a tool and exactly
    start "" "<app>" without one.  The quote-replacement pass is the
    identity, and in the branches that carry the cd /d payload (cmd, wt and
    the fallback with a tool) the working directory stands verbatim between
    double quotes. *)
Theorem buildLaunchCommand_windows
  (P : PlatformFacts) (app dir : string) (tool : option string) (w : World) :
  platformCategory P = Windows ->
  trim app <> EmptyString ->
  let l := toLowerCase (trim app) in
  let run := buildLaunchCommand P app dir tool w in
  (forall t : string,
      tool = Some t -> t <> EmptyString ->
      (isCmdName l ->
       run = Normal (Some {| command := winCmdK (winCd dir +:+ " && " +:+ t);
                             cleanup := None |})
               (logged "Windows launch (cmd.exe)" w))
      /\ (isPowershellName l ->
          run = Normal (Some {| command := winPowershell (winSetLocation dir +:+ "; " +:+ t);
                                cleanup := None |})
                  (logged "Windows launch (powershell tool)" w))
      /\ (isWtName l ->
          run = Normal (Some {| command := winTerminal (winCd dir +:+ " && " +:+ t);
                                cleanup := None |})
                  (logged "Windows launch (wt)" w))
      /\ (~ isCmdName l -> ~ isPowershellName l -> ~ isWtName l ->
          run = Normal (Some {| command := winCmdK (winCd dir +:+ " && " +:+ t);
                                cleanup := None |})
                  (logged "Windows launch (generic tool fallback)" w)))
  /\ (present tool = false ->
      (isCmdName l ->
       run = Normal (Some {| command := winCmdK (winCd dir); cleanup := None |})
               (logged "Windows launch (cmd.exe)" w))
      /\ (isPowershellName l ->
          run = Normal (Some {| command := winPowershell (winSetLocation dir +:+ ";");
                                cleanup := None |})
                  (logged "Windows launch (powershell)" w))
      /\ (isWtName l ->
          run = Normal (Some {| command := winTerminal (winCd dir); cleanup := None |})
                  (logged "Windows launch (wt)" w))
      /\ (~ isCmdName l -> ~ isPowershellName l -> ~ isWtName l ->
          run = Normal (Some {| command := winStart +:+ " " +:+ inQuotes (trim app);
                                cleanup := None |})
                  (logged "Windows launch (generic simple)" w)))
  /\ replaceAll DQUOTE dq dir = dir
  /\ (isCmdName l \/ isWtName l
      \/ (~ isCmdName l /\ ~ isPowershellName l /\ ~ isWtName l /\ present tool = true) ->
      exists lc w',
        run = Normal (Some lc) w'
        /\ cleanup lc = None
        /\ includes (inQuotes dir) (command lc) = true).
Proof.
  intros HP Happ l run. subst run.
  rewrite (buildLaunchCommand_on_windows _ _ _ _ HP).
  destruct (buildWindowsLaunch_branches app dir tool w Happ) as (Hc & Hp & Ht & Ho).
  fold l in Hc, Hp, Ht, Ho.
  split; [|split; [|split]].
  - intros t -> Hne. apply truthy_true in Hne. simpl in Hc, Hp, Ht, Ho.
    rewrite Hne in Hc, Hp, Ht, Ho. auto.
  - intros Hno. rewrite Hno in Hc, Hp, Ht, Ho.
    rewrite append_empty_r in Hc, Ht. auto.
  - apply windows_quote_pass_is_identity.
  - intros [H | [H | (N1 & N2 & N3 & Hyes)]].
    + rewrite (Hc H). do 2 eexists. split; [reflexivity|]. split; [reflexivity|].
      apply winCmdK_embeds.
    + rewrite (Ht H). do 2 eexists. split; [reflexivity|]. split; [reflexivity|].
      apply winTerminal_embeds.
    + rewrite (Ho N1 N2 N3), Hyes. do 2 eexists. split; [reflexivity|].
      split; [reflexivity|]. apply winCmdK_embeds.
Qed.

Lemma buildLaunchCommand_windows_witness :
  buildLaunchCommand winPlatform " PowerShell.EXE " "C:\it's" (Some "claude") quietWorld
  = Normal (Some {| command := "start " +:+ inQuotes EmptyString
                               +:+ " powershell -NoExit -Command "
                               +:+ inQuotes ("Set-Location " +:+ sq +:+ "C:\it" +:+ sq +:+ sq
                                             +:+ "s" +:+ sq +:+ "; claude");
                    cleanup := None |})
      quietWorld.
Proof.
  refine (proj1 (proj2 (proj1
            (buildLaunchCommand_windows winPlatform " PowerShell.EXE " "C:\it's"
               (Some "claude") quietWorld _ _) "claude" _ _)) _).
  - reflexivity.
  - vm_compute. discriminate.
  - reflexivity.
  - discriminate.
  - right. reflexivity.
Defined.

(** C5 as stated fails in two branches.  A name outside the three shells,
    without a tool command, gives start "" "<app>", in which the working
    directory does not occur at all; and the powershell branch writes the
    working directory between single quotes, doubled where it holds one. *)
Lemma windows_directory_not_in_double_quotes_everywhere :
  (buildLaunchCommand winPlatform "alacritty" "C:\vault" None quietWorld
   = Normal (Some {| command := "start " +:+ inQuotes EmptyString +:+ " "
                                +:+ inQuotes "alacritty";
                     cleanup := None |})
       quietWorld
   /\ includes "C:\vault"
        ("start " +:+ inQuotes EmptyString +:+ " " +:+ inQuotes "alacritty") = false)
  /\ (buildLaunchCommand winPlatform "powershell" "C:\it's" None quietWorld
      = Normal (Some {| command := "start " +:+ inQuotes EmptyString
                                   +:+ " powershell -NoExit -Command "
                                   +:+ inQuotes ("Set-Location " +:+ sq +:+ "C:\it" +:+ sq
                                                 +:+ sq +:+ "s" +:+ sq +:+ ";");
                        cleanup := None |})
          quietWorld
      /\ includes (inQuotes "C:\it's")
           ("start " +:+ inQuotes EmptyString +:+ " powershell -NoExit -Command "
            +:+ inQuotes ("Set-Location " +:+ sq +:+ "C:\it" +:+ sq +:+ sq +:+ "s"
                          +:+ sq +:+ ";")) = false
      /\ includes "C:\it's"
           ("start " +:+ inQuotes EmptyString +:+ " powershell -NoExit -Command "
            +:+ inQuotes ("Set-Location " +:+ sq +:+ "C:\it" +:+ sq +:+ sq +:+ "s"
                          +:+ sq +:+ ";")) = false).
Proof. repeat split; reflexivity. Qed.

(** *** macOS with a tool command *)

Lemma nextFault_logged text w : nextFault (logged text w) = nextFault w.
Proof. unfold nextFault. rewrite logged_faults. reflexivity. Qed.

Lemma consumeFault_logged_files text w :
  files (consumeFault (logged text w)) = files w.
Proof. unfold consumeFault. simpl. apply logged_files. Qed.

Lemma logged_umask text w : umask (logged text w) = umask w.
Proof. unfold logged. destruct (loggerEnabled w); reflexivity. Qed.

Lemma logged_tornWrites text w : tornWrites (logged text w) = tornWrites w.
Proof. unfold logged. destruct (loggerEnabled w); reflexivity. Qed.

Lemma pathJoin_ne (dir name : string) : pathJoin dir name <> dir.
Proof.
  unfold pathJoin. intros E. apply (f_equal String.length) in E.
  assert (L : forall a b, String.length (a +:+ b) = String.length a + String.length b).
  { intros a b. induction a as [|c a IH]; [reflexivity|].
    rewrite append_cons. simpl. rewrite IH. reflexivity. }
  rewrite L in E. simpl in E. lia.
Qed.

(** [ensureTempScript], call by call: the world in which the script is
    written is the one after [mkdtemp] and the log line. *)
Lemma ensureTempScript_unfold (content : string) (w : World) :
  ensureTempScript content w
  = match nextFault w with
    | Some e => Thrown e (consumeFault w)
    | None =>
        match firstFresh (files w) (pathJoin (osTmpdir w) "open-in-terminal-") (suffixes w) with
        | None =>
            Thrown (SystemError "EEXIST" (pathJoin (osTmpdir w) "open-in-terminal-"))
              (withSuffixes [] (consumeFault w))
        | Some (s, rest) =>
            let dir := pathJoin (osTmpdir w) "open-in-terminal-" +:+ s in
            let made :=
              logged "Creating temp script"
                (withFiles (<[dir := Directory]> (files w))
                   (withSuffixes rest (consumeFault w))) in
            match writeFileSync (pathJoin dir "launch.command") content 493 made with
            | Normal _ w' => Normal (pathJoin dir "launch.command", tempScriptCleanup dir) w'
            | Thrown e w' => Thrown e w'
            end
        end
    end.
Proof.
  unfold ensureTempScript, bind at 1, tmpdir. unfold bind at 1, mkdtempSync. cbv zeta.
  destruct (nextFault w); [reflexivity|]. simpl files. simpl suffixes.
  destruct (firstFresh _ _ _) as [[s rest]|]; [|reflexivity].
  rewrite bind_logger. unfold bind, ret. reflexivity.
Qed.

(** The write of the script in the world [made] that [mkdtemp] and the log
    line leave, when the host does not fail it and nothing is filed under
    the path yet. *)
Lemma writeFileSync_fresh (path content : string) (mode : N) (w : World) :
  nextFault w = None -> files w !! path = None ->
  writeFileSync path content mode w
  = Normal tt (withFiles (<[path := File content (N.ldiff mode (umask w))]> (files w))
                 (consumeFault w)).
Proof.
  intros F Hp. unfold writeFileSync, storeFile. cbv zeta. rewrite F.
  simpl files. simpl umask. rewrite Hp. reflexivity.
Qed.

(** The run of [ensureTempScript] on a host where the two file-system calls
    succeed, [mkdtemp] finds the unused suffix [s] and nothing is filed
    under the script path yet. *)
Lemma ensureTempScript_run (content : string) (w : World) (s : string) (rest : list string) :
  nextFault w = None ->
  nextFault (consumeFault w) = None ->
  firstFresh (files w) (pathJoin (osTmpdir w) "open-in-terminal-") (suffixes w)
  = Some (s, rest) ->
  let dir := pathJoin (osTmpdir w) "open-in-terminal-" +:+ s in
  let filePath := pathJoin dir "launch.command" in
  files w !! filePath = None ->
  exists w',
    ensureTempScript content w = Normal (filePath, tempScriptCleanup dir) w'
    /\ files w' = <[filePath := File content (N.ldiff 493 (umask w))]>
                    (<[dir := Directory]> (files w))
    /\ suffixes w' = rest
    /\ faults w' = tl (tl (faults w))
    /\ loggerEnabled w' = loggerEnabled w.
Proof.
  intros F1 F2 Hfresh dir filePath Hfree.
  rewrite ensureTempScript_unfold, F1, Hfresh. cbv zeta. fold dir. fold filePath.
  rewrite writeFileSync_fresh.
  - eexists. split; [reflexivity|].
    unfold consumeFault; simpl.
    rewrite logged_files, logged_suffixes, logged_faults, logged_loggerEnabled, logged_umask.
    simpl. auto.
  - rewrite nextFault_logged. exact F2.
  - rewrite logged_files. simpl.
    rewrite lookup_insert_ne by (intros E; symmetry in E; exact (pathJoin_ne _ _ E)).
    exact Hfree.
Qed.

Lemma within_self (dir : string) : within dir dir = true.
Proof. unfold within. rewrite String.eqb_refl. reflexivity. Qed.

Lemma within_child (dir name : string) : within dir (pathJoin dir name) = true.
Proof.
  unfold within, pathJoin. rewrite <- append_assoc, prefix_append.
  apply orb_true_r.
Qed.

(** What a successful [rmSync] leaves: nothing at the path or beneath it,
    everything else as before. *)
Lemma rm_lookup_within (dir p : string) (fs : gmap string Node) :
  within dir p = true ->
  filter (fun kv : string * Node => within dir kv.1 = false) fs !! p = None.
Proof.
  intros H. apply map_lookup_filter_None. right. intros x _. simpl. congruence.
Qed.

Lemma rm_lookup_outside (dir p : string) (fs : gmap string Node) :
  within dir p = false ->
  filter (fun kv : string * Node => within dir kv.1 = false) fs !! p = fs !! p.
Proof.
  intros H. destruct (fs !! p) as [x|] eqn:E.
  - apply map_lookup_filter_Some. auto.
  - apply map_lookup_filter_None. auto.
Qed.

(** The two ways [tempScriptCleanup] can run: the removal succeeds, or it
    fails and the failure is turned into a console warning. *)
Lemma tempScriptCleanup_run_ok (dir : string) (w : World) :
  nextFault w = None ->
  tempScriptCleanup dir w
  = Normal tt
      (logged "Cleaned temp script"
         (withFiles (filter (fun kv : string * Node => within dir kv.1 = false) (files w))
            (consumeFault w))).
Proof.
  intros F. unfold tempScriptCleanup, tryCatch, bind at 1, rmSync.
  rewrite F. simpl. rewrite logger_log_run. reflexivity.
Qed.

Lemma tempScriptCleanup_run_failed (dir : string) (w : World) (e : JsError) :
  nextFault w = Some e ->
  tempScriptCleanup dir w
  = Normal tt
      (withConsole
         (console w ++ [(Warn, "[open-in-terminal] Failed to remove temp script")])
         (consumeFault w)).
Proof.
  intros F. unfold tempScriptCleanup, tryCatch, bind at 1, rmSync.
  rewrite F. reflexivity.
Qed.

Lemma tempScriptCleanup_returns (dir : string) (w : World) :
  exists w', tempScriptCleanup dir w = Normal tt w'.
Proof.
  destruct (nextFault w) as [e|] eqn:F.
  - rewrite (tempScriptCleanup_run_failed dir w e F). eauto.
  - rewrite (tempScriptCleanup_run_ok dir w F). eauto.
Qed.

(** Every launch command of the macOS tool path carries the cleanup of the
    temporary directory it created. *)
Lemma buildMacLaunch_tool_cleanup (app dir t : string) (w : World) lc w' :
  t <> EmptyString ->
  buildMacLaunch app dir (Some t) w = Normal lc w' ->
  trim app = EmptyString /\ lc = None
  \/ exists cmd tempDir, lc = Some {| command := cmd; cleanup := Some (tempScriptCleanup tempDir) |}.
Proof.
  intros Ht. apply truthy_true in Ht.
  unfold buildMacLaunch, sanitizeTerminalApp.
  destruct (trim app) as [|c r] eqn:E; simpl.
  - intros H. inversion H. auto.
  - rewrite Ht. simpl. unfold bind at 1.
    destruct (ensureTempScript _ w) as [[path clean] w1|e w1] eqn:R; [|discriminate].
    rewrite bind_logger. unfold ret. intros H. inversion H; subst. right.
    revert R. unfold ensureTempScript, bind, tmpdir, ret.
    destruct (mkdtempSync _ w) as [d w2|e w2]; [|discriminate].
    rewrite logger_log_run.
    destruct (writeFileSync _ _ _ _) as [u w3|e w3]; [|discriminate].
    intros R. inversion R; subst. simpl. eauto.
Qed.

(** The escaping of the source is the escaping of the specification. *)
Lemma escapeDoubleQuotes_backslashQuoted (s : string) :
  escapeDoubleQuotes s = backslashQuoted s.
Proof.
  unfold escapeDoubleQuotes. induction s as [|x r IH]; [reflexivity|].
  simpl. rewrite IH. destruct (ascii_dec x DQUOTE) as [->|N].
  - reflexivity.
  - destruct (Ascii.eqb x DQUOTE) eqn:E; [|reflexivity].
    apply Ascii.eqb_eq in E. contradiction.
Qed.

Lemma ownerMayExecute_masked (mask : N) :
  N.testbit mask 6 = false -> ownerMayExecute (N.ldiff 493 mask) = true.
Proof.
  intros H. unfold ownerMayExecute. rewrite N.ldiff_spec, H. reflexivity.
Qed.

(** The run of the macOS tool path on a host where the two file-system
    calls succeed, [mkdtemp] finds the unused suffix [s] and nothing is
    filed under the script path yet. *)
Lemma buildMacLaunch_tool_run
  (app dir t : string) (w : World) (s : string) (rest : list string) :
  trim app <> EmptyString ->
  t <> EmptyString ->
  nextFault w = None ->
  nextFault (consumeFault w) = None ->
  firstFresh (files w) (pathJoin (osTmpdir w) "open-in-terminal-") (suffixes w)
  = Some (s, rest) ->
  let tempDir := pathJoin (osTmpdir w) "open-in-terminal-" +:+ s in
  let script := pathJoin tempDir "launch.command" in
  files w !! script = None ->
  exists w',
    buildMacLaunch app dir (Some t) w
    = Normal (Some {| command := "open -na " +:+ inQuotes (backslashQuoted (trim app))
                                 +:+ " " +:+ inQuotes script;
                      cleanup := Some (tempScriptCleanup tempDir) |})
        w'
    /\ files w' = <[script := File (macScript dir t) (N.ldiff 493 (umask w))]>
                    (<[tempDir := Directory]> (files w)).
Proof.
  intros Happ Ht F1 F2 Hfresh tempDir script Hfree.
  apply truthy_true in Happ, Ht.
  unfold buildMacLaunch, sanitizeTerminalApp. rewrite Happ. simpl. rewrite Ht. simpl.
  rewrite !escapeDoubleQuotes_backslashQuoted.
  destruct (ensureTempScript_run
              ("#!/bin/bash" +:+ nl +:+ ("cd " +:+ inQuotes (backslashQuoted dir))
               +:+ nl +:+ t +:+ nl +:+ "exec " +:+ inQuotes "$SHELL")
              w s rest F1 F2 Hfresh Hfree)
    as (w1 & Hrun & Hfiles & _).
  fold tempDir in Hrun, Hfiles. fold script in Hrun, Hfiles.
  unfold bind at 1. rewrite Hrun. rewrite bind_logger. simpl.
  exists (logged "macOS script launch" w1).
  split; [reflexivity|]. rewrite logged_files, Hfiles. reflexivity.
Qed.

(** C4. On macOS, for a name that is not empty once trimmed and a tool
    command [t], on a host where the two file-system calls succeed,
    [mkdtemp] finds the unused suffix [s] and nothing is filed under the
    script path yet: the call returns the command
    open -na "<app>" "<script>" for the script path
    <tmpdir>/open-in-terminal-<s>/launch.command, the double quotes of the
    application name each behind a backslash; the file system then holds
    the new directory and, at the script path, a file whose text is exactly
    the shebang line, cd "<dir>" with a backslash before every double quote
    of the working directory, the tool command and exec "$SHELL"; its
    permission bits are 0o755 less the bits of the mask of the process, so
    that its owner may execute it unless the mask withholds that; the
    result carries a cleanup, and running that cleanup (when the removal is
    not failed by the host) leaves neither the script nor its directory and
    touches nothing outside the directory.  Whenever the call returns at
    all on macOS with a tool command and a non-empty name, the result
    carries a cleanup. *)
Theorem buildLaunchCommand_macos_tool
  (P : PlatformFacts) (app dir t : string) (w : World) (s : string) (rest : list string) :
  platformCategory P = MacOS ->
  trim app <> EmptyString ->
  t <> EmptyString ->
  nextFault w = None ->
  nextFault (consumeFault w) = None ->
  firstFresh (files w) (pathJoin (osTmpdir w) "open-in-terminal-") (suffixes w)
  = Some (s, rest) ->
  let tempDir := pathJoin (osTmpdir w) "open-in-terminal-" +:+ s in
  let script := pathJoin tempDir "launch.command" in
  files w !! script = None ->
  (exists w',
      buildLaunchCommand P app dir (Some t) w
      = Normal (Some {| command := "open -na " +:+ inQuotes (backslashQuoted (trim app))
                                   +:+ " " +:+ inQuotes script;
                        cleanup := Some (tempScriptCleanup tempDir) |})
          w'
      /\ files w' = <[script := File (macScript dir t) (N.ldiff 493 (umask w))]>
                      (<[tempDir := Directory]> (files w))
      /\ files w' !! script = Some (File (macScript dir t) (N.ldiff 493 (umask w)))
      /\ (N.testbit (umask w) 6 = false ->
          ownerMayExecute (N.ldiff 493 (umask w)) = true)
      /\ forall w1 : World,
          nextFault w1 = None ->
          exists w2,
            tempScriptCleanup tempDir w1 = Normal tt w2
            /\ files w2 !! tempDir = None
            /\ files w2 !! script = None
            /\ forall p, within tempDir p = false -> files w2 !! p = files w1 !! p)
  /\ (forall (w0 : World) (r : option LaunchCommand) (w0' : World),
         buildLaunchCommand P app dir (Some t) w0 = Normal r w0' ->
         exists cmd d, r = Some {| command := cmd; cleanup := Some (tempScriptCleanup d) |}).
Proof.
  intros HP Happ Ht F1 F2 Hfresh tempDir script Hfree.
  rewrite (buildLaunchCommand_on_macos _ _ _ _ HP).
  split.
  - destruct (buildMacLaunch_tool_run app dir t w s rest Happ Ht F1 F2 Hfresh Hfree)
      as (w1 & Hrun & Hf).
    fold tempDir in Hrun, Hf. fold script in Hrun, Hf.
    exists w1. split; [exact Hrun|]. split; [exact Hf|].
    split; [rewrite Hf; apply lookup_insert_eq|].
    split; [apply ownerMayExecute_masked|].
    intros w1' Fw1. rewrite (tempScriptCleanup_run_ok tempDir w1' Fw1).
    eexists. split; [reflexivity|].
    rewrite logged_files. simpl.
    split; [apply rm_lookup_within, within_self|].
    split; [apply rm_lookup_within, within_child|].
    intros p Hp. apply rm_lookup_outside, Hp.
  - intros w0 r w0' Hrun.
    destruct (buildMacLaunch_tool_cleanup app dir t w0 r w0' Ht Hrun) as [[E _]|H];
      [contradiction | exact H].
Qed.

(** Three scenarios on a macOS host: iTerm, /vault and claude from end to
    end; a name and a working directory that hold double quotes, with the
    texts written out character by character; and the first scenario under
    the mask 0o077, where the script is created with the bits 0o700. *)
Lemma buildLaunchCommand_macos_tool_witness :
  (exists w',
      buildLaunchCommand macPlatform "iTerm" "/vault" (Some "claude") quietWorld
      = Normal (Some {| command := "open -na " +:+ inQuotes "iTerm" +:+ " "
                                   +:+ inQuotes "/tmp/open-in-terminal-Ab3xZ9/launch.command";
                        cleanup := Some (tempScriptCleanup "/tmp/open-in-terminal-Ab3xZ9") |})
          w'
      /\ files w' !! "/tmp/open-in-terminal-Ab3xZ9/launch.command"
         = Some (File ("#!/bin/bash" +:+ nl +:+ "cd " +:+ inQuotes "/vault" +:+ nl
                       +:+ "claude" +:+ nl +:+ "exec " +:+ inQuotes "$SHELL") 493)
      /\ startsWith ("#!/bin/bash" +:+ nl) (macScript "/vault" "claude") = true
      /\ includes ("cd " +:+ inQuotes "/vault") (macScript "/vault" "claude") = true
      /\ includes "claude" (macScript "/vault" "claude") = true
      /\ endsWith ("exec " +:+ inQuotes "$SHELL") (macScript "/vault" "claude") = true)
  /\ (exists w',
         buildLaunchCommand macPlatform ("i" +:+ dq +:+ "Term") ("/va" +:+ dq +:+ "ult")
           (Some "claude") quietWorld
         = Normal (Some {| command :=
                             String "o" (String "p" (String "e" (String "n" (String " "
                             (String "-" (String "n" (String "a" (String " "
                             (String DQUOTE (String "i" (String BACKSLASH (String DQUOTE
                             (String "T" (String "e" (String "r" (String "m"
                             (String DQUOTE (String " " (String DQUOTE
                             "/tmp/open-in-terminal-Ab3xZ9/launch.command")))))))))))))))))))
                             +:+ dq;
                           cleanup := Some (tempScriptCleanup "/tmp/open-in-terminal-Ab3xZ9") |})
             w'
         /\ files w' !! "/tmp/open-in-terminal-Ab3xZ9/launch.command"
            = Some (File ("#!/bin/bash" +:+ nl
                          +:+ String "c" (String "d" (String " " (String DQUOTE
                              (String "/" (String "v" (String "a" (String BACKSLASH
                              (String DQUOTE (String "u" (String "l" (String "t"
                              (String DQUOTE EmptyString))))))))))))
                          +:+ nl +:+ "claude" +:+ nl +:+ "exec " +:+ inQuotes "$SHELL")
                      493))
  /\ (exists w',
         buildLaunchCommand macPlatform "iTerm" "/vault" (Some "claude") privateWorld
         = Normal (Some {| command := "open -na " +:+ inQuotes "iTerm" +:+ " "
                                      +:+ inQuotes "/tmp/open-in-terminal-Ab3xZ9/launch.command";
                           cleanup := Some (tempScriptCleanup "/tmp/open-in-terminal-Ab3xZ9") |})
             w'
         /\ files w' !! "/tmp/open-in-terminal-Ab3xZ9/launch.command"
            = Some (File (macScript "/vault" "claude") 448 (* 0o700 *))
         /\ ownerMayExecute 448 = true).
Proof.
  split; [|split].
  - destruct (proj1 (buildLaunchCommand_macos_tool macPlatform "iTerm" "/vault" "claude"
                       quietWorld "Ab3xZ9" []
                       eq_refl
                       ltac:(vm_compute; discriminate)
                       ltac:(discriminate)
                       eq_refl eq_refl eq_refl eq_refl))
      as (w' & Hrun & _ & Hscript & _).
    exists w'. split; [exact Hrun|]. split; [exact Hscript|].
    repeat split; reflexivity.
  - destruct (proj1 (buildLaunchCommand_macos_tool macPlatform
                       ("i" +:+ dq +:+ "Term") ("/va" +:+ dq +:+ "ult") "claude"
                       quietWorld "Ab3xZ9" []
                       eq_refl
                       ltac:(vm_compute; discriminate)
                       ltac:(discriminate)
                       eq_refl eq_refl eq_refl eq_refl))
      as (w' & Hrun & _ & Hscript & _).
    exists w'. split; [exact Hrun | exact Hscript].
  - destruct (proj1 (buildLaunchCommand_macos_tool macPlatform "iTerm" "/vault" "claude"
                       privateWorld "Ab3xZ9" []
                       eq_refl
                       ltac:(vm_compute; discriminate)
                       ltac:(discriminate)
                       eq_refl eq_refl eq_refl eq_refl))
      as (w' & Hrun & _ & Hscript & Hexec & _).
    exists w'. split; [exact Hrun|]. split; [exact Hscript | exact (Hexec eq_refl)].
Defined.

(** *** The cleanup action *)

Lemma present_true (tool : option string) :
  present tool = true -> exists t, tool = Some t /\ t <> EmptyString.
Proof.
  destruct tool as [t|]; simpl; [|discriminate].
  intros H. exists t. split; [reflexivity|]. apply truthy_true, H.
Qed.

(** Whatever cleanup a launch command carries is the cleanup of some
    temporary directory. *)
Lemma cleanup_is_tempScriptCleanup P app dir tool w lc w' c :
  buildLaunchCommand P app dir tool w = Normal (Some lc) w' ->
  cleanup lc = Some c ->
  exists tempDir, c = tempScriptCleanup tempDir.
Proof.
  intros Hrun Hc.
  destruct (platformCategory P) eqn:HP.
  - rewrite (buildLaunchCommand_on_macos _ _ _ _ HP) in Hrun.
    assert (Hp : present tool = true).
    { eapply buildMacLaunch_cleanup_needs_tool; [exact Hrun | congruence]. }
    destruct (present_true tool Hp) as (t & -> & Ht).
    destruct (buildMacLaunch_tool_cleanup app dir t w _ w' Ht Hrun) as [[_ E]|(cmd & d & E)];
      [discriminate|].
    inversion E; subst. simpl in Hc. exists d. congruence.
  - rewrite (buildLaunchCommand_on_windows _ _ _ _ HP) in Hrun.
    apply buildWindowsLaunch_no_cleanup in Hrun. congruence.
  - rewrite (buildLaunchCommand_on_linux _ _ _ _ HP) in Hrun.
    apply buildUnixLaunch_no_cleanup in Hrun. congruence.
  - unfold platformCategory, buildLaunchCommand in *.
    destruct (isDesktopApp P); simpl in *; [|discriminate Hrun].
    destruct (isMacOS P); [discriminate|]. destruct (isWin P); discriminate.
Qed.

(** A host that fails the removal: the cleanup returns, the directory stays
    and the console shows the warning. *)
Example cleanup_swallows_failure :
  tempScriptCleanup "/tmp"
    (withFaults [Some (SystemError "EPERM" "/tmp")] quietWorld)
  = Normal tt
      (withConsole [(Warn, "[open-in-terminal] Failed to remove temp script")] quietWorld).
Proof. reflexivity. Qed.

(** [mkdtemp] passes over a suffix whose path is in use. *)
Example mkdtempSync_skips_used_name :
  returned
    (mkdtempSync "/tmp/open-in-terminal-"
       (withSuffixes ["Ab3xZ9"; "Qq12rT"]
          (withFiles (<["/tmp/open-in-terminal-Ab3xZ9" := Directory]> (files quietWorld))
             quietWorld)))
  = Some "/tmp/open-in-terminal-Qq12rT".
Proof. reflexivity. Qed.

(** C9. The cleanup that comes with a launch command never throws: on every
    host it returns normally, also when run a second time, also when the
    temporary directory is already gone (the file system is then left as it
    is), and also when the host fails the removal, in which case the failure
    is swallowed and shows only as one console warning. *)
Theorem cleanup_never_throws
  (P : PlatformFacts) (app dir : string) (tool : option string)
  (w w' : World) (lc : LaunchCommand) (c : Eff unit) :
  buildLaunchCommand P app dir tool w = Normal (Some lc) w' ->
  cleanup lc = Some c ->
  exists tempDir,
    c = tempScriptCleanup tempDir
    /\ forall w1 : World,
        (exists w2, c w1 = Normal tt w2)
        /\ (exists w3, (c ;;; c) w1 = Normal tt w3)
        /\ ((forall p, within tempDir p = true -> files w1 !! p = None) ->
            exists w2, c w1 = Normal tt w2 /\ files w2 = files w1)
        /\ (forall e, nextFault w1 = Some e ->
                      c w1 = Normal tt
                               (withConsole
                                  (console w1
                                   ++ [(Warn, "[open-in-terminal] Failed to remove temp script")])
                                  (consumeFault w1))).
Proof.
  intros Hrun Hc.
  destruct (cleanup_is_tempScriptCleanup P app dir tool w lc w' c Hrun Hc) as (d & ->).
  exists d. split; [reflexivity|]. intros w1.
  split; [apply tempScriptCleanup_returns|].
  split; [|split].
  - unfold bind. destruct (tempScriptCleanup_returns d w1) as (w2 & ->).
    apply tempScriptCleanup_returns.
  - intros Hgone. destruct (nextFault w1) as [e|] eqn:F.
    + rewrite (tempScriptCleanup_run_failed d w1 e F). eexists. split; reflexivity.
    + rewrite (tempScriptCleanup_run_ok d w1 F). eexists. split; [reflexivity|].
      rewrite logged_files. simpl. apply map_filter_id.
      intros p x Hp. simpl. destruct (within d p) eqn:Wp; [|reflexivity].
      rewrite (Hgone p Wp) in Hp. discriminate.
  - intros e F. apply tempScriptCleanup_run_failed with (e := e), F.
Qed.

Lemma cleanup_never_throws_witness :
  exists tempDir,
    tempScriptCleanup "/tmp/open-in-terminal-Ab3xZ9" = tempScriptCleanup tempDir
    /\ forall w1 : World,
        (exists w2, tempScriptCleanup "/tmp/open-in-terminal-Ab3xZ9" w1 = Normal tt w2)
        /\ (exists w3, (tempScriptCleanup "/tmp/open-in-terminal-Ab3xZ9"
                        ;;; tempScriptCleanup "/tmp/open-in-terminal-Ab3xZ9") w1
                       = Normal tt w3)
        /\ ((forall p, within tempDir p = true -> files w1 !! p = None) ->
            exists w2, tempScriptCleanup "/tmp/open-in-terminal-Ab3xZ9" w1 = Normal tt w2
                       /\ files w2 = files w1)
        /\ (forall e, nextFault w1 = Some e ->
                      tempScriptCleanup "/tmp/open-in-terminal-Ab3xZ9" w1
                      = Normal tt
                          (withConsole
                             (console w1
                              ++ [(Warn, "[open-in-terminal] Failed to remove temp script")])
                             (consumeFault w1))).
Proof.
  destruct (buildMacLaunch_tool_run "iTerm" "/vault" "claude" quietWorld "Ab3xZ9" []
              ltac:(vm_compute; discriminate) ltac:(discriminate)
              eq_refl eq_refl eq_refl eq_refl)
    as (w' & Hrun & _).
  eapply (cleanup_never_throws macPlatform "iTerm" "/vault" (Some "claude") quietWorld w').
  - exact Hrun.
  - reflexivity.
Defined.

(** *** Settings normalisation *)

Lemma getProp_storedField (stored : JsValue) (key : string) :
  getProp stored key = default JUndefined (storedField stored key).
Proof. destruct stored; reflexivity. Qed.

Lemma readBoolean_stored (stored : JsValue) (key : string) (fallback : bool) :
  readBoolean (getProp stored key) fallback = default fallback (storedBoolean stored key).
Proof.
  rewrite getProp_storedField. unfold storedBoolean.
  destruct (storedField stored key) as [[]|]; reflexivity.
Qed.

Lemma readSlot_stored (v : JsValue) (key : string) :
  readSlot (getProp v key) = trim <$> storedString v key.
Proof.
  rewrite getProp_storedField. unfold storedString.
  destruct (storedField v key) as [[]|]; reflexivity.
Qed.

Lemma trimmedSlots_empty : trimmedSlots emptySlots.
Proof. intros [] s; discriminate. Qed.

Lemma trimmedSlots_setSlot p s : trim s = s -> trimmedSlots (setSlot emptySlots p s).
Proof. intros H [] s'; destruct p; simpl; intros E; inversion E; subst; exact H. Qed.

Lemma trimmedSlots_default P : trimmedSlots (buildDefaultTerminalAppSetting P).
Proof.
  unfold buildDefaultTerminalAppSetting, getCurrentDesktopPlatform, defaultTerminalApp.
  destruct (isDesktopApp P); simpl; [|apply trimmedSlots_empty].
  destruct (isMacOS P); [apply trimmedSlots_setSlot; reflexivity|].
  destruct (isWin P); [apply trimmedSlots_setSlot; reflexivity|].
  destruct (isLinux P); [apply trimmedSlots_setSlot; reflexivity|].
  apply trimmedSlots_empty.
Qed.

Lemma trimmedSlots_readSlot (w m l : JsValue) :
  trimmedSlots {| win := readSlot w; macos := readSlot m; linux := readSlot l |}.
Proof.
  intros [] s; simpl; intros E;
    match type of E with readSlot ?v = _ => destruct v; inversion E end;
    apply trim_idempotent.
Qed.

Lemma trimmedSlots_normalize P (value : JsValue) :
  trimmedSlots (normalizeTerminalAppSetting P value (terminalApp (DEFAULT_SETTINGS P))).
Proof.
  unfold normalizeTerminalAppSetting.
  change (terminalApp (DEFAULT_SETTINGS P)) with (buildDefaultTerminalAppSetting P).
  destruct value; cbn [isRecord];
    try apply trimmedSlots_default; try apply trimmedSlots_readSlot.
  destruct (getCurrentDesktopPlatform P);
    [apply trimmedSlots_setSlot, trim_idempotent | apply trimmedSlots_default].
Qed.

(** Reading a settings object back as a stored value. *)
Lemma getProp_terminalAppValue (t : TerminalAppByPlatform) :
  readSlot (getProp (terminalAppValue t) "win") = trim <$> win t
  /\ readSlot (getProp (terminalAppValue t) "macos") = trim <$> macos t
  /\ readSlot (getProp (terminalAppValue t) "linux") = trim <$> linux t.
Proof.
  destruct t as [[w|] [m|] [l|]]; repeat split; reflexivity.
Qed.

Lemma getProp_settingsValue (s : OpenInTerminalSettings) :
  getProp (settingsValue s) "terminalApp" = terminalAppValue (terminalApp s)
  /\ getProp (settingsValue s) "enableClaude" = JBool (enableClaude s)
  /\ getProp (settingsValue s) "enableCodex" = JBool (enableCodex s)
  /\ getProp (settingsValue s) "enableCursor" = JBool (enableCursor s)
  /\ getProp (settingsValue s) "enableGemini" = JBool (enableGemini s)
  /\ getProp (settingsValue s) "enableOpencode" = JBool (enableOpencode s)
  /\ getProp (settingsValue s) "enableWslOnWindows" = JBool (enableWslOnWindows s).
Proof. repeat split; reflexivity. Qed.

(** A settings object whose slots are trimmed is a fixed point. *)
Lemma normalizeSettings_fixed P (s : OpenInTerminalSettings) :
  trimmedSlots (terminalApp s) ->
  normalizeSettings P (settingsValue s) = s.
Proof.
  intros Ht. unfold normalizeSettings.
  change (isRecord (settingsValue s)) with true. cbv iota.
  destruct (getProp_settingsValue s) as (-> & -> & -> & -> & -> & -> & ->).
  unfold normalizeTerminalAppSetting.
  change (isRecord (terminalAppValue (terminalApp s))) with true.
  destruct (getProp_terminalAppValue (terminalApp s)) as (Hw & Hm & Hl).
  unfold terminalAppValue in *. cbv iota. rewrite Hw, Hm, Hl.
  destruct s as [[w m l] c1 c2 c3 c4 c5 c6]. simpl in *.
  pose proof (Ht Win) as H1. pose proof (Ht Macos) as H2. pose proof (Ht Linux) as H3.
  simpl in *.
  destruct w as [w|], m as [m|], l as [l|]; simpl;
    rewrite ?(H1 _ eq_refl), ?(H2 _ eq_refl), ?(H3 _ eq_refl); reflexivity.
Qed.

(** C7. Normalising a normalised settings object changes nothing, whatever
    the stored value was: [null], [undefined], an object with a legacy
    bare-string terminal application, a malformed value that is not an
    object, or anything else. *)
Theorem normalizeSettings_idempotent (P : PlatformFacts) (x : JsValue) :
  normalizeSettings P (settingsValue (normalizeSettings P x)) = normalizeSettings P x.
Proof.
  apply normalizeSettings_fixed. apply trimmedSlots_normalize.
Qed.

Lemma normalizeSettings_idempotent_instances (P : PlatformFacts) :
  normalizeSettings P (settingsValue (normalizeSettings P JNull)) = normalizeSettings P JNull
  /\ normalizeSettings P (settingsValue (normalizeSettings P JUndefined))
     = normalizeSettings P JUndefined
  /\ normalizeSettings P (settingsValue (normalizeSettings P (JNumber 42)))
     = normalizeSettings P (JNumber 42)
  /\ normalizeSettings P
       (settingsValue (normalizeSettings P (JObject {[ "terminalApp" := JString " iTerm " ]})))
     = normalizeSettings P (JObject {[ "terminalApp" := JString " iTerm " ]}).
Proof. repeat split; apply normalizeSettings_fixed, trimmedSlots_normalize. Qed.

(** C8 (as amended). [normalizeSettings] is a total function of the stored
    value and works field by field.  A stored value that is not an object
    with named fields gives the defaults.  Each boolean field is the stored
    value when the field is present and a boolean, and its default
    otherwise.  A bare-string terminal application fills the slot of the
    current platform with the trimmed text and leaves every other slot
    unset (with no current desktop platform the default is used).  A
    terminal application that is a non-null object has each of its three
    slots read on its own: set, to the trimmed text, exactly when the slot
    is present and a string; an array is such an object and has none of the
    three slots, so it gives the mapping with no slot set.  A terminal
    application that is absent, undefined, null, a boolean or a number
    gives the default for that field. *)
Theorem normalizeSettings_field_by_field (P : PlatformFacts) (stored : JsValue) :
  let n := normalizeSettings P stored in
  let d := DEFAULT_SETTINGS P in
  ((forall fields, stored <> JObject fields) -> n = d)
  /\ (enableClaude n = default (enableClaude d) (storedBoolean stored "enableClaude")
      /\ enableCodex n = default (enableCodex d) (storedBoolean stored "enableCodex")
      /\ enableCursor n = default (enableCursor d) (storedBoolean stored "enableCursor")
      /\ enableGemini n = default (enableGemini d) (storedBoolean stored "enableGemini")
      /\ enableOpencode n = default (enableOpencode d) (storedBoolean stored "enableOpencode")
      /\ enableWslOnWindows n
         = default (enableWslOnWindows d) (storedBoolean stored "enableWslOnWindows"))
  /\ (forall s : string,
         storedField stored "terminalApp" = Some (JString s) ->
         match getCurrentDesktopPlatform P with
         | Some p =>
             getSlot (terminalApp n) p = Some (trim s)
             /\ forall q, q <> p -> getSlot (terminalApp n) q = None
         | None => terminalApp n = terminalApp d
         end)
  /\ (forall fields : gmap string JsValue,
         storedField stored "terminalApp" = Some (JObject fields) ->
         win (terminalApp n) = trim <$> storedString (JObject fields) "win"
         /\ macos (terminalApp n) = trim <$> storedString (JObject fields) "macos"
         /\ linux (terminalApp n) = trim <$> storedString (JObject fields) "linux")
  /\ (forall items : list JsValue,
         storedField stored "terminalApp" = Some (JArray items) ->
         terminalApp n = emptySlots)
  /\ match storedField stored "terminalApp" with
     | None | Some JUndefined | Some JNull | Some (JBool _) | Some (JNumber _) =>
         terminalApp n = terminalApp d
     | Some (JString _) | Some (JObject _) | Some (JArray _) => True
     end.
Proof.
  intros n d. subst n d.
  assert (Hsrc : forall key,
             getProp (if isRecord stored then stored else JObject ∅) key
             = default JUndefined (storedField stored key)).
  { intros key. destruct stored; try reflexivity. }
  split; [|split; [|split; [|split; [|split]]]].
  - intros Hshape. destruct stored; try reflexivity.
    exfalso. exact (Hshape _ eq_refl).
  - unfold normalizeSettings; cbn [enableClaude enableCodex enableCursor enableGemini
                                    enableOpencode enableWslOnWindows].
    destruct stored; cbn [isRecord]; rewrite ?readBoolean_stored; repeat split; reflexivity.
  - intros s Hs. unfold normalizeSettings. cbn [terminalApp].
    rewrite Hsrc, Hs. cbn [default]. unfold normalizeTerminalAppSetting.
    destruct (getCurrentDesktopPlatform P) as [p|]; [|reflexivity].
    split; [destruct p; reflexivity|].
    intros q Hq. destruct p, q; try reflexivity; congruence.
  - intros fields Hv. unfold normalizeSettings. cbn [terminalApp].
    rewrite Hsrc, Hv. cbn [default]. rewrite <- !readSlot_stored.
    repeat split; reflexivity.
  - intros items Hv. unfold normalizeSettings. cbn [terminalApp].
    rewrite Hsrc, Hv. reflexivity.
  - unfold normalizeSettings. cbn [terminalApp].
    rewrite Hsrc. destruct (storedField stored "terminalApp") as [[]|];
      try exact I; reflexivity.
Qed.

Lemma normalizeSettings_field_by_field_witness :
  normalizeSettings macPlatform
    (JObject {[ "terminalApp" := JObject {[ "win" := JString " wt "; "linux" := JNumber 7 ]};
                "enableClaude" := JBool true;
                "enableCodex" := JString "yes" ]})
  = {| terminalApp := {| win := Some "wt"; macos := None; linux := None |};
       enableClaude := true; enableCodex := false; enableCursor := false;
       enableGemini := false; enableOpencode := false; enableWslOnWindows := false |}
  /\ getSlot
       (terminalApp
          (normalizeSettings macPlatform
             (JObject {[ "terminalApp" := JString " iTerm " ]})))
       Macos
     = Some (trim " iTerm ")
  /\ normalizeSettings macPlatform (JArray [JBool true]) = DEFAULT_SETTINGS macPlatform
  /\ terminalApp
       (normalizeSettings macPlatform
          (JObject {[ "terminalApp" := JArray [JString "kitty"] ]}))
     = emptySlots.
Proof.
  split; [reflexivity|]. split; [|split].
  - exact (proj1 (proj1 (proj2 (proj2
             (normalizeSettings_field_by_field macPlatform
                (JObject {[ "terminalApp" := JString " iTerm " ]})))) " iTerm " eq_refl)).
  - apply (proj1 (normalizeSettings_field_by_field macPlatform (JArray [JBool true]))).
    intros fields E. discriminate E.
  - exact (proj1 (proj2 (proj2 (proj2 (proj2
             (normalizeSettings_field_by_field macPlatform
                (JObject {[ "terminalApp" := JArray [JString "kitty"] ]}))))))
             [JString "kitty"] eq_refl).
Defined.

(** C8 as stated fails at an array.  An array is neither a bare string nor
    a mapping keyed by platform family, so the claim sends it to the
    default of the field; but it passes [isRecord], none of its three
    slots is a string, and the result is the mapping with no slot set.  On
    macOS the default holds Terminal in the slot of the platform. *)
Lemma normalizeSettings_array_terminalApp_not_defaulted :
  terminalApp
    (normalizeSettings macPlatform (JObject {[ "terminalApp" := JArray [JString "kitty"] ]}))
  = {| win := None; macos := None; linux := None |}
  /\ terminalApp (DEFAULT_SETTINGS macPlatform)
     = {| win := None; macos := Some "Terminal"; linux := None |}
  /\ terminalApp
       (normalizeSettings macPlatform
          (JObject {[ "terminalApp" := JArray [JString "kitty"] ]}))
     <> terminalApp (DEFAULT_SETTINGS macPlatform).
Proof.
  split; [reflexivity|]. split; [reflexivity|]. intros E. discriminate E.
Qed.

(** *** The WSL flag *)

(** C1 (what the code does). The flag [enableWslOnWindows] reaches
    [buildLaunchCommand] only as a surplus argument and never changes the
    result: on Windows, with cmd.exe, the vault C:\vault, the tool claude
    and the flag on, the command is the native
    start "" cmd.exe /K "cd /d "C:\vault" && claude", the same as with the
    flag off, and it does not mention wsl. *)
Theorem composeLaunchCommand_ignores_wsl_flag :
  (forall (P : PlatformFacts) (s : OpenInTerminalSettings) (adapter tool : option string)
          (w : World) (value : bool),
      composeLaunchCommand P (setEnableWslOnWindows value s) adapter tool w
      = composeLaunchCommand P s adapter tool w)
  /\ composeLaunchCommand winPlatform (setEnableWslOnWindows true cmdSettings)
       (Some "C:\vault") (Some "claude") quietWorld
     = Normal (Some {| command := "start " +:+ inQuotes EmptyString +:+ " cmd.exe /K "
                                  +:+ inQuotes ("cd /d " +:+ inQuotes "C:\vault"
                                                +:+ " && claude");
                       cleanup := None |})
         quietWorld
  /\ includes "wsl"
       (toLowerCase ("start " +:+ inQuotes EmptyString +:+ " cmd.exe /K "
                     +:+ inQuotes ("cd /d " +:+ inQuotes "C:\vault" +:+ " && claude")))
     = false.
Proof.
  split; [|split].
  - intros P s adapter tool w value. reflexivity.
  - reflexivity.
  - reflexivity.
Qed.

(** ** Further properties of the sources *)

(** *** The terminal application of the current platform *)

Lemma getSlot_setSlot_eq t p v : getSlot (setSlot t p v) p = Some v.
Proof. destruct p; reflexivity. Qed.

Lemma getSlot_setSlot_ne t p q v : q <> p -> getSlot (setSlot t p v) q = getSlot t q.
Proof. destruct p, q; intros H; try reflexivity; congruence. Qed.

Lemma slots_ext (t t' : TerminalAppByPlatform) :
  (forall q, getSlot t q = getSlot t' q) -> t = t'.
Proof.
  intros H. destruct t as [a b c], t' as [a' b' c'].
  pose proof (H Win) as H1. pose proof (H Macos) as H2. pose proof (H Linux) as H3.
  simpl in *. congruence.
Qed.

(** X1. Writing the terminal application of the current platform and
    reading it back gives the trimmed text; where there is no current
    desktop platform the write changes nothing and the read gives the empty
    string. *)
Theorem current_terminal_app_round_trip
  (P : PlatformFacts) (t : TerminalAppByPlatform) (value : string) :
  (is_Some (getCurrentDesktopPlatform P) ->
   getCurrentTerminalApp P (setCurrentTerminalApp P t value) = trim value)
  /\ (getCurrentDesktopPlatform P = None ->
      setCurrentTerminalApp P t value = t
      /\ getCurrentTerminalApp P t = EmptyString
      /\ getCurrentTerminalApp P (setCurrentTerminalApp P t value) = EmptyString).
Proof.
  unfold getCurrentTerminalApp, setCurrentTerminalApp. split.
  - intros [p Hp]. rewrite Hp, getSlot_setSlot_eq. reflexivity.
  - intros ->. auto.
Qed.

Lemma current_terminal_app_round_trip_witness :
  getCurrentTerminalApp winPlatform (setCurrentTerminalApp winPlatform emptySlots " wt.exe ")
  = trim " wt.exe ".
Proof.
  apply (proj1 (current_terminal_app_round_trip winPlatform emptySlots " wt.exe ")).
  eexists. reflexivity.
Defined.

(** X2. A write touches the slot of the current platform only, the later
    of two writes wins, and writing the same text twice is writing it
    once. *)
Theorem setCurrentTerminalApp_frame
  (P : PlatformFacts) (t : TerminalAppByPlatform) (v1 v2 : string) :
  (forall q, getCurrentDesktopPlatform P <> Some q ->
             getSlot (setCurrentTerminalApp P t v1) q = getSlot t q)
  /\ setCurrentTerminalApp P (setCurrentTerminalApp P t v1) v2
     = setCurrentTerminalApp P t v2
  /\ setCurrentTerminalApp P (setCurrentTerminalApp P t v1) v1
     = setCurrentTerminalApp P t v1.
Proof.
  unfold setCurrentTerminalApp.
  destruct (getCurrentDesktopPlatform P) as [p|]; [|auto].
  split; [|split].
  - intros q Hq. apply getSlot_setSlot_ne. congruence.
  - destruct p; reflexivity.
  - destruct p; reflexivity.
Qed.

Lemma setCurrentTerminalApp_frame_witness :
  getSlot (setCurrentTerminalApp macPlatform
             {| win := Some "wt"; macos := None; linux := None |} "iTerm") Win
  = Some "wt".
Proof.
  apply (proj1 (setCurrentTerminalApp_frame macPlatform
                  {| win := Some "wt"; macos := None; linux := None |} "iTerm" "iTerm")).
  discriminate.
Defined.

(** *** Saving and loading *)

Lemma trimmedSlots_setCurrent P t value :
  trimmedSlots t -> trimmedSlots (setCurrentTerminalApp P t value).
Proof.
  intros Ht. unfold setCurrentTerminalApp.
  destruct (getCurrentDesktopPlatform P) as [p|]; [|exact Ht].
  intros q s. destruct p, q; simpl; intros E;
    first [ inversion E; subst; apply trim_idempotent
          | exact (Ht Win _ E) | exact (Ht Macos _ E) | exact (Ht Linux _ E) ].
Qed.

Lemma Reachable_trimmed P s : Reachable P s -> trimmedSlots (terminalApp s).
Proof.
  induction 1 as [stored|s value _ IH|s value _ IH|s key value _ IH].
  - apply trimmedSlots_normalize.
  - apply trimmedSlots_setCurrent, IH.
  - exact IH.
  - exact IH.
Qed.

(** X3. Whatever settings object the plugin holds (loaded from any stored
    value, then edited any number of times through the text field and the
    toggles of the settings tab), saving it and loading what was saved
    gives the same settings object. *)
Theorem save_then_load_is_identity (P : PlatformFacts) (st st' : Plugin.PluginState) :
  Reachable P (Plugin.settings st) ->
  Plugin.settings (Plugin.loadSettings P (Plugin.saveSettings st).1 st')
  = Plugin.settings st.
Proof.
  intros H. unfold Plugin.loadSettings, Plugin.saveSettings. cbn [fst Plugin.settings].
  apply normalizeSettings_fixed, (Reachable_trimmed P), H.
Qed.

Lemma save_then_load_is_identity_witness :
  Plugin.settings
    (Plugin.loadSettings macPlatform
       (Plugin.saveSettings
          (Plugin.loadSettings macPlatform
             (JObject {[ "terminalApp" := JString "  iTerm "; "enableClaude" := JBool true ]})
             samplePlugin)).1
       samplePlugin)
  = Plugin.settings
      (Plugin.loadSettings macPlatform
         (JObject {[ "terminalApp" := JString "  iTerm "; "enableClaude" := JBool true ]})
         samplePlugin).
Proof.
  apply save_then_load_is_identity. apply reach_load.
Defined.

(** X4. Properties that the settings code does not know are dropped: a
    stored object with one more property of another name, at the top or
    inside the terminal-application object, normalises to the same
    settings. *)
Theorem normalizeSettings_ignores_unknown_keys
  (P : PlatformFacts) (fields : gmap string JsValue) (key : string) (v : JsValue) :
  (key ∉ settingsKeys ->
   normalizeSettings P (JObject (<[key := v]> fields)) = normalizeSettings P (JObject fields))
  /\ (key ∉ slotKeys ->
      forall slots : gmap string JsValue,
        normalizeSettings P (JObject (<["terminalApp" := JObject (<[key := v]> slots)]> fields))
        = normalizeSettings P (JObject (<["terminalApp" := JObject slots]> fields))).
Proof.
  split.
  - intros Hk.
    assert (Hne : forall k, k ∈ settingsKeys -> key <> k)
      by (intros k Hin ->; exact (Hk Hin)).
    unfold normalizeSettings, getProp. cbn [isRecord].
    rewrite !lookup_insert_ne by (apply Hne; unfold settingsKeys; set_solver).
    reflexivity.
  - intros Hk slots.
    assert (Hne : forall k, k ∈ slotKeys -> key <> k)
      by (intros k Hin ->; exact (Hk Hin)).
    assert (Hslots : normalizeTerminalAppSetting P (JObject (<[key := v]> slots))
                       (terminalApp (DEFAULT_SETTINGS P))
                     = normalizeTerminalAppSetting P (JObject slots)
                         (terminalApp (DEFAULT_SETTINGS P))).
    { unfold normalizeTerminalAppSetting, getProp. cbn [isRecord].
      rewrite !lookup_insert_ne by (apply Hne; unfold slotKeys; set_solver).
      reflexivity. }
    unfold normalizeSettings. cbn [isRecord].
    rewrite !getProp_storedField. unfold storedField.
    rewrite !lookup_insert_eq. cbn [from_option id]. rewrite Hslots.
    rewrite !(lookup_insert_ne _ "terminalApp") by done.
    reflexivity.
Qed.

Lemma normalizeSettings_ignores_unknown_keys_witness :
  normalizeSettings macPlatform
    (JObject (<["enableLogging" := JBool true]> {[ "terminalApp" := JString "iTerm" ]}))
  = normalizeSettings macPlatform (JObject {[ "terminalApp" := JString "iTerm" ]}).
Proof.
  apply (proj1 (normalizeSettings_ignores_unknown_keys macPlatform
                  {[ "terminalApp" := JString "iTerm" ]} "enableLogging" (JBool true))).
  intros H. apply list_elem_of_In in H. simpl in H. intuition discriminate.
Defined.

(** *** Composing the launch command *)

Lemma logged_off text w : loggerEnabled w = false -> logged text w = w.
Proof. unfold logged. intros ->. reflexivity. Qed.

Lemma composeLaunchCommand_run P s vaultPath tool w :
  composeLaunchCommand P s (Some vaultPath) tool w
  = match buildLaunchCommand P (getCurrentTerminalApp P (terminalApp s)) vaultPath tool w with
    | Normal lc w' => Normal lc (logged "Compose launch command" w')
    | Thrown e w' => Thrown e w'
    end.
Proof.
  unfold composeLaunchCommand, callWithSurplus, bind at 1.
  destruct (buildLaunchCommand P _ vaultPath tool w); [|reflexivity].
  rewrite bind_logger. reflexivity.
Qed.

Lemma buildLaunchCommand_returns_null P app dir tool w :
  returned (buildLaunchCommand P app dir tool w) = Some None
  <-> isDesktopApp P = false \/ trim app = EmptyString.
Proof.
  unfold buildLaunchCommand.
  destruct (isDesktopApp P); simpl; [|intuition].
  destruct (isMacOS P); [|destruct (isWin P)].
  - rewrite buildMacLaunch_null. intuition discriminate.
  - rewrite buildWindowsLaunch_null. intuition discriminate.
  - rewrite buildUnixLaunch_null. intuition discriminate.
Qed.

Lemma no_platform_no_app P t :
  getCurrentDesktopPlatform P = None -> getCurrentTerminalApp P t = EmptyString.
Proof. unfold getCurrentTerminalApp. intros ->. reflexivity. Qed.

Lemma not_desktop_no_platform P :
  isDesktopApp P = false -> getCurrentDesktopPlatform P = None.
Proof. unfold getCurrentDesktopPlatform. intros ->. reflexivity. Qed.

(** X5. [composeLaunchCommand] returns [null] exactly when the vault adapter
    is not a file-system adapter or the slot of the current platform is
    unset or blank; the flags of the settings and the tool command play no
    part in that. *)
Theorem composeLaunchCommand_null_iff
  (P : PlatformFacts) (s : OpenInTerminalSettings) (adapter tool : option string)
  (w : World) :
  returned (composeLaunchCommand P s adapter tool w) = Some None
  <-> adapter = None \/ trim (getCurrentTerminalApp P (terminalApp s)) = EmptyString.
Proof.
  destruct adapter as [vaultPath|]; [|simpl; intuition].
  rewrite composeLaunchCommand_run.
  pose proof (buildLaunchCommand_returns_null P
                (getCurrentTerminalApp P (terminalApp s)) vaultPath tool w) as H.
  destruct (buildLaunchCommand P _ vaultPath tool w) as [lc w'|e w']; simpl in *.
  - rewrite H. split.
    + intros [Hd|Ht]; right; [|exact Ht].
      rewrite (no_platform_no_app P _ (not_desktop_no_platform P Hd)). reflexivity.
    + intros [Hn|Ht]; [discriminate Hn | right; exact Ht].
  - split; [discriminate|].
    intros [Hn|Ht]; [discriminate Hn|].
    assert (Hnone : @None (option LaunchCommand) = Some None) by (apply H; auto).
    discriminate Hnone.
Qed.

(** X6. On a desktop that is neither macOS, Windows nor Linux the plugin
    has no current platform, so [composeLaunchCommand] returns [null] for
    every settings object, vault and tool command: the Unix branch of
    [buildLaunchCommand] is never reached with a name there. *)
Theorem composeLaunchCommand_unknown_desktop
  (P : PlatformFacts) (s : OpenInTerminalSettings) (vaultPath : string)
  (tool : option string) (w : World) :
  getPlatformSummary P = "desktop-unknown" ->
  platformCategory P = LinuxBsdDesktop
  /\ composeLaunchCommand P s (Some vaultPath) tool w
     = Normal None (logged "Compose launch command" w).
Proof.
  intros Hsum.
  assert (Hflags : isDesktopApp P = true /\ isMacOS P = false /\ isWin P = false
                   /\ isLinux P = false).
  { unfold getPlatformSummary in Hsum.
    destruct (isDesktopApp P), (isMacOS P), (isWin P), (isLinux P),
      (isMobileApp P), (isIosApp P), (isAndroidApp P); try discriminate Hsum; auto. }
  destruct Hflags as (Hd & Hm & Hw & Hl).
  split.
  - unfold platformCategory. rewrite Hd, Hm, Hw. reflexivity.
  - rewrite composeLaunchCommand_run.
    unfold getCurrentTerminalApp, getCurrentDesktopPlatform, buildLaunchCommand.
    rewrite Hd, Hm, Hw, Hl. reflexivity.
Qed.

Lemma composeLaunchCommand_unknown_desktop_witness :
  platformCategory bsdPlatform = LinuxBsdDesktop
  /\ composeLaunchCommand bsdPlatform
       {| terminalApp := {| win := None; macos := None; linux := Some "xterm" |};
          enableClaude := true; enableCodex := false; enableCursor := false;
          enableGemini := false; enableOpencode := false; enableWslOnWindows := false |}
       (Some "/home/a/vault") None quietWorld
     = Normal None (logged "Compose launch command" quietWorld).
Proof. apply composeLaunchCommand_unknown_desktop. reflexivity. Defined.

(** X7. Only the slot of the current platform reaches the synthesis: two
    settings objects that agree on that slot give the same launch command,
    whatever their other slots and flags hold. *)
Theorem composeLaunchCommand_reads_current_slot_only
  (P : PlatformFacts) (s s' : OpenInTerminalSettings) (adapter tool : option string)
  (w : World) :
  (forall p, getCurrentDesktopPlatform P = Some p ->
             getSlot (terminalApp s) p = getSlot (terminalApp s') p) ->
  composeLaunchCommand P s adapter tool w = composeLaunchCommand P s' adapter tool w.
Proof.
  intros H. destruct adapter as [vaultPath|]; [|reflexivity].
  rewrite !composeLaunchCommand_run.
  replace (getCurrentTerminalApp P (terminalApp s'))
    with (getCurrentTerminalApp P (terminalApp s)); [reflexivity|].
  unfold getCurrentTerminalApp.
  destruct (getCurrentDesktopPlatform P) as [p|]; [|reflexivity].
  rewrite (H p eq_refl). reflexivity.
Qed.

Lemma composeLaunchCommand_reads_current_slot_only_witness :
  composeLaunchCommand macPlatform
    {| terminalApp := {| win := Some "wt"; macos := Some "iTerm"; linux := None |};
       enableClaude := true; enableCodex := false; enableCursor := false;
       enableGemini := false; enableOpencode := false; enableWslOnWindows := true |}
    (Some "/vault") None quietWorld
  = composeLaunchCommand macPlatform
      {| terminalApp := {| win := None; macos := Some "iTerm"; linux := Some "konsole" |};
         enableClaude := false; enableCodex := false; enableCursor := false;
         enableGemini := false; enableOpencode := false; enableWslOnWindows := false |}
      (Some "/vault") None quietWorld.
Proof.
  apply composeLaunchCommand_reads_current_slot_only.
  intros p Hp. inversion Hp. reflexivity.
Defined.

(** X8. A fresh installation works: on macOS, Windows and Linux the
    settings that [loadSettings] makes of a missing stored value give, for
    the terminal-only target and any vault, a launch command without
    cleanup: open -na "Terminal" "<vault>" with the double quotes of the
    vault escaped, start "" cmd.exe /K "cd /d "<vault>"", and
    x-terminal-emulator. *)
Theorem fresh_install_opens_default_terminal
  (P : PlatformFacts) (p : DesktopPlatform) (stored : JsValue) (vaultPath : string)
  (w : World) :
  getCurrentDesktopPlatform P = Some p ->
  stored = JNull \/ stored = JUndefined ->
  exists w',
    composeLaunchCommand P (normalizeSettings P stored) (Some vaultPath) None w
    = Normal (Some {| command := defaultCommand p vaultPath; cleanup := None |}) w'
    /\ files w' = files w.
Proof.
  intros Hp Hstored.
  assert (Hn : normalizeSettings P stored = DEFAULT_SETTINGS P)
    by (destruct Hstored as [-> | ->]; reflexivity).
  rewrite Hn, composeLaunchCommand_run.
  unfold getCurrentTerminalApp, DEFAULT_SETTINGS, buildDefaultTerminalAppSetting.
  cbn [terminalApp]. rewrite Hp. rewrite getSlot_setSlot_eq. cbn [from_option id].
  unfold getCurrentDesktopPlatform, defaultTerminalApp, buildLaunchCommand in *.
  destruct (isDesktopApp P); [|discriminate Hp]. cbn [negb] in *.
  destruct (isMacOS P); [|destruct (isWin P); [|destruct (isLinux P); [|discriminate Hp]]];
    inversion Hp; subst p.
  - destruct (no_tool_paths "Terminal" vaultPath None w) as (Hm & _);
      [vm_compute; discriminate | reflexivity |].
    rewrite Hm. eexists. split; [reflexivity|]. rewrite !logged_files. reflexivity.
  - destruct (buildWindowsLaunch_branches "cmd.exe" vaultPath None w) as (Hc & _);
      [vm_compute; discriminate|].
    rewrite Hc by (left; reflexivity). cbn [present]. rewrite append_empty_r.
    eexists. split; [reflexivity|]. rewrite !logged_files. reflexivity.
  - destruct (no_tool_paths "x-terminal-emulator" vaultPath None w) as (_ & _ & _ & Hu);
      [vm_compute; discriminate | reflexivity |].
    rewrite Hu. eexists. split; [reflexivity|]. rewrite !logged_files. reflexivity.
Qed.

Lemma fresh_install_opens_default_terminal_witness :
  exists w',
    composeLaunchCommand winPlatform (normalizeSettings winPlatform JNull)
      (Some "C:\vault") None quietWorld
    = Normal (Some {| command := defaultCommand Win "C:\vault"; cleanup := None |}) w'
    /\ files w' = files quietWorld.
Proof.
  apply fresh_install_opens_default_terminal; [reflexivity | left; reflexivity].
Defined.

(** *** Quoting for macOS *)

Lemma escapeDoubleQuotes_cons (x : ascii) (r : string) :
  escapeDoubleQuotes (String x r)
  = if Ascii.eqb x DQUOTE
    then String BACKSLASH (String DQUOTE (escapeDoubleQuotes r))
    else String x (escapeDoubleQuotes r).
Proof. unfold escapeDoubleQuotes. simpl. destruct (Ascii.eqb x DQUOTE); reflexivity. Qed.

Lemma escapeDoubleQuotes_head (s r : string) :
  escapeDoubleQuotes s <> String DQUOTE r.
Proof.
  destruct s as [|x s]; [discriminate|].
  rewrite escapeDoubleQuotes_cons. destruct (Ascii.eqb x DQUOTE) eqn:E.
  - discriminate.
  - intros H. inversion H; subst. discriminate E.
Qed.

Lemma escapeDoubleQuotes_inj (s1 s2 : string) :
  escapeDoubleQuotes s1 = escapeDoubleQuotes s2 -> s1 = s2.
Proof.
  revert s2. induction s1 as [|x r1 IH]; intros [|y r2].
  - reflexivity.
  - rewrite escapeDoubleQuotes_cons. destruct (Ascii.eqb y DQUOTE); discriminate.
  - rewrite escapeDoubleQuotes_cons. destruct (Ascii.eqb x DQUOTE); discriminate.
  - rewrite !escapeDoubleQuotes_cons.
    destruct (Ascii.eqb x DQUOTE) eqn:Ex, (Ascii.eqb y DQUOTE) eqn:Ey; intros H.
    + apply Ascii.eqb_eq in Ex, Ey. subst. inversion H. f_equal. auto.
    + inversion H as [[Hy Hr]]. symmetry in Hr.
      exfalso. exact (escapeDoubleQuotes_head _ _ Hr).
    + inversion H as [[Hx Hr]].
      exfalso. exact (escapeDoubleQuotes_head _ _ Hr).
    + inversion H. f_equal. auto.
Qed.

Lemma escapeDoubleQuotes_guarded (s a b : string) :
  escapeDoubleQuotes s = a +:+ String DQUOTE b ->
  exists a', a = a' +:+ String BACKSLASH EmptyString.
Proof.
  revert a. induction s as [|x r IH]; intros a.
  - destruct a; discriminate.
  - rewrite escapeDoubleQuotes_cons. destruct (Ascii.eqb x DQUOTE) eqn:Ex.
    + destruct a as [|c [|c' a2]]; rewrite ?append_cons, ?append_empty_l; intros H.
      * discriminate H.
      * inversion H; subst. exists EmptyString. reflexivity.
      * inversion H as [[Hc Hc' Hr]]. destruct (IH _ Hr) as (a' & ->).
        exists (String BACKSLASH (String DQUOTE a')). reflexivity.
    + destruct a as [|c a1]; rewrite ?append_cons, ?append_empty_l; intros H.
      * inversion H; subst. discriminate Ex.
      * inversion H as [[Hc Hr]]. destruct (IH _ Hr) as (a' & ->).
        exists (String c a'). reflexivity.
Qed.

(** X9. The escaping used for the macOS command never loses information
    (two different texts stay different), puts a backslash right before
    every double quote of its result, and leaves a text without double
    quotes as it is. *)
Theorem escapeDoubleQuotes_sound (s : string) :
  (forall s', escapeDoubleQuotes s = escapeDoubleQuotes s' -> s = s')
  /\ (forall a b, escapeDoubleQuotes s = a +:+ String DQUOTE b ->
                  exists a', a = a' +:+ String BACKSLASH EmptyString)
  /\ (includes dq s = false -> escapeDoubleQuotes s = s).
Proof.
  split; [|split].
  - intros s'. apply escapeDoubleQuotes_inj.
  - intros a b. apply escapeDoubleQuotes_guarded.
  - induction s as [|x r IH]; [reflexivity|].
    rewrite escapeDoubleQuotes_cons. unfold dq. simpl.
    destruct (ascii_dec DQUOTE x) as [<-|N].
    + destruct r; discriminate.
    + intros H. apply orb_false_iff in H as [_ H]. rewrite (IH H).
      destruct (Ascii.eqb x DQUOTE) eqn:E; [|reflexivity].
      apply Ascii.eqb_eq in E. congruence.
Qed.

Lemma escapeDoubleQuotes_sound_witness :
  escapeDoubleQuotes "/Users/a/vault" = "/Users/a/vault".
Proof.
  apply (proj2 (proj2 (escapeDoubleQuotes_sound "/Users/a/vault"))). reflexivity.
Defined.

(** *** Normalisation of the inputs *)

(** X10. White space around the application name never matters, and an
    empty tool command is no tool command: on every platform the launch
    command for the trimmed name is the one for the name, and the one for
    the empty tool command is the one for none. *)
Theorem buildLaunchCommand_normalises_inputs
  (P : PlatformFacts) (app dir : string) (tool : option string) (w : World) :
  buildLaunchCommand P (trim app) dir tool w = buildLaunchCommand P app dir tool w
  /\ buildLaunchCommand P app dir (Some EmptyString) w = buildLaunchCommand P app dir None w.
Proof.
  split.
  - unfold buildLaunchCommand, buildMacLaunch, buildWindowsLaunch, buildUnixLaunch,
      sanitizeTerminalApp.
    rewrite trim_idempotent. reflexivity.
  - reflexivity.
Qed.

(** *** Logging *)

Lemma ensureTempScript_console content w :
  loggerEnabled w = false ->
  console (finalWorld (ensureTempScript content w)) = console w
  /\ loggerEnabled (finalWorld (ensureTempScript content w)) = false.
Proof.
  intros Hoff. rewrite ensureTempScript_unfold.
  destruct (nextFault w); [simpl; auto|].
  destruct (firstFresh _ _ _) as [[s rest]|]; [|simpl; auto].
  cbv zeta. rewrite logged_off by exact Hoff.
  unfold writeFileSync. cbv zeta. destruct (nextFault _).
  - unfold tornWrite, storeFile. cbv zeta.
    destruct (hd None _); [destruct (_ !! _) as [[|]|]|]; simpl; auto.
  - unfold storeFile. destruct (_ !! _) as [[|]|]; simpl; auto.
Qed.

(** X11. With the logger disabled no builder writes to the console,
    whatever the platform, the inputs and the way the call ends; and
    enabling the logger is what makes [logger.log] write. *)
Theorem logging_is_gated
  (P : PlatformFacts) (app dir : string) (tool : option string) (w : World) :
  (loggerEnabled w = false ->
   console (finalWorld (buildLaunchCommand P app dir tool w)) = console w)
  /\ (forall text,
         console (finalWorld ((Logger.setEnabled false ;;; logger_log text) w)) = console w
         /\ console (finalWorld ((Logger.setEnabled true ;;; logger_log text) w))
            = (console w ++ [(Debug, "[open-in-terminal] " +:+ text)])%list).
Proof.
  split; [|split; reflexivity].
  intros Hoff. unfold buildLaunchCommand.
  destruct (isDesktopApp P); [|reflexivity]. cbn [negb].
  destruct (isMacOS P); [|destruct (isWin P)].
  - unfold buildMacLaunch.
    destruct (truthy (sanitizeTerminalApp app)); [|reflexivity]. cbn [negb].
    destruct (present tool); cbn [negb].
    + unfold bind at 1.
      destruct (ensureTempScript_console
                  (join nl
                     ((["#!/bin/bash"; "cd " +:+ inQuotes (escapeDoubleQuotes dir)]
                       ++ [interpolate tool])
                      ++ ["exec " +:+ inQuotes "$SHELL"])%list) w Hoff) as (Hc & Hl).
      destruct (ensureTempScript _ w) as [script w1|e w1]; simpl in Hc, Hl; [|exact Hc].
      rewrite bind_logger, logged_off by exact Hl. exact Hc.
    + rewrite bind_logger, logged_off by exact Hoff. reflexivity.
  - unfold buildWindowsLaunch. split_branches;
      rewrite ?bind_logger, ?logged_off by exact Hoff; reflexivity.
  - unfold buildUnixLaunch. split_branches;
      rewrite ?bind_logger, ?logged_off by exact Hoff; reflexivity.
Qed.

Lemma logging_is_gated_witness :
  console (finalWorld (buildLaunchCommand macPlatform "iTerm" "/vault" (Some "claude")
                         quietWorld))
  = console quietWorld.
Proof.
  apply (proj1 (logging_is_gated macPlatform "iTerm" "/vault" (Some "claude") quietWorld)).
  reflexivity.
Defined.

(** *** Failures of the file system on macOS *)

Lemma buildMacLaunch_tool_unfold (app dir t : string) (w : World) :
  trim app <> EmptyString -> t <> EmptyString ->
  buildMacLaunch app dir (Some t) w
  = match ensureTempScript (macScript dir t) w with
    | Normal script w1 =>
        Normal (Some {| command := "open -na " +:+ inQuotes (backslashQuoted (trim app))
                                   +:+ " " +:+ inQuotes script.1;
                        cleanup := Some script.2 |})
          (logged "macOS script launch" w1)
    | Thrown e w1 => Thrown e w1
    end.
Proof.
  intros Happ Ht. apply truthy_true in Happ, Ht.
  unfold buildMacLaunch, sanitizeTerminalApp. rewrite Happ. simpl. rewrite Ht. simpl.
  rewrite !escapeDoubleQuotes_backslashQuoted.
  unfold bind at 1.
  change (ensureTempScript _ w) with (ensureTempScript (macScript dir t) w).
  destruct (ensureTempScript (macScript dir t) w); [|reflexivity].
  rewrite bind_logger. reflexivity.
Qed.

Lemma ensureTempScript_mkdtemp_fails content w e :
  nextFault w = Some e -> ensureTempScript content w = Thrown e (consumeFault w).
Proof. intros He. rewrite ensureTempScript_unfold, He. reflexivity. Qed.

Lemma ensureTempScript_no_suffix content w :
  nextFault w = None ->
  firstFresh (files w) (pathJoin (osTmpdir w) "open-in-terminal-") (suffixes w) = None ->
  exists w',
    ensureTempScript content w
    = Thrown (SystemError "EEXIST" (pathJoin (osTmpdir w) "open-in-terminal-")) w'
    /\ files w' = files w.
Proof.
  intros Hn Hnone. rewrite ensureTempScript_unfold, Hn, Hnone.
  eexists. split; reflexivity.
Qed.

(** A failed write of the script: the call throws, the new directory is
    there, and what is at the script path depends on how far the write
    got. *)
Lemma ensureTempScript_write_fails content w e s rest :
  nextFault w = None ->
  firstFresh (files w) (pathJoin (osTmpdir w) "open-in-terminal-") (suffixes w)
  = Some (s, rest) ->
  nextFault (consumeFault w) = Some e ->
  let dir := pathJoin (osTmpdir w) "open-in-terminal-" +:+ s in
  let script := pathJoin dir "launch.command" in
  exists w',
    ensureTempScript content w = Thrown e w'
    /\ files w' !! dir = Some Directory
    /\ (hd None (tornWrites w) = None -> files w' = <[dir := Directory]> (files w))
    /\ (forall n, hd None (tornWrites w) = Some n -> files w !! script = None ->
                  files w' = <[script := File (String.substring 0 n content)
                                           (N.ldiff 493 (umask w))]>
                               (<[dir := Directory]> (files w))).
Proof.
  intros Hn Hfresh Hw dir script.
  rewrite ensureTempScript_unfold, Hn, Hfresh. cbv zeta. fold dir. fold script.
  unfold writeFileSync. cbv zeta. rewrite nextFault_logged.
  replace (nextFault (withFiles (<[dir:=Directory]> (files w))
                        (withSuffixes rest (consumeFault w))))
    with (nextFault (consumeFault w)) by reflexivity.
  rewrite Hw. eexists. split; [reflexivity|].
  assert (Hscript : (<[dir := Directory]> (files w)) !! script = files w !! script).
  { apply lookup_insert_ne. intros E. symmetry in E. exact (pathJoin_ne _ _ E). }
  unfold tornWrite, storeFile. cbv zeta.
  cbn [tornWrites consumeFault withFaults withTornWrites files umask].
  rewrite logged_tornWrites, logged_files, logged_umask.
  cbn [tornWrites withFiles withSuffixes consumeFault withFaults files umask].
  rewrite Hscript.
  assert (Hmade : forall t,
             files (withTornWrites t
                      (consumeFault
                         (logged "Creating temp script"
                            (withFiles (<[dir:=Directory]> (files w))
                               (withSuffixes rest (consumeFault w))))))
             = <[dir := Directory]> (files w)).
  { intros t. cbn [files withTornWrites consumeFault withFaults].
    rewrite logged_files. reflexivity. }
  destruct (hd None (tornWrites w)) as [n|].
  - destruct (files w !! script) as [[|text bits]|] eqn:Es; cbn [files withFiles];
      rewrite ?Hmade.
    + split; [apply lookup_insert_eq|]. split; [discriminate|]. intros n' _ E. discriminate E.
    + split.
      * rewrite lookup_insert_ne by (intros E; exact (pathJoin_ne _ _ E)).
        apply lookup_insert_eq.
      * split; [discriminate|]. intros n' _ E. discriminate E.
    + split.
      * rewrite lookup_insert_ne by (intros E; exact (pathJoin_ne _ _ E)).
        apply lookup_insert_eq.
      * split; [discriminate|]. intros n' Hn' _. inversion Hn'. reflexivity.
  - rewrite Hmade.
    split; [apply lookup_insert_eq|]. split; [reflexivity|]. intros n' E. discriminate E.
Qed.

(** X12. How the macOS tool path fails.  When the host fails [mkdtemp], or
    no unused suffix is left, the call throws and the file system is as it
    was.  When the host fails the write of the script, the call throws as
    well, returns no launch command and hence no cleanup, and the temporary
    directory it has just created stays behind: alone when the script file
    was not opened, and with a script file that holds the part of the text
    the write got to (an empty file when it got to nothing) when the
    failure came after the file was opened. *)
Theorem buildLaunchCommand_macos_failures
  (P : PlatformFacts) (app dir t : string) (w : World) :
  platformCategory P = MacOS ->
  trim app <> EmptyString ->
  t <> EmptyString ->
  let pre := pathJoin (osTmpdir w) "open-in-terminal-" in
  (forall e, nextFault w = Some e ->
             buildLaunchCommand P app dir (Some t) w = Thrown e (consumeFault w))
  /\ (nextFault w = None -> firstFresh (files w) pre (suffixes w) = None ->
      exists w',
        buildLaunchCommand P app dir (Some t) w = Thrown (SystemError "EEXIST" pre) w'
        /\ files w' = files w)
  /\ (forall e s rest,
         nextFault w = None ->
         firstFresh (files w) pre (suffixes w) = Some (s, rest) ->
         nextFault (consumeFault w) = Some e ->
         exists w',
           buildLaunchCommand P app dir (Some t) w = Thrown e w'
           /\ files w' !! (pre +:+ s) = Some Directory
           /\ (hd None (tornWrites w) = None ->
               files w' = <[pre +:+ s := Directory]> (files w))
           /\ (forall n,
                  hd None (tornWrites w) = Some n ->
                  files w !! pathJoin (pre +:+ s) "launch.command" = None ->
                  files w'
                  = <[pathJoin (pre +:+ s) "launch.command"
                      := File (String.substring 0 n (macScript dir t))
                           (N.ldiff 493 (umask w))]>
                      (<[pre +:+ s := Directory]> (files w)))).
Proof.
  intros HP Happ Ht pre.
  rewrite (buildLaunchCommand_on_macos _ _ _ _ HP).
  rewrite (buildMacLaunch_tool_unfold app dir t w Happ Ht).
  split; [|split].
  - intros e He. rewrite (ensureTempScript_mkdtemp_fails _ _ _ He). reflexivity.
  - intros Hn Hnone.
    destruct (ensureTempScript_no_suffix (macScript dir t) w Hn Hnone) as (w' & -> & Hf).
    eauto.
  - intros e s rest Hn Hfresh Hw.
    destruct (ensureTempScript_write_fails (macScript dir t) w e s rest Hn Hfresh Hw)
      as (w' & -> & Hd & Hnone & Hsome).
    exists w'. split; [reflexivity|]. auto.
Qed.

Lemma buildLaunchCommand_macos_failures_witness :
  exists w',
    buildLaunchCommand macPlatform "iTerm" "/vault" (Some "claude")
      (withTornWrites [Some 0]
         (withFaults [None; Some (SystemError "ENOSPC" "/tmp")] quietWorld))
    = Thrown (SystemError "ENOSPC" "/tmp") w'
    /\ files w' !! "/tmp/open-in-terminal-Ab3xZ9" = Some Directory
    /\ files w'
       = <["/tmp/open-in-terminal-Ab3xZ9/launch.command" := File EmptyString 493]>
           (<["/tmp/open-in-terminal-Ab3xZ9" := Directory]> (files quietWorld)).
Proof.
  destruct (proj2 (proj2
              (buildLaunchCommand_macos_failures macPlatform "iTerm" "/vault" "claude"
                 (withTornWrites [Some 0]
                    (withFaults [None; Some (SystemError "ENOSPC" "/tmp")] quietWorld))
                 eq_refl ltac:(vm_compute; discriminate) ltac:(discriminate)))
              (SystemError "ENOSPC" "/tmp") "Ab3xZ9" [] eq_refl eq_refl eq_refl)
    as (w' & Hrun & Hdir & _ & Hfile).
  exists w'. split; [exact Hrun|]. split; [exact Hdir|].
  exact (Hfile 0 eq_refl eq_refl).
Defined.

(** *** Launches in a row *)

Lemma length_append (a b : string) :
  String.length (a +:+ b) = String.length a + String.length b.
Proof.
  induction a as [|c a IH]; [reflexivity|].
  rewrite append_cons. simpl. rewrite IH. reflexivity.
Qed.

Lemma append_inj_r (a b c : string) : a +:+ c = b +:+ c -> a = b.
Proof.
  revert b. induction a as [|x a IH]; intros [|y b] H.
  - reflexivity.
  - apply (f_equal String.length) in H. rewrite !length_append in H. simpl in H. lia.
  - apply (f_equal String.length) in H. rewrite !length_append in H. simpl in H. lia.
  - rewrite !append_cons in H. inversion H. f_equal. auto.
Qed.

Lemma append_inj_l (a b c : string) : c +:+ a = c +:+ b -> a = b.
Proof.
  induction c as [|x c IH]; [exact (fun H => H)|].
  rewrite !append_cons. intros H. inversion H. auto.
Qed.

Lemma firstFresh_unused fs pre supply s rest :
  firstFresh fs pre supply = Some (s, rest) -> fs !! (pre +:+ s) = None.
Proof.
  induction supply as [|x supply IH]; simpl; [discriminate|].
  destruct (fs !! (pre +:+ x)) eqn:E; [exact IH|].
  intros H. inversion H; subst. exact E.
Qed.

(** What a normal return of [ensureTempScript] tells. *)
Lemma ensureTempScript_inv content w path clean w' :
  ensureTempScript content w = Normal (path, clean) w' ->
  exists s rest bits,
    let dir := pathJoin (osTmpdir w) "open-in-terminal-" +:+ s in
    firstFresh (files w) (pathJoin (osTmpdir w) "open-in-terminal-") (suffixes w)
    = Some (s, rest)
    /\ path = pathJoin dir "launch.command"
    /\ clean = tempScriptCleanup dir
    /\ files w' = <[path := File content bits]> (<[dir := Directory]> (files w))
    /\ (files w !! path = None -> bits = N.ldiff 493 (umask w))
    /\ osTmpdir w' = osTmpdir w
    /\ umask w' = umask w.
Proof.
  rewrite ensureTempScript_unfold.
  destruct (nextFault w); [discriminate|].
  destruct (firstFresh _ _ _) as [[s rest]|]; [|discriminate].
  cbv zeta. set (dir := pathJoin (osTmpdir w) "open-in-terminal-" +:+ s).
  unfold writeFileSync. cbv zeta. destruct (nextFault _); [discriminate|].
  unfold storeFile.
  cbn [consumeFault withFaults files umask].
  rewrite logged_files, logged_umask.
  cbn [withFiles withSuffixes consumeFault withFaults files umask].
  assert (Hscript : (<[dir := Directory]> (files w)) !! pathJoin dir "launch.command"
                    = files w !! pathJoin dir "launch.command").
  { apply lookup_insert_ne. intros E. symmetry in E. exact (pathJoin_ne _ _ E). }
  rewrite Hscript.
  destruct (files w !! pathJoin dir "launch.command") as [[|text bits]|] eqn:Es;
    [discriminate| |]; intros H; inversion H; subst.
  - exists s, rest, bits. cbv zeta. fold dir.
    split; [reflexivity|]. split; [reflexivity|]. split; [reflexivity|].
    cbn [files withFiles osTmpdir umask consumeFault withFaults].
    rewrite logged_osTmpdir, logged_umask. cbn.
    split; [reflexivity|]. split; [rewrite Es; discriminate|]. auto.
  - exists s, rest, (N.ldiff 493 (umask w)). cbv zeta. fold dir.
    split; [reflexivity|]. split; [reflexivity|]. split; [reflexivity|].
    cbn [files withFiles osTmpdir umask consumeFault withFaults].
    rewrite logged_osTmpdir, logged_umask. cbn.
    auto.
Qed.

(** X13. Two temporary scripts made one after the other never share a
    path, and the second leaves the first in place: after both calls each
    path holds the text it was written with.  The permission bits of a
    script that was newly created are 0o755 less the bits of the mask of
    the process. *)
Theorem ensureTempScript_twice
  (c1 c2 : string) (w w1 w2 : World) (p1 p2 : string) (k1 k2 : Eff unit) :
  ensureTempScript c1 w = Normal (p1, k1) w1 ->
  ensureTempScript c2 w1 = Normal (p2, k2) w2 ->
  p1 <> p2
  /\ exists bits1 bits2,
      files w2 !! p1 = Some (File c1 bits1)
      /\ files w2 !! p2 = Some (File c2 bits2)
      /\ (files w !! p1 = None -> bits1 = N.ldiff 493 (umask w))
      /\ (files w1 !! p2 = None -> bits2 = N.ldiff 493 (umask w)).
Proof.
  intros H1 H2.
  destruct (ensureTempScript_inv _ _ _ _ _ H1)
    as (s1 & r1 & b1 & Hf1 & Hp1 & _ & Hw1 & Hb1 & Ht1 & Hu1).
  destruct (ensureTempScript_inv _ _ _ _ _ H2)
    as (s2 & r2 & b2 & Hf2 & Hp2 & _ & Hw2 & Hb2 & _).
  rewrite Ht1 in Hf2, Hp2, Hw2. rewrite Hu1 in Hb2.
  set (pre := pathJoin (osTmpdir w) "open-in-terminal-") in *.
  apply firstFresh_unused in Hf2.
  assert (Hd : pre +:+ s2 <> pre +:+ s1).
  { intros E. rewrite E, Hw1 in Hf2.
    rewrite lookup_insert_ne in Hf2.
    - rewrite lookup_insert_eq in Hf2. discriminate.
    - rewrite Hp1. exact (pathJoin_ne _ _). }
  assert (Hp : p1 <> p2).
  { rewrite Hp1, Hp2. unfold pathJoin. intros E. apply append_inj_r in E. congruence. }
  assert (Hpd : p1 <> pre +:+ s2).
  { intros E. rewrite <- E, Hw1, lookup_insert_eq in Hf2. discriminate. }
  split; [exact Hp|]. exists b1, b2. rewrite Hw2. split; [|split; [|split]].
  - rewrite lookup_insert_ne by congruence.
    rewrite lookup_insert_ne by congruence.
    rewrite Hw1. apply lookup_insert_eq.
  - apply lookup_insert_eq.
  - exact Hb1.
  - exact Hb2.
Qed.

Lemma ensureTempScript_twice_witness :
  exists p1 k1 w1 p2 k2 w2,
    ensureTempScript "one" (withSuffixes ["Ab3xZ9"; "Qq12rT"] quietWorld) = Normal (p1, k1) w1
    /\ ensureTempScript "two" w1 = Normal (p2, k2) w2
    /\ p1 <> p2
    /\ exists bits1 bits2,
        files w2 !! p1 = Some (File "one" bits1)
        /\ files w2 !! p2 = Some (File "two" bits2)
        /\ (files (withSuffixes ["Ab3xZ9"; "Qq12rT"] quietWorld) !! p1 = None ->
            bits1 = N.ldiff 493 (umask (withSuffixes ["Ab3xZ9"; "Qq12rT"] quietWorld)))
        /\ (files w1 !! p2 = None ->
            bits2 = N.ldiff 493 (umask (withSuffixes ["Ab3xZ9"; "Qq12rT"] quietWorld))).
Proof.
  destruct (ensureTempScript "one" (withSuffixes ["Ab3xZ9"; "Qq12rT"] quietWorld))
    as [[p1 k1] w1|] eqn:R1; [|discriminate R1].
  destruct (ensureTempScript "two" w1) as [[p2 k2] w2|] eqn:R2;
    [|inversion R1; subst; discriminate R2].
  exists p1, k1, w1, p2, k2, w2.
  split; [reflexivity|]. split; [exact R2|].
  exact (ensureTempScript_twice _ _ _ _ _ _ _ _ _ R1 R2).
Defined.

(** *** The target registry *)

(** X14. The terminal-only target is enabled under every settings object
    and an optional target exactly when its flag is set; a toggle of the
    settings tab changes the targets of its own key and no other; and
    switching a toggle on, compared with switching it off, adds exactly one
    command to those that [refreshCommands] registers. *)
Theorem toggles_gate_one_target_each
  (s : OpenInTerminalSettings) (key : Targets.OptionalTargetSettingKey) (value : bool) :
  (forall t, Targets.settingKey t = None -> Targets.isTargetEnabled s t = true)
  /\ (forall t k, Targets.settingKey t = Some k ->
                  Targets.isTargetEnabled s t = Targets.readFlag s k)
  /\ (forall t, Targets.settingKey t = Some key ->
                Targets.isTargetEnabled (Targets.writeFlag s key value) t = value)
  /\ (forall t, Targets.settingKey t <> Some key ->
                Targets.isTargetEnabled (Targets.writeFlag s key value) t
                = Targets.isTargetEnabled s t)
  /\ length (filter (fun t => Targets.isTargetEnabled (Targets.writeFlag s key true) t = true)
               Targets.launchTargets)
     = S (length (filter (fun t => Targets.isTargetEnabled (Targets.writeFlag s key false) t
                                   = true)
                    Targets.launchTargets)).
Proof.
  split; [|split; [|split; [|split]]].
  - intros t Ht. unfold Targets.isTargetEnabled. rewrite Ht. reflexivity.
  - intros t k Ht. unfold Targets.isTargetEnabled. rewrite Ht. reflexivity.
  - intros t Ht. unfold Targets.isTargetEnabled. rewrite Ht. destruct key; reflexivity.
  - intros t Ht. unfold Targets.isTargetEnabled.
    destruct (Targets.settingKey t) as [k|]; [|reflexivity].
    destruct key, k; try reflexivity; congruence.
  - destruct s as [t c1 c2 c3 c4 c5 c6].
    destruct key, c1, c2, c3, c4, c5; reflexivity.
Qed.

Lemma toggles_gate_one_target_each_witness :
  Targets.isTargetEnabled (Targets.writeFlag cmdSettings Targets.EnableGemini true)
    {| Targets.id := "open-gemini"; Targets.commandName := "Open in Gemini cli";
       Targets.toolCommand := Some "gemini"; Targets.settingKey := Some Targets.EnableGemini;
       Targets.settingLabel := Some "Gemini cli" |}
  = true.
Proof.
  apply (proj1 (proj2 (proj2
           (toggles_gate_one_target_each cmdSettings Targets.EnableGemini true)))).
  reflexivity.
Defined.

(** *** Refreshing the palette *)

Section Refresh.

Import Targets CommandManager Plugin.

Variable s : OpenInTerminalSettings.
Variable m : string.

Lemma fullId_inj (t t' : LaunchTarget) :
  fullId m t = fullId m t' -> Targets.id t = Targets.id t'.
Proof.
  unfold fullId. intros H. apply append_inj_l in H.
  apply (append_inj_l _ _ ":"), H.
Qed.

Lemma launchTargets_fullId_NoDup : List.NoDup (map (fullId m) launchTargets).
Proof.
  unfold launchTargets, optionalLaunchTargets. simpl.
  repeat (constructor;
          [simpl; intros H;
           repeat (destruct H as [H|H];
                   [apply fullId_inj in H; discriminate H|]); exact H|]).
  constructor.
Qed.

Lemma setAdd_fresh (x : string) (set : list string) :
  ~ In x set -> setAdd x set = (set ++ [x])%list.
Proof.
  intros H. unfold setAdd.
  destruct (existsb (String.eqb x) set) eqn:E; [|reflexivity].
  apply existsb_exists in E as (y & Hy & Exy). apply String.eqb_eq in Exy. subst.
  contradiction.
Qed.

Lemma registerTargets_cons t ts start :
  registerTargets s m (t :: ts) start
  = registerTargets s m ts
      (if negb (isTargetEnabled s t) then start
       else (addCommand m t start.1, setAdd (fullId m t) start.2)).
Proof. reflexivity. Qed.

Lemma registerTargets_lookup_other ts pal ids k :
  (forall t, In t ts -> isTargetEnabled s t = true -> fullId m t <> k) ->
  (registerTargets s m ts (pal, ids)).1 !! k = pal !! k.
Proof.
  revert pal ids. induction ts as [|t ts IH]; intros pal ids H; [reflexivity|].
  rewrite registerTargets_cons.
  destruct (isTargetEnabled s t) eqn:E; simpl.
  - rewrite IH by (intros t' Ht'; apply H; right; exact Ht').
    unfold addCommand. apply lookup_insert_ne. apply H; [left; reflexivity | exact E].
  - apply IH. intros t' Ht'. apply H. right. exact Ht'.
Qed.

Lemma registerTargets_lookup_enabled ts pal ids t :
  List.NoDup (map (fullId m) ts) -> In t ts -> isTargetEnabled s t = true ->
  (registerTargets s m ts (pal, ids)).1 !! fullId m t = Some (paletteCommandOf t).
Proof.
  revert pal ids. induction ts as [|t0 ts IH]; intros pal ids Hnd Hin He; [destruct Hin|].
  inversion Hnd as [|? ? Hnotin Hnd']; subst.
  rewrite registerTargets_cons. destruct Hin as [->|Hin].
  - rewrite He. simpl. rewrite registerTargets_lookup_other.
    + unfold addCommand. apply lookup_insert_eq.
    + intros t' Ht' _ E. apply Hnotin. rewrite <- E. apply in_map, Ht'.
  - destruct (negb (isTargetEnabled s t0)); apply IH; assumption.
Qed.

Lemma registerTargets_ids ts pal ids :
  List.NoDup (map (fullId m) ts) ->
  (forall t, In t ts -> ~ In (fullId m t) ids) ->
  (registerTargets s m ts (pal, ids)).2
  = (ids ++ map (fullId m) (List.filter (isTargetEnabled s) ts))%list.
Proof.
  revert pal ids. induction ts as [|t ts IH]; intros pal ids Hnd Hfresh.
  - simpl. rewrite app_nil_r. reflexivity.
  - inversion Hnd as [|? ? Hnotin Hnd']; subst.
    rewrite registerTargets_cons. simpl List.filter.
    destruct (isTargetEnabled s t) eqn:E; simpl negb; cbv iota.
    + rewrite IH.
      * cbn [snd]. rewrite setAdd_fresh by (apply Hfresh; left; reflexivity).
        rewrite <- app_assoc. reflexivity.
      * exact Hnd'.
      * intros t' Ht'. cbn [snd]. rewrite setAdd_fresh by (apply Hfresh; left; reflexivity).
        intros Hin. apply in_app_or in Hin as [Hin|[Hin|[]]].
        -- exact (Hfresh t' (or_intror Ht') Hin).
        -- apply Hnotin. rewrite Hin. apply in_map, Ht'.
    + apply IH; [exact Hnd'|]. intros t' Ht'. apply Hfresh. right. exact Ht'.
Qed.

Lemma removeRegistered_cons x ids (pal : gmap string PaletteCommand) :
  removeRegistered (x :: ids) pal
  = removeRegistered ids (match pal !! x with Some _ => delete x pal | None => pal end).
Proof. reflexivity. Qed.

Lemma removeRegistered_lookup ids (pal : gmap string PaletteCommand) k :
  (In k ids -> removeRegistered ids pal !! k = None)
  /\ (~ In k ids -> removeRegistered ids pal !! k = pal !! k).
Proof.
  revert pal. induction ids as [|x ids IH]; intros pal.
  - split; [intros []|reflexivity].
  - rewrite removeRegistered_cons.
    assert (Hstep : forall j,
               match pal !! x with Some _ => delete x pal | None => pal end !! j
               = if String.eqb j x then None else pal !! j).
    { intros j. destruct (String.eqb j x) eqn:E.
      - apply String.eqb_eq in E. subst j.
        destruct (pal !! x) eqn:Hx; [apply lookup_delete_eq | exact Hx].
      - apply String.eqb_neq in E.
        destruct (pal !! x); [apply lookup_delete_ne; congruence | reflexivity]. }
    destruct (IH (match pal !! x with Some _ => delete x pal | None => pal end))
      as (IH1 & IH2).
    split.
    + intros [->|Hin].
      * destruct (in_dec string_dec k ids) as [Hk|Hk]; [exact (IH1 Hk)|].
        rewrite (IH2 Hk), Hstep, String.eqb_refl. reflexivity.
      * exact (IH1 Hin).
    + intros Hnot. rewrite IH2 by (intros Hin; apply Hnot; right; exact Hin).
      rewrite Hstep. destruct (String.eqb k x) eqn:E; [|reflexivity].
      apply String.eqb_eq in E. subst. exfalso. apply Hnot. left. reflexivity.
Qed.

Lemma enabledIds_spec k :
  In k (enabledIds s m)
  <-> exists t, In t launchTargets /\ isTargetEnabled s t = true /\ fullId m t = k.
Proof.
  unfold enabledIds. rewrite in_map_iff. split.
  - intros (t & <- & Ht). apply filter_In in Ht as (Hin & He). eauto.
  - intros (t & Hin & He & <-). exists t. split; [reflexivity|].
    apply filter_In. auto.
Qed.

End Refresh.

Lemma refreshCommands_ids (st : Plugin.PluginState) :
  Plugin.registeredCommandIds (Plugin.refreshCommands st)
  = enabledIds (Plugin.settings st) (Plugin.manifestId st).
Proof.
  unfold Plugin.refreshCommands. cbn [Plugin.registeredCommandIds].
  rewrite registerTargets_ids.
  - reflexivity.
  - apply launchTargets_fullId_NoDup.
  - intros t _ [].
Qed.

Lemma refreshCommands_lookup_enabled (st : Plugin.PluginState) (t : Targets.LaunchTarget) :
  In t Targets.launchTargets ->
  Targets.isTargetEnabled (Plugin.settings st) t = true ->
  Plugin.palette (Plugin.refreshCommands st) !! Plugin.fullId (Plugin.manifestId st) t
  = Some (paletteCommandOf t).
Proof.
  intros Hin He. unfold Plugin.refreshCommands. cbn [Plugin.palette].
  apply registerTargets_lookup_enabled; [apply launchTargets_fullId_NoDup | exact Hin | exact He].
Qed.

Lemma refreshCommands_lookup_other (st : Plugin.PluginState) (k : string) :
  ~ In k (enabledIds (Plugin.settings st) (Plugin.manifestId st)) ->
  Plugin.palette (Plugin.refreshCommands st) !! k
  = match CommandManager.resolveCommandManager (Plugin.appCommands st) with
    | Some _ => if in_dec string_dec k (Plugin.registeredCommandIds st) then None
                else Plugin.palette st !! k
    | None => Plugin.palette st !! k
    end.
Proof.
  intros Hk. unfold Plugin.refreshCommands. cbn [Plugin.palette].
  rewrite registerTargets_lookup_other.
  - destruct (CommandManager.resolveCommandManager (Plugin.appCommands st)); [|reflexivity].
    destruct (removeRegistered_lookup (Plugin.registeredCommandIds st) (Plugin.palette st) k)
      as (H1 & H2).
    destruct (in_dec string_dec k (Plugin.registeredCommandIds st)); auto.
  - intros t Hin He E. apply Hk. apply enabledIds_spec. eauto.
Qed.

(** X15. After [refreshCommands] the set of registered identifiers is
    rebuilt from the settings alone: it holds the full identifiers of the
    enabled targets, in the order of the registry and each once, whatever
    was registered before; the terminal-only command is always among
    them. *)
Theorem refreshCommands_registers_enabled_targets (st : Plugin.PluginState) :
  Plugin.registeredCommandIds (Plugin.refreshCommands st)
  = enabledIds (Plugin.settings st) (Plugin.manifestId st)
  /\ List.NoDup (Plugin.registeredCommandIds (Plugin.refreshCommands st))
  /\ hd_error (Plugin.registeredCommandIds (Plugin.refreshCommands st))
     = Some (Plugin.manifestId st +:+ ":open-terminal")
  /\ (forall t, In t Targets.launchTargets ->
                (In (Plugin.fullId (Plugin.manifestId st) t)
                    (Plugin.registeredCommandIds (Plugin.refreshCommands st))
                 <-> Targets.isTargetEnabled (Plugin.settings st) t = true)).
Proof.
  rewrite refreshCommands_ids.
  split; [reflexivity|]. split; [|split].
  - unfold enabledIds.
    pose proof (launchTargets_fullId_NoDup (Plugin.manifestId st)) as Hnd.
    revert Hnd. generalize Targets.launchTargets.
    induction l as [|t l IH]; intros Hnd; [constructor|].
    inversion Hnd as [|? ? Hnotin Hnd']; subst. simpl.
    destruct (Targets.isTargetEnabled (Plugin.settings st) t); [|exact (IH Hnd')].
    simpl. constructor; [|exact (IH Hnd')].
    intros Hin. apply Hnotin. apply in_map_iff in Hin as (t' & E & Ht').
    apply filter_In in Ht' as (Ht' & _). rewrite <- E. apply in_map, Ht'.
  - reflexivity.
  - intros t Hin. rewrite enabledIds_spec. split.
    + intros (t' & Hin' & He & E).
      assert (t' = t); [|subst; exact He].
      pose proof (launchTargets_fullId_NoDup (Plugin.manifestId st)) as Hnd.
      revert Hin Hin' Hnd E. generalize Targets.launchTargets.
      induction l as [|t0 l IH]; intros Hin Hin' Hnd E; [destruct Hin|].
      inversion Hnd as [|? ? Hnotin Hnd']; subst.
      destruct Hin as [->|Hin], Hin' as [->|Hin'].
      * reflexivity.
      * exfalso. apply Hnotin. rewrite <- E. apply in_map, Hin'.
      * exfalso. apply Hnotin. rewrite E. apply in_map, Hin.
      * exact (IH Hin Hin' Hnd' E).
    + intros He. eauto.
Qed.

(** X16. What [refreshCommands] leaves in the palette.  Every enabled
    target is there under its full identifier, with its name and itself as
    target.  With a command manager, an identifier that was registered
    before and belongs to no enabled target is gone.  Every identifier that
    is neither of an enabled target nor registered before is as it was, so
    commands of others are not touched; and without a command manager
    nothing is removed at all. *)
Theorem refreshCommands_palette (st : Plugin.PluginState) :
  let st' := Plugin.refreshCommands st in
  let ids' := enabledIds (Plugin.settings st) (Plugin.manifestId st) in
  (forall t, In t Targets.launchTargets ->
             Targets.isTargetEnabled (Plugin.settings st) t = true ->
             Plugin.palette st' !! Plugin.fullId (Plugin.manifestId st) t
             = Some (paletteCommandOf t))
  /\ (forall k c, CommandManager.resolveCommandManager (Plugin.appCommands st) = Some c ->
                  In k (Plugin.registeredCommandIds st) -> ~ In k ids' ->
                  Plugin.palette st' !! k = None)
  /\ (forall k, ~ In k ids' -> ~ In k (Plugin.registeredCommandIds st) ->
                Plugin.palette st' !! k = Plugin.palette st !! k)
  /\ (forall k, CommandManager.resolveCommandManager (Plugin.appCommands st) = None ->
                ~ In k ids' ->
                Plugin.palette st' !! k = Plugin.palette st !! k).
Proof.
  intros st' ids'. subst st' ids'.
  split; [|split; [|split]].
  - intros t Hin He. apply refreshCommands_lookup_enabled; assumption.
  - intros k c Hc Hin Hk. rewrite (refreshCommands_lookup_other st k Hk), Hc.
    destruct (in_dec string_dec k (Plugin.registeredCommandIds st)); [reflexivity|contradiction].
  - intros k Hk Hnot. rewrite (refreshCommands_lookup_other st k Hk).
    destruct (CommandManager.resolveCommandManager (Plugin.appCommands st)); [|reflexivity].
    destruct (in_dec string_dec k (Plugin.registeredCommandIds st)); [contradiction|reflexivity].
  - intros k Hc Hk. rewrite (refreshCommands_lookup_other st k Hk), Hc. reflexivity.
Qed.

(** X17. [refreshCommands] is idempotent: a second refresh changes neither
    the palette nor the registered identifiers, with or without a command
    manager. *)
Theorem refreshCommands_idempotent (st : Plugin.PluginState) :
  Plugin.refreshCommands (Plugin.refreshCommands st) = Plugin.refreshCommands st.
Proof.
  assert (Hids : Plugin.registeredCommandIds (Plugin.refreshCommands (Plugin.refreshCommands st))
                 = Plugin.registeredCommandIds (Plugin.refreshCommands st)).
  { rewrite !refreshCommands_ids. reflexivity. }
  assert (Hpal : Plugin.palette (Plugin.refreshCommands (Plugin.refreshCommands st))
                 = Plugin.palette (Plugin.refreshCommands st)).
  { apply map_eq. intros k.
    destruct (in_dec string_dec k (enabledIds (Plugin.settings st) (Plugin.manifestId st)))
      as [Hin|Hnot].
    - apply enabledIds_spec in Hin as (t & Hin & He & <-).
      rewrite (refreshCommands_lookup_enabled st t Hin He).
      apply (refreshCommands_lookup_enabled (Plugin.refreshCommands st) t Hin He).
    - rewrite (refreshCommands_lookup_other (Plugin.refreshCommands st) k Hnot).
      cbn [Plugin.appCommands Plugin.refreshCommands].
      destruct (CommandManager.resolveCommandManager (Plugin.appCommands st)); [|reflexivity].
      rewrite refreshCommands_ids.
      destruct (in_dec string_dec k _); [contradiction|reflexivity]. }
  destruct (Plugin.refreshCommands (Plugin.refreshCommands st)) as [a b c d e] eqn:E2.
  destruct (Plugin.refreshCommands st) as [a' b' c' d' e'] eqn:E1.
  simpl in Hids, Hpal. subst.
  assert (Hrest : a = a' /\ d = d' /\ e = e').
  { pose proof (f_equal Plugin.settings E2) as H1.
    pose proof (f_equal Plugin.appCommands E2) as H2.
    pose proof (f_equal Plugin.manifestId E2) as H3.
    simpl in H1, H2, H3. auto. }
  destruct Hrest as (-> & -> & ->). reflexivity.
Qed.

Lemma refreshCommands_palette_witness :
  Plugin.palette (Plugin.refreshCommands samplePlugin) !! "oit:open-codex" = None
  /\ Plugin.palette (Plugin.refreshCommands samplePlugin) !! "other:sync"
     = Plugin.palette samplePlugin !! "other:sync".
Proof.
  destruct (refreshCommands_palette samplePlugin) as (_ & Hgone & Hkept & _).
  split.
  - apply (Hgone "oit:open-codex" _ eq_refl).
    + right. left. reflexivity.
    + simpl. intros [H|[H|[]]]; discriminate H.
  - apply Hkept.
    + simpl. intros [H|[H|[]]]; discriminate H.
    + simpl. intros [H|[H|[]]]; discriminate H.
Defined.

(** *** Running a launch command *)

Section Running.

Import Shell.

Lemma executeShellCommand_run (vaultPath : string) (lc : LaunchCommand) (label : string)
  (d : Desk) :
  executeShellCommand (Some vaultPath) lc label d
  = Done tt
      match hd None (spawnFaults d) with
      | None =>
          {| world := logged "Spawned command successfully"
                        (logged "Spawning command" (world d));
             notices := notices d;
             consoleErrors := consoleErrors d;
             spawned := spawned d ++ [(command lc, vaultPath)];
             timers := timers d ++ scheduledFor lc;
             spawnFaults := tl (spawnFaults d) |}
      | Some e =>
          {| world := logged "Spawning command" (world d);
             notices := notices d ++ [failedNotice label];
             consoleErrors :=
               consoleErrors d
               ++ ["[open-in-terminal] Unexpected error for '" +:+ command lc +:+ "':"];
             spawned := spawned d;
             timers := timers d ++ scheduledFor lc;
             spawnFaults := tl (spawnFaults d) |}
      end.
Proof.
  unfold executeShellCommand, tryCatchFinally, andThen, onHost, spawn, scheduledFor.
  rewrite logger_log_run. cbn [withWorld world spawnFaults].
  destruct (hd None (spawnFaults d)) as [e|].
  - unfold console_error, newNotice. cbn.
    destruct (cleanup lc); cbn; rewrite ?app_nil_r; reflexivity.
  - cbn [world withWorld]. rewrite logger_log_run.
    destruct (cleanup lc); cbn; rewrite ?app_nil_r; reflexivity.
Qed.

Lemma commandCallback_run P s adapter (target : Targets.LaunchTarget) (d : Desk) :
  commandCallback P s adapter target d
  = match composeLaunchCommand P s adapter (Targets.toolCommand target) (world d) with
    | Normal None w =>
        newNotice (unableNotice (Targets.commandName target)) (withWorld w d)
    | Normal (Some lc) w =>
        executeShellCommand adapter lc (Targets.commandName target) (withWorld w d)
    | Thrown e w => Raised e (withWorld w d)
    end.
Proof.
  unfold commandCallback, runLaunchCommand, andThen, onHost.
  destruct (composeLaunchCommand _ _ _ _ _) as [[lc|] w|e w]; reflexivity.
Qed.

End Running.

Lemma delayedCleanup_returns (c : Eff unit) (w : World) :
  exists w', Shell.delayedCleanup c w = Normal tt w'.
Proof.
  unfold Shell.delayedCleanup, tryCatch.
  destruct (c w) as [[] w'|e w']; [eauto|].
  unfold console_warn. eauto.
Qed.

(** X18. [executeShellCommand] never throws, whether [spawn] succeeds or
    throws.  With a file-system adapter it hands the cleanup of the launch
    command, when there is one, to exactly one timer of 30000 ms, also when
    [spawn] has thrown, and schedules nothing when there is none; without
    such an adapter it schedules nothing.  A scheduled callback never
    throws, whatever the cleanup in it does. *)
Theorem executeShellCommand_completes
  (adapter : option string) (lc : LaunchCommand) (label : string) (d : Shell.Desk) :
  exists d',
    Shell.executeShellCommand adapter lc label d = Shell.Done tt d'
    /\ Shell.timers d'
       = match adapter with
         | Some _ => (Shell.timers d ++ scheduledFor lc)%list
         | None => Shell.timers d
         end
    /\ (scheduledFor lc
        = match cleanup lc with
          | Some c => [(30000%N, Shell.delayedCleanup c)]
          | None => []
          end)
    /\ (forall c w, exists w', Shell.delayedCleanup c w = Normal tt w').
Proof.
  destruct adapter as [vaultPath|].
  - rewrite executeShellCommand_run. eexists. split; [reflexivity|].
    split; [destruct (hd None (Shell.spawnFaults d)); reflexivity|].
    split; [reflexivity | apply delayedCleanup_returns].
  - eexists. split; [reflexivity|]. split; [reflexivity|].
    split; [reflexivity | apply delayedCleanup_returns].
Qed.

(** X19. What the user sees of [executeShellCommand].  When [spawn]
    succeeds, exactly one process is started, with the command of the
    launch command and the vault as working directory, and no notice is
    shown.  When [spawn] throws, no process is started, one notice naming
    the command is shown and one line goes to the error console.  Without a
    file-system adapter only the notice about the adapter is shown.  When
    the started process reports an error later, its listener shows the same
    notice and writes one line to the error console. *)
Theorem executeShellCommand_reports
  (adapter : option string) (lc : LaunchCommand) (label : string) (d : Shell.Desk) :
  let d' := finalDesk (Shell.executeShellCommand adapter lc label d) in
  (forall vaultPath, adapter = Some vaultPath -> hd None (Shell.spawnFaults d) = None ->
                     Shell.spawned d' = (Shell.spawned d ++ [(command lc, vaultPath)])%list
                     /\ Shell.notices d' = Shell.notices d
                     /\ Shell.consoleErrors d' = Shell.consoleErrors d)
  /\ (forall vaultPath e, adapter = Some vaultPath -> hd None (Shell.spawnFaults d) = Some e ->
                          Shell.spawned d' = Shell.spawned d
                          /\ Shell.notices d' = (Shell.notices d ++ [failedNotice label])%list
                          /\ length (Shell.consoleErrors d')
                             = S (length (Shell.consoleErrors d)))
  /\ (adapter = None ->
      Shell.spawned d' = Shell.spawned d
      /\ Shell.notices d'
         = (Shell.notices d
            ++ ["File system adapter not available. This plugin works only on desktop."])%list)
  /\ (exists d'',
         Shell.childErrorListener lc label d = Shell.Done tt d''
         /\ Shell.notices d'' = (Shell.notices d ++ [failedNotice label])%list
         /\ length (Shell.consoleErrors d'') = S (length (Shell.consoleErrors d))
         /\ Shell.spawned d'' = Shell.spawned d).
Proof.
  intros d'. subst d'. split; [|split; [|split]].
  - intros v -> Hs. rewrite executeShellCommand_run, Hs. simpl. auto.
  - intros v e -> Hs. rewrite executeShellCommand_run, Hs. simpl.
    rewrite length_app. simpl. split; [reflexivity|]. split; [reflexivity|]. lia.
  - intros ->. simpl. auto.
  - eexists. split; [reflexivity|]. simpl. rewrite length_app. simpl.
    split; [reflexivity|]. split; [lia | reflexivity].
Qed.

Lemma executeShellCommand_reports_witness :
  Shell.spawned
    (finalDesk (Shell.executeShellCommand (Some "/home/a/vault")
                  {| command := "alacritty"; cleanup := None |} "Open in terminal"
                  (freshDesk quietWorld)))
  = [("alacritty", "/home/a/vault")].
Proof.
  apply (proj1 (executeShellCommand_reports (Some "/home/a/vault")
                  {| command := "alacritty"; cleanup := None |} "Open in terminal"
                  (freshDesk quietWorld)) "/home/a/vault" eq_refl eq_refl).
Defined.

(** X20. When no launch command can be composed (no file-system adapter,
    or no terminal application for the current platform) the callback of a
    command shows one notice that names the command, starts no process,
    schedules nothing and does not throw. *)
Theorem commandCallback_without_command
  (P : PlatformFacts) (s : OpenInTerminalSettings) (adapter : option string)
  (target : Targets.LaunchTarget) (d : Shell.Desk) :
  adapter = None \/ trim (getCurrentTerminalApp P (terminalApp s)) = EmptyString ->
  exists d',
    Shell.commandCallback P s adapter target d = Shell.Done tt d'
    /\ Shell.notices d' = (Shell.notices d ++ [unableNotice (Targets.commandName target)])%list
    /\ Shell.spawned d' = Shell.spawned d
    /\ Shell.timers d' = Shell.timers d
    /\ files (Shell.world d') = files (Shell.world d).
Proof.
  intros H. rewrite commandCallback_run.
  destruct adapter as [vaultPath|].
  - destruct H as [H|H]; [discriminate H|].
    rewrite composeLaunchCommand_run.
    assert (Hb : buildLaunchCommand P (getCurrentTerminalApp P (terminalApp s)) vaultPath
                   (Targets.toolCommand target) (Shell.world d)
                 = Normal None (Shell.world d)).
    { unfold buildLaunchCommand. destruct (isDesktopApp P); [|reflexivity]. cbn [negb].
      destruct (builders_null_unchanged _ vaultPath (Targets.toolCommand target)
                  (Shell.world d) H) as (Hm & Hw & Hu).
      destruct (isMacOS P); [exact Hm|]. destruct (isWin P); assumption. }
    rewrite Hb. eexists. split; [reflexivity|]. simpl. rewrite logged_files. auto.
  - simpl. eexists. split; [reflexivity|]. simpl. auto.
Qed.

Lemma commandCallback_without_command_witness :
  exists d',
    Shell.commandCallback linuxPlatform cmdSettings (Some "/home/a/vault") terminalTarget
      (freshDesk quietWorld)
    = Shell.Done tt d'
    /\ Shell.notices d' = [unableNotice "Open in terminal"]
    /\ Shell.spawned d' = []
    /\ Shell.timers d' = []
    /\ files (Shell.world d') = files quietWorld.
Proof.
  exact (commandCallback_without_command linuxPlatform cmdSettings (Some "/home/a/vault")
           terminalTarget (freshDesk quietWorld) (or_intror eq_refl)).
Defined.

(** X21. One invocation of a command starts at most one process, and a
    process it starts always has the vault as working directory. *)
Theorem commandCallback_spawns_in_vault
  (P : PlatformFacts) (s : OpenInTerminalSettings) (vaultPath : string)
  (target : Targets.LaunchTarget) (d : Shell.Desk) :
  let d' := finalDesk (Shell.commandCallback P s (Some vaultPath) target d) in
  Shell.spawned d' = Shell.spawned d
  \/ exists commandLine, Shell.spawned d' = (Shell.spawned d ++ [(commandLine, vaultPath)])%list.
Proof.
  intros d'. subst d'. rewrite commandCallback_run.
  destruct (composeLaunchCommand _ _ _ _ _) as [[lc|] w|e w].
  - rewrite executeShellCommand_run. simpl.
    destruct (hd None (Shell.spawnFaults d)); simpl; eauto.
  - left. reflexivity.
  - left. reflexivity.
Qed.

Lemma macos_current_app P t :
  platformCategory P = MacOS ->
  getCurrentTerminalApp P t = default EmptyString (macos t).
Proof.
  unfold platformCategory, getCurrentTerminalApp, getCurrentDesktopPlatform.
  destruct (isDesktopApp P); simpl; [|discriminate].
  destruct (isMacOS P); [reflexivity|]. destruct (isWin P); discriminate.
Qed.

(** X22. A tool command on macOS from end to end.  On a host where the
    file-system calls and [spawn] succeed and nothing is filed yet under
    the path of the script, invoking a target with a tool command creates
    the script for the vault with the permission bits 0o755 less the bits
    of the mask of the process, starts open -na "<app>" "<script>" in the
    vault (every double quote of the application name preceded by a
    backslash), shows no notice and leaves exactly one timer of 30000 ms;
    when that timer fires (and the host does not fail the removal) neither
    the script nor its directory is left. *)
Theorem commandCallback_macos_tool
  (P : PlatformFacts) (s : OpenInTerminalSettings) (vaultPath app t : string)
  (target : Targets.LaunchTarget) (d : Shell.Desk) (sfx : string) (rest : list string) :
  platformCategory P = MacOS ->
  macos (terminalApp s) = Some app ->
  trim app <> EmptyString ->
  Targets.toolCommand target = Some t ->
  t <> EmptyString ->
  nextFault (Shell.world d) = None ->
  nextFault (consumeFault (Shell.world d)) = None ->
  firstFresh (files (Shell.world d))
    (pathJoin (osTmpdir (Shell.world d)) "open-in-terminal-") (suffixes (Shell.world d))
  = Some (sfx, rest) ->
  hd None (Shell.spawnFaults d) = None ->
  let tempDir := pathJoin (osTmpdir (Shell.world d)) "open-in-terminal-" +:+ sfx in
  let script := pathJoin tempDir "launch.command" in
  files (Shell.world d) !! script = None ->
  exists d',
    Shell.commandCallback P s (Some vaultPath) target d = Shell.Done tt d'
    /\ Shell.spawned d'
       = (Shell.spawned d
          ++ [("open -na " +:+ inQuotes (backslashQuoted (trim app)) +:+ " "
               +:+ inQuotes script, vaultPath)])%list
    /\ Shell.notices d' = Shell.notices d
    /\ Shell.timers d'
       = (Shell.timers d
          ++ [(30000%N, Shell.delayedCleanup (tempScriptCleanup tempDir))])%list
    /\ files (Shell.world d') !! script
       = Some (File (macScript vaultPath t) (N.ldiff 493 (umask (Shell.world d))))
    /\ forall w1 : World,
        nextFault w1 = None ->
        exists w2,
          Shell.delayedCleanup (tempScriptCleanup tempDir) w1 = Normal tt w2
          /\ files w2 !! script = None
          /\ files w2 !! tempDir = None.
Proof.
  intros HP Happ Hne Htool Ht F1 F2 Hfresh Hspawn tempDir script Hfree.
  rewrite commandCallback_run, composeLaunchCommand_run.
  rewrite (macos_current_app P _ HP), Happ, Htool. cbn [from_option id].
  rewrite (buildLaunchCommand_on_macos _ _ _ _ HP).
  destruct (buildMacLaunch_tool_run app vaultPath t (Shell.world d) sfx rest
              Hne Ht F1 F2 Hfresh Hfree) as (w1 & Hrun & Hfiles).
  fold tempDir in Hrun, Hfiles. fold script in Hrun, Hfiles.
  rewrite Hrun, executeShellCommand_run. cbn [Shell.spawnFaults Shell.withWorld].
  rewrite Hspawn. eexists. split; [reflexivity|].
  cbn [Shell.spawned Shell.notices Shell.timers Shell.world Shell.withWorld command].
  split; [reflexivity|]. split; [reflexivity|]. split; [reflexivity|].
  split.
  - rewrite !logged_files, Hfiles. apply lookup_insert_eq.
  - intros w2 Fw2. unfold Shell.delayedCleanup, tryCatch.
    rewrite (tempScriptCleanup_run_ok tempDir w2 Fw2).
    eexists. split; [reflexivity|]. rewrite logged_files. simpl.
    split; [apply rm_lookup_within, within_child | apply rm_lookup_within, within_self].
Qed.

Lemma commandCallback_macos_tool_witness :
  exists d',
    Shell.commandCallback macPlatform
      {| terminalApp := {| win := None; macos := Some ("i" +:+ dq +:+ "Term");
                           linux := None |};
         enableClaude := true; enableCodex := false; enableCursor := false;
         enableGemini := false; enableOpencode := false; enableWslOnWindows := false |}
      (Some "/vault") claudeTarget (freshDesk quietWorld)
    = Shell.Done tt d'
    /\ Shell.spawned d'
       = [("open -na " +:+ dq +:+ "i" +:+ String BACKSLASH dq +:+ "Term" +:+ dq +:+ " "
           +:+ dq +:+ "/tmp/open-in-terminal-Ab3xZ9/launch.command" +:+ dq, "/vault")]
    /\ Shell.timers d'
       = [(30000%N, Shell.delayedCleanup (tempScriptCleanup "/tmp/open-in-terminal-Ab3xZ9"))]
    /\ files (Shell.world d') !! "/tmp/open-in-terminal-Ab3xZ9/launch.command"
       = Some (File ("#!/bin/bash" +:+ nl +:+ "cd " +:+ inQuotes "/vault" +:+ nl
                     +:+ "claude" +:+ nl +:+ "exec " +:+ inQuotes "$SHELL") 493).
Proof.
  destruct (commandCallback_macos_tool macPlatform
              {| terminalApp := {| win := None; macos := Some ("i" +:+ dq +:+ "Term");
                                   linux := None |};
                 enableClaude := true; enableCodex := false; enableCursor := false;
                 enableGemini := false; enableOpencode := false;
                 enableWslOnWindows := false |}
              "/vault" ("i" +:+ dq +:+ "Term") "claude" claudeTarget (freshDesk quietWorld)
              "Ab3xZ9" []
              eq_refl eq_refl ltac:(vm_compute; discriminate) eq_refl ltac:(discriminate)
              eq_refl eq_refl eq_refl eq_refl eq_refl)
    as (d' & Hrun & Hsp & _ & Htm & Hfile & _).
  exists d'. split; [exact Hrun|]. split; [exact Hsp|]. split; [exact Htm | exact Hfile].
Defined.

(** X23. An exception of the file system escapes the callback.  When the
    host fails the write of the script on macOS, the callback of a target
    with a tool command throws; no notice is shown, no process is started
    and no timer is set, so the temporary directory that was created stays
    on the disk. *)
Theorem commandCallback_write_failure_escapes
  (P : PlatformFacts) (s : OpenInTerminalSettings) (vaultPath app t : string)
  (target : Targets.LaunchTarget) (d : Shell.Desk) (e : JsError)
  (sfx : string) (rest : list string) :
  platformCategory P = MacOS ->
  macos (terminalApp s) = Some app ->
  trim app <> EmptyString ->
  Targets.toolCommand target = Some t ->
  t <> EmptyString ->
  nextFault (Shell.world d) = None ->
  firstFresh (files (Shell.world d))
    (pathJoin (osTmpdir (Shell.world d)) "open-in-terminal-") (suffixes (Shell.world d))
  = Some (sfx, rest) ->
  nextFault (consumeFault (Shell.world d)) = Some e ->
  let tempDir := pathJoin (osTmpdir (Shell.world d)) "open-in-terminal-" +:+ sfx in
  exists d',
    Shell.commandCallback P s (Some vaultPath) target d = Shell.Raised e d'
    /\ Shell.notices d' = Shell.notices d
    /\ Shell.spawned d' = Shell.spawned d
    /\ Shell.timers d' = Shell.timers d
    /\ files (Shell.world d') !! tempDir = Some Directory.
Proof.
  intros HP Happ Hne Htool Ht F1 Hfresh F2 tempDir.
  rewrite commandCallback_run, composeLaunchCommand_run.
  rewrite (macos_current_app P _ HP), Happ, Htool. cbn [from_option id].
  rewrite (buildLaunchCommand_on_macos _ _ _ _ HP).
  rewrite (buildMacLaunch_tool_unfold app vaultPath t _ Hne Ht).
  destruct (ensureTempScript_write_fails (macScript vaultPath t) (Shell.world d) e sfx rest
              F1 Hfresh F2) as (w' & -> & Hf & _).
  eexists. split; [reflexivity|]. simpl.
  split; [reflexivity|]. split; [reflexivity|]. split; [reflexivity|].
  exact Hf.
Qed.

Lemma commandCallback_write_failure_escapes_witness :
  exists d',
    Shell.commandCallback macPlatform
      {| terminalApp := {| win := None; macos := Some "iTerm"; linux := None |};
         enableClaude := true; enableCodex := false; enableCursor := false;
         enableGemini := false; enableOpencode := false; enableWslOnWindows := false |}
      (Some "/vault") claudeTarget
      (freshDesk (withFaults [None; Some (SystemError "ENOSPC" "/tmp")] quietWorld))
    = Shell.Raised (SystemError "ENOSPC" "/tmp") d'
    /\ Shell.notices d' = []
    /\ Shell.spawned d' = []
    /\ Shell.timers d' = []
    /\ files (Shell.world d') !! "/tmp/open-in-terminal-Ab3xZ9" = Some Directory.
Proof.
  exact (commandCallback_write_failure_escapes macPlatform
           {| terminalApp := {| win := None; macos := Some "iTerm"; linux := None |};
              enableClaude := true; enableCodex := false; enableCursor := false;
              enableGemini := false; enableOpencode := false;
              enableWslOnWindows := false |}
           "/vault" "iTerm" "claude" claudeTarget
           (freshDesk (withFaults [None; Some (SystemError "ENOSPC" "/tmp")] quietWorld))
           (SystemError "ENOSPC" "/tmp") "Ab3xZ9" []
           eq_refl eq_refl ltac:(vm_compute; discriminate) eq_refl ltac:(discriminate)
           eq_refl eq_refl eq_refl).
Defined.

(** *** The platform, seen by the launcher and by the settings *)

(** X24. The launcher and the settings classify the platform alike: the
    slot that [getCurrentTerminalApp] reads is the one of the branch that
    [buildLaunchCommand] takes, and the summary that is logged names that
    branch.  Only a desktop that is none of the three known ones is taken
    to the Unix branch without having a slot. *)
Theorem platform_classifiers_agree (P : PlatformFacts) :
  (getCurrentDesktopPlatform P = Some Macos <-> platformCategory P = MacOS)
  /\ (getCurrentDesktopPlatform P = Some Win <-> platformCategory P = Windows)
  /\ (getCurrentDesktopPlatform P = Some Linux ->  platformCategory P = LinuxBsdDesktop)
  /\ (platformCategory P = NonDesktop -> getCurrentDesktopPlatform P = None)
  /\ (getPlatformSummary P = "desktop-macos" <-> platformCategory P = MacOS)
  /\ (getPlatformSummary P = "desktop-windows" <-> platformCategory P = Windows)
  /\ (getPlatformSummary P = "desktop-linux" <-> getCurrentDesktopPlatform P = Some Linux)
  /\ (getPlatformSummary P = "desktop-unknown"
      <-> platformCategory P = LinuxBsdDesktop /\ getCurrentDesktopPlatform P = None)
  /\ (defaultTerminalApp P = EmptyString <-> getCurrentDesktopPlatform P = None).
Proof.
  unfold getCurrentDesktopPlatform, platformCategory, getPlatformSummary, defaultTerminalApp.
  destruct (isDesktopApp P), (isMacOS P), (isWin P), (isLinux P),
    (isMobileApp P), (isIosApp P), (isAndroidApp P); simpl;
    repeat split; intros; try discriminate; try reflexivity;
    match goal with
    | H : _ /\ _ |- _ => destruct H; discriminate
    end.
Qed.
